(** * Isracard / Amex base scraper: a shallow embedding of
      [src/scrapers/base-isracard-amex.ts] and the properties of its
      login handshake and of its multi-month transaction pipeline. *)

From Stdlib Require Import ZArith QArith String Ascii DecimalString List Permutation Lia.
From stdpp Require Import base list strings.

Open Scope string_scope.
Open Scope list_scope.
Open Scope Z_scope.

(** ** JavaScript strings and integers

    Strings are the UTF-8 bytes of the JavaScript string.  For well-formed
    text a substring test on UTF-8 bytes agrees with [String.prototype.includes]
    on UTF-16 code units, and the class [\d] only matches the ASCII digits,
    whose bytes never occur inside a multi-byte sequence. *)

Module Js.

(** A number that comes out of [parseInt].  Doubles hold every integer of
    magnitude up to 2^53 exactly; [Approx z] is the double [parseInt]
    yields for a decimal integer [z] beyond that range, whose exact value
    the language leaves to the implementation. *)
Inductive JsInt :=
| NaN
| Int (z : Z)
| Approx (z : Z).

Definition MAX_EXACT : Z := 2 ^ 53.

Definition number_of_Z (z : Z) : JsInt :=
  if Z.abs z <=? MAX_EXACT then Int z else Approx z.

Definition code (c : ascii) : N := N_of_ascii c.

Definition is_digit (c : ascii) : bool :=
  ((48 <=? code c) && (code c <=? 57))%N.

Definition digit_value (c : ascii) : Z := Z.of_N (code c) - 48.

Fixpoint all_digits (s : string) : bool :=
  match s with
  | EmptyString => true
  | String c r => is_digit c && all_digits r
  end.

Fixpoint no_digits (s : string) : bool :=
  match s with
  | EmptyString => true
  | String c r => negb (is_digit c) && no_digits r
  end.

(** The value of a run of decimal digits, most significant first. *)
Fixpoint decimal_from (acc : Z) (s : string) : Z :=
  match s with
  | EmptyString => acc
  | String c r => decimal_from (10 * acc + digit_value c) r
  end.

Definition decimal (s : string) : Z := decimal_from 0 s.

(** The longest prefix of digits and what follows it. *)
Fixpoint span_digits (s : string) : string * string :=
  match s with
  | EmptyString => (EmptyString, EmptyString)
  | String c r =>
      if is_digit c
      then let '(ds, rest) := span_digits r in (String c ds, rest)
      else (EmptyString, s)
  end.

(** [StrWhiteSpaceChar]: the white space and line terminators that
    [parseInt] skips, in their UTF-8 encodings of one, two and three bytes. *)
Definition is_ws1 (a : ascii) : bool :=
  ((9 <=? code a) && (code a <=? 13) || (code a =? 32))%N.

Definition is_ws2 (a b : ascii) : bool :=
  ((code a =? 194) && (code b =? 160))%N.

Definition is_ws3 (a b c : ascii) : bool :=
  (((code a =? 225) && (code b =? 154) && (code c =? 128))
   || ((code a =? 226) && (code b =? 128)
       && ((128 <=? code c) && (code c <=? 138)
           || (code c =? 168) || (code c =? 169) || (code c =? 175)))
   || ((code a =? 226) && (code b =? 129) && (code c =? 159))
   || ((code a =? 227) && (code b =? 128) && (code c =? 128))
   || ((code a =? 239) && (code b =? 187) && (code c =? 191)))%N.

Fixpoint trimStart (s : string) : string :=
  match s with
  | EmptyString => s
  | String a r1 =>
      if is_ws1 a then trimStart r1
      else match r1 with
           | EmptyString => s
           | String b r2 =>
               if is_ws2 a b then trimStart r2
               else match r2 with
                    | EmptyString => s
                    | String c r3 =>
                        if is_ws3 a b c then trimStart r3 else s
                    end
           end
  end.

(** [parseInt(s, 10)]: leading white space, an optional sign, then the
    longest run of digits; [NaN] when that run is empty. *)
Definition split_sign (s : string) : bool * string :=
  match s with
  | String "-" r => (true, r)
  | String "+" r => (false, r)
  | _ => (false, s)
  end.

Definition parseInt (s : string) : JsInt :=
  let '(negative, s2) := split_sign (trimStart s) in
  match fst (span_digits s2) with
  | EmptyString => NaN
  | ds => number_of_Z (if negative then - decimal ds else decimal ds)
  end.

(** [s.includes(sub)] *)
Fixpoint includes (s sub : string) : bool :=
  if String.prefix sub s then true
  else match s with
       | EmptyString => false
       | String _ r => includes r sub
       end.

(** The matches of the global pattern [/\d+/g] in order: the maximal runs
    of digits.  [cur] is the run being read. *)
Definition flush (cur : string) : list string :=
  match cur with
  | EmptyString => []
  | _ => [cur]
  end.

Fixpoint digit_runs_from (cur : string) (s : string) : list string :=
  match s with
  | EmptyString => flush cur
  | String c r =>
      if is_digit c
      then digit_runs_from (cur +:+ String c EmptyString) r
      else flush cur ++ digit_runs_from EmptyString r
  end.

Definition digit_runs (s : string) : list string :=
  digit_runs_from EmptyString s.

(** [s.match(/\d+/g)]: [null] when nothing matches. *)
Definition match_digits (s : string) : option (list string) :=
  match digit_runs s with
  | [] => None
  | runs => Some runs
  end.

End Js.

Import Js.

(** ** Data model *)

Module TransactionTypes.
Inductive t := Normal | Installments.
End TransactionTypes.

Module TransactionStatuses.
Inductive t := Completed | Pending.
End TransactionStatuses.

(** [CreditCardTransaction['installments']] *)
Record Installments := {
  number : JsInt;
  total : JsInt
}.

(** Amounts are the finite doubles of the wire format, read as the rationals
    they denote; the only arithmetic done on them is negation, which is
    exact. *)
Record Transaction := {
  type : TransactionTypes.t;
  identifier : JsInt;
  date : option string;
  processedDate : option string;
  originalAmount : Q;
  originalCurrency : string;
  chargedAmount : Q;
  description : string;
  memo : string;
  installments : option Installments;
  status : TransactionStatuses.t
}.

(** The field [dealSumOutbound] is declared [boolean] and is used both as
    the outbound flag (line 138) and, negated, as the outbound deal sum
    (line 147); it is a boolean or a number. *)
Inductive FlagOrSum :=
| FlagBool (b : bool)
| FlagNum (q : Q).

(** Truthiness of the field. *)
Definition truthy (v : FlagOrSum) : bool :=
  match v with
  | FlagBool b => b
  | FlagNum q => negb (Qnum q =? 0)
  end.

(** [ToNumber], applied by the unary minus. *)
Definition toNumber (v : FlagOrSum) : Q :=
  match v with
  | FlagBool true => 1
  | FlagBool false => 0
  | FlagNum q => q
  end.

Record ScrapedTransaction := {
  dealSumType : string;
  voucherNumberRatzOutbound : string;
  voucherNumberRatz : string;
  moreInfo : option string;
  dealSumOutbound : FlagOrSum;
  currencyId : string;
  dealSum : Q;
  fullPurchaseDate : option string;
  fullPurchaseDateOutbound : option string;
  fullSupplierNameHeb : string;
  fullSupplierNameOutbound : string;
  paymentSum : Q;
  paymentSumOutbound : Q
}.

(** Instants are valid moments, as milliseconds since the epoch. *)
Definition Moment := Z.

(** What the file imports and does not define: the constants of
    [../constants], the parts of [moment], [build-url] and the language's
    number formatting it calls, and the helpers of [../helpers/dates] and
    [../helpers/transactions]. *)
Class Imports := {
  SHEKEL_CURRENCY_KEYWORD : string;
  SHEKEL_CURRENCY : string;
  ALT_SHEKEL_CURRENCY : string;
  (** [moment(str, format).toISOString()], [null] for an invalid date *)
  moment_parse_toISOString : option string -> string -> option string;
  (** [m.format(pattern)] *)
  moment_format : Moment -> string -> string;
  (** [m.month()] and [m.year()] *)
  moment_month : Moment -> Z;
  moment_year : Moment -> Z;
  (** [m.subtract(n, 'years')] *)
  moment_subtract_years : Moment -> Z -> Moment;
  buildUrl : string -> list (string * string) -> string;
  (** a number inside a template literal, or [n.toString()] *)
  numberToString : JsInt -> string;
  getAllMonthMoments : Moment -> bool -> list Moment;
  fixInstallments : list Transaction -> list Transaction;
  filterOldTransactions : list Transaction -> Moment -> bool -> list Transaction
}.

Definition COUNTRY_CODE : string := "212".
Definition ID_TYPE : string := "1".
Definition INSTALLMENTS_KEYWORD : string := "תשלום".
Definition DATE_FORMAT : string := "DD/MM/YYYY".

(** ** Currency, installments and the record normalizer *)

Definition convertCurrency {imports : Imports} (currencyStr : string) : string :=
  if (currencyStr =? SHEKEL_CURRENCY_KEYWORD)%string
     || (currencyStr =? ALT_SHEKEL_CURRENCY)%string
  then SHEKEL_CURRENCY
  else currencyStr.

Definition getInstallmentsInfo (txn : ScrapedTransaction) : option Installments :=
  match moreInfo txn with
  | None => None
  | Some info =>
      if (info =? "")%string || negb (includes info INSTALLMENTS_KEYWORD)
      then None
      else match match_digits info with
           | Some (m0 :: m1 :: _) =>
               Some {| number := parseInt m0; total := parseInt m1 |}
           | _ => None
           end
  end.

Definition getTransactionType (txn : ScrapedTransaction) : TransactionTypes.t :=
  match getInstallmentsInfo txn with
  | Some _ => TransactionTypes.Installments
  | None => TransactionTypes.Normal
  end.

(** The predicate of [txns.filter] at lines 133-135. *)
Definition keepTransaction (txn : ScrapedTransaction) : bool :=
  negb (dealSumType txn =? "1")%string
  && negb (voucherNumberRatz txn =? "000000000")%string
  && negb (voucherNumberRatzOutbound txn =? "000000000")%string.

(** The callback of [filteredTxns.map] at lines 137-157. *)
Definition convertTransaction {imports : Imports}
    (processedDate : option string) (txn : ScrapedTransaction) : Transaction :=
  let isOutbound := truthy (dealSumOutbound txn) in
  let txnDateStr :=
    if isOutbound then fullPurchaseDateOutbound txn else fullPurchaseDate txn in
  {| type := getTransactionType txn;
     identifier :=
       parseInt (if isOutbound then voucherNumberRatzOutbound txn
                 else voucherNumberRatz txn);
     date := moment_parse_toISOString txnDateStr DATE_FORMAT;
     processedDate := processedDate;
     originalAmount :=
       if isOutbound then - toNumber (dealSumOutbound txn) else - dealSum txn;
     originalCurrency := convertCurrency (currencyId txn);
     chargedAmount :=
       if isOutbound then - paymentSumOutbound txn else - paymentSum txn;
     description :=
       if isOutbound then fullSupplierNameOutbound txn
       else fullSupplierNameHeb txn;
     memo := match moreInfo txn with Some info => info | None => "" end;
     installments := getInstallmentsInfo txn;
     status := TransactionStatuses.Completed |}%Q.

Definition convertTransactions {imports : Imports}
    (txns : list ScrapedTransaction) (processedDate : option string)
  : list Transaction :=
  let filteredTxns := List.filter keepTransaction txns in
  List.map (convertTransaction processedDate) filteredTxns.

(** ** Asynchronous calls: a log of what was done and how the call settled *)

Inductive JsError :=
| Error (message : string)
| TypeError (message : string).

(** How the promise of an [async] call settles, if it does. *)
Inductive Outcome (A : Type) :=
| Fulfilled (a : A)
| Rejected (e : JsError)
| Pending.

Arguments Fulfilled {A} a.
Arguments Rejected {A} e.
Arguments Pending {A}.

Module ScrapeProgressTypes.
Inductive t := LoggingIn | LoginSuccess | LoginFailed | ChangePassword.
End ScrapeProgressTypes.

Module ErrorTypes.
Inductive t := InvalidPassword | ChangePassword.
End ErrorTypes.

(** The body of a POST request: its fields, [None] for [undefined]. *)
Definition RequestBody := list (string * option string).

Inductive Event :=
| NavigateTo (url : string)
| EmitProgress (p : ScrapeProgressTypes.t)
| FetchPost (url : string) (body : RequestBody)
| FetchGet (url : string)
| CallFixInstallments (txns : list Transaction)
| CallFilterOldTransactions
    (txns : list Transaction) (startMoment : Moment) (combineInstallments : bool).

Definition Async (A : Type) : Type := list Event * Outcome A.

Definition ret {A} (a : A) : Async A := ([], Fulfilled a).

Definition throw {A} (e : JsError) : Async A := ([], Rejected e).

Definition emit (e : Event) : Async unit := ([e], Fulfilled tt).

Definition bind {A B} (m : Async A) (k : A -> Async B) : Async B :=
  match m with
  | (log, Fulfilled a) => let '(log', r) := k a in (log ++ log', r)
  | (log, Rejected e) => (log, Rejected e)
  | (log, Pending) => (log, Pending)
  end.

Declare Scope async_scope.
Delimit Scope async_scope with async.
Notation "x <- m ;; k" := (bind m (fun x => k))
  (at level 100, m at next level, right associativity) : async_scope.
Notation "m ;;; k" := (bind m (fun _ => k))
  (at level 100, right associativity) : async_scope.
Open Scope async_scope.

(** [list.forEach] with a callback that updates an accumulator. *)
Fixpoint forEach {A S} (f : S -> A -> Async S) (l : list A) (s : S) : Async S :=
  match l with
  | [] => ret s
  | a :: r => s' <- f s a ;; forEach f r s'
  end.

(** ** Objects used as dictionaries

    A JavaScript object keeps its properties in insertion order, and
    [Object.keys] lists the integer-like keys first, in ascending numeric
    order, then the others in insertion order.  [get], [set] and [keys] work
    on the own properties; [read] and [assign] are the property access
    [o[k]] and the assignment [o[k] = v] on a plain object, which also
    consult [Object.prototype]. *)

Module JsObject.

Definition t (V : Type) : Type := list (string * V).

Definition empty {V} : t V := [].

Fixpoint get {V} (k : string) (o : t V) : option V :=
  match o with
  | [] => None
  | (k', v) :: r => if (k =? k')%string then Some v else get k r
  end.

Fixpoint set {V} (k : string) (v : V) (o : t V) : t V :=
  match o with
  | [] => [(k, v)]
  | (k', v') :: r =>
      if (k =? k')%string then (k, v) :: r else (k', v') :: set k v r
  end.

(** An array index: the canonical decimal form of an integer below
    2^32 - 1. *)
Definition array_index (k : string) : option Z :=
  match k with
  | EmptyString => None
  | String c r =>
      if all_digits k
         && ((k =? "0")%string || negb (Ascii.eqb c "0"))
         && (decimal k <=? 4294967294)
      then Some (decimal k)
      else None
  end.

Fixpoint insert_by_index (e : Z * string) (l : list (Z * string))
  : list (Z * string) :=
  match l with
  | [] => [e]
  | e' :: r =>
      if fst e <=? fst e' then e :: l else e' :: insert_by_index e r
  end.

Definition sort_by_index (l : list (Z * string)) : list (Z * string) :=
  fold_right insert_by_index [] l.

Definition index_keys (ks : list string) : list (Z * string) :=
  flat_map (fun k => match array_index k with
                     | Some n => [(n, k)]
                     | None => []
                     end) ks.

Definition is_index_key (k : string) : bool :=
  match array_index k with Some _ => true | None => false end.

Definition order_keys (ks : list string) : list string :=
  List.map snd (sort_by_index (index_keys ks))
  ++ List.filter (fun k => negb (is_index_key k)) ks.

(** [Object.keys(o)] *)
Definition keys {V} (o : t V) : list string :=
  order_keys (List.map fst o).

(** The names that a plain object inherits from [Object.prototype]. *)
Definition Object_prototype_names : list string :=
  ["constructor"; "__defineGetter__"; "__defineSetter__"; "hasOwnProperty";
   "__lookupGetter__"; "__lookupSetter__"; "isPrototypeOf";
   "propertyIsEnumerable"; "toString"; "valueOf"; "__proto__";
   "toLocaleString"].

Definition inherited (k : string) : bool :=
  existsb (String.eqb k) Object_prototype_names.

(** What [o[k]] evaluates to: the own property, else an inherited function
    or object, else [undefined]. *)
Inductive Lookup (V : Type) :=
| Own (v : V)
| Inherited
| Undefined.

Arguments Own {V} v.
Arguments Inherited {V}.
Arguments Undefined {V}.

Definition read {V} (k : string) (o : t V) : Lookup V :=
  match get k o with
  | Some v => Own v
  | None => if inherited k then Inherited else Undefined
  end.

(** [o[k] = v]: it defines the own property, except for [__proto__], whose
    inherited setter replaces the prototype and defines no own property. *)
Definition assign {V} (k : string) (v : V) (o : t V) : t V :=
  if (k =? "__proto__")%string then o else set k v o.

End JsObject.

(** ** Wire shapes of the responses *)

Record HeaderT := { Status : option string }.

(** [_.get(r, 'Header.Status') === '1'] *)
Definition status_is_1 (h : option HeaderT) : bool :=
  match h with
  | Some {| Status := Some s |} => (s =? "1")%string
  | _ => false
  end.

Record CardCharge := {
  cardIndex : string;
  cardNumber : string;
  billingDate : string
}.

Record DashboardMonthBeanT := {
  cardsCharges : option (list CardCharge)
}.

Module FetchAccountsWithinPageResponse.
Record t := {
  Header : option HeaderT;
  DashboardMonthBean : option DashboardMonthBeanT
}.
End FetchAccountsWithinPageResponse.

Record TxnGroup := {
  txnIsrael : option (list ScrapedTransaction);
  txnAbroad : option (list ScrapedTransaction)
}.

Record CardTransactions := {
  CurrentCardTransactions : option (list TxnGroup)
}.

Module CardsTransactionsListResponse.
Record t := {
  Header : option HeaderT;
  CardsTransactionsListBean : option (JsObject.t CardTransactions)
}.
End CardsTransactionsListResponse.

Record ValidateIdDataBeanT := {
  returnCode : option string;
  userName : option string
}.

Module ValidateIdDataResponse.
Record t := {
  Header : option HeaderT;
  ValidateIdDataBean : option ValidateIdDataBeanT
}.
End ValidateIdDataResponse.

Module PerformLogonResponse.
Record t := { status : option string }.
End PerformLogonResponse.

(** Modelled from the spec: the transport of [../helpers/fetch] and of the
    browser base class, which the source calls and does not define.  The spec
    gives it as "GET JSON at URL" and "POST JSON body to URL, get JSON",
    each returning the JSON document or a failure; a failure is the absent
    ([null]) response.  There is one oracle per response shape the source
    reads. *)
Record Page := {
  post_ValidateIdData : string -> RequestBody -> option ValidateIdDataResponse.t;
  post_performLogonI : string -> RequestBody -> option PerformLogonResponse.t;
  get_DashboardMonth : string -> option FetchAccountsWithinPageResponse.t;
  get_CardsTransactionsList : string -> option CardsTransactionsListResponse.t
}.

Definition navigateTo (url : string) : Async unit := emit (NavigateTo url).

Definition emitProgress (p : ScrapeProgressTypes.t) : Async unit :=
  emit (EmitProgress p).

Definition fetchPostWithinPage {R}
    (oracle : string -> RequestBody -> option R) (url : string) (body : RequestBody)
  : Async (option R) :=
  emit (FetchPost url body) ;;; ret (oracle url body).

Definition fetchGetWithinPage {R}
    (oracle : string -> option R) (url : string) : Async (option R) :=
  emit (FetchGet url) ;;; ret (oracle url).

(** The two helpers of [../helpers/transactions], recorded as they are
    called. *)
Definition call_fixInstallments {imports : Imports} (txns : list Transaction)
  : Async (list Transaction) :=
  emit (CallFixInstallments txns) ;;; ret (fixInstallments txns).

Definition call_filterOldTransactions {imports : Imports}
    (txns : list Transaction) (startMoment : Moment) (combineInstallments : bool)
  : Async (list Transaction) :=
  emit (CallFilterOldTransactions txns startMoment combineInstallments) ;;;
  ret (filterOldTransactions txns startMoment combineInstallments).

(** ** Monthly account resolver *)

Module Account.
Record t := {
  index : JsInt;
  accountNumber : string;
  processedDate : option string
}.
End Account.

Module AccountTxns.
Record t := {
  accountNumber : string;
  index : JsInt;
  txns : list Transaction
}.
End AccountTxns.

Module ScraperAccount.
Record t := {
  accountNumber : string;
  txns : list Transaction
}.
End ScraperAccount.

Record BaseScraperOptions := {
  startDate : option Moment;
  combineInstallments : bool
}.

Module ExtendedOptions.
Record t := {
  startDate : option Moment;
  combineInstallments : bool;
  servicesUrl : string;
  companyCode : string
}.
End ExtendedOptions.

Record LegacyScrapingResult := {
  success : bool;
  accounts : option (list ScraperAccount.t);
  errorType : option ErrorTypes.t
}.

Definition getAccountsUrl {imports : Imports} (servicesUrl : string) (monthMoment : Moment)
  : string :=
  let billingDate := moment_format monthMoment "YYYY-MM-DD" in
  buildUrl servicesUrl
    [("reqName", "DashboardMonth"); ("actionCode", "0");
     ("billingDate", billingDate); ("format", "Json")].

Definition accountOfCardCharge {imports : Imports} (cardCharge : CardCharge) : Account.t :=
  {| Account.index := parseInt (cardIndex cardCharge);
     Account.accountNumber := cardNumber cardCharge;
     Account.processedDate :=
       moment_parse_toISOString (Some (billingDate cardCharge)) DATE_FORMAT |}.

Definition fetchAccounts {imports : Imports}
    (page : Page) (servicesUrl : string) (monthMoment : Moment)
  : Async (option (list Account.t)) :=
  let dataUrl := getAccountsUrl servicesUrl monthMoment in
  dataResult <- fetchGetWithinPage (get_DashboardMonth page) dataUrl ;;
  match dataResult with
  | Some r =>
      if status_is_1 (FetchAccountsWithinPageResponse.Header r)
      then match FetchAccountsWithinPageResponse.DashboardMonthBean r with
           | Some bean =>
               match cardsCharges bean with
               | Some charges => ret (Some (List.map accountOfCardCharge charges))
               | None => ret None
               end
           | None => ret None
           end
      else ret None
  | None => ret None
  end.

(** ** Monthly transaction fetcher *)

Definition getTransactionsUrl {imports : Imports} (servicesUrl : string) (monthMoment : Moment)
  : string :=
  let month := moment_month monthMoment + 1 in
  let year := moment_year monthMoment in
  let monthStr :=
    if month <? 10 then "0" +:+ numberToString (Int month)
    else numberToString (Int month) in
  buildUrl servicesUrl
    [("reqName", "CardsTransactionsList"); ("month", monthStr);
     ("year", numberToString (Int year)); ("requiredDate", "N")].

(** What [fetchTransactions] returns: the object it filled, or the empty
    array of line 196. *)
Inductive FetchTransactionsResult :=
| AccountTxnsObject (accountTxns : JsObject.t AccountTxns.t)
| EmptyArray.

(** [_.get(dataResult, `CardsTransactionsListBean.Index${index}.CurrentCardTransactions`)].
    The path is split at its dots: an index that prints with a dot names a
    property of the card's entry that the entry does not have. *)
Definition getTxnGroups {imports : Imports}
    (bean : JsObject.t CardTransactions) (index : JsInt) : option (list TxnGroup) :=
  let name := "Index" +:+ numberToString index in
  if includes name "." then None
  else match JsObject.get name bean with
       | Some card => CurrentCardTransactions card
       | None => None
       end.

(** The body of [txnGroups.forEach]: what one group appends to [allTxns]. *)
Definition groupTxns {imports : Imports} (processedDate : option string) (txnGroup : TxnGroup)
  : list Transaction :=
  (match txnIsrael txnGroup with
   | Some txns => convertTransactions txns processedDate
   | None => []
   end)
  ++ (match txnAbroad txnGroup with
      | Some txns => convertTransactions txns processedDate
      | None => []
      end).

(** The body of [accounts.forEach], lines 167-191. *)
Definition processAccount {imports : Imports}
    (bean : JsObject.t CardTransactions) (options : ExtendedOptions.t)
    (startMoment : Moment)
    (accountTxns : JsObject.t AccountTxns.t) (account : Account.t)
  : Async (JsObject.t AccountTxns.t) :=
  match getTxnGroups bean (Account.index account) with
  | Some txnGroups =>
      let allTxns := flat_map (groupTxns (Account.processedDate account)) txnGroups in
      allTxns <- (if negb (ExtendedOptions.combineInstallments options)
                  then call_fixInstallments allTxns
                  else ret allTxns) ;;
      allTxns <- call_filterOldTransactions allTxns startMoment
                   (ExtendedOptions.combineInstallments options) ;;
      ret (JsObject.assign (Account.accountNumber account)
             {| AccountTxns.accountNumber := Account.accountNumber account;
                AccountTxns.index := Account.index account;
                AccountTxns.txns := allTxns |}
             accountTxns)
  | None => ret accountTxns
  end.

(** The error of [accounts.forEach] when [accounts] is [null]; the text of
    the message is the engine's. *)
Definition forEach_null : JsError :=
  TypeError "Cannot read properties of null (reading 'forEach')".

Definition fetchTransactions {imports : Imports}
    (page : Page) (options : ExtendedOptions.t)
    (startMoment : Moment) (monthMoment : Moment)
  : Async FetchTransactionsResult :=
  accounts <- fetchAccounts page (ExtendedOptions.servicesUrl options) monthMoment ;;
  let dataUrl := getTransactionsUrl (ExtendedOptions.servicesUrl options) monthMoment in
  dataResult <- fetchGetWithinPage (get_CardsTransactionsList page) dataUrl ;;
  match dataResult with
  | Some r =>
      if status_is_1 (CardsTransactionsListResponse.Header r)
      then match CardsTransactionsListResponse.CardsTransactionsListBean r with
           | Some bean =>
               match accounts with
               | Some accounts =>
                   accountTxns <- forEach (processAccount bean options startMoment)
                                    accounts JsObject.empty ;;
                   ret (AccountTxnsObject accountTxns)
               | None => throw forEach_null
               end
           | None => ret EmptyArray
           end
      else ret EmptyArray
  | None => ret EmptyArray
  end.

(** ** Cross-month aggregator *)

(** [Promise.all]: every element fills the slot of its own index when it is
    fulfilled, in the order [completion] in which the elements settle; the
    result is fulfilled with the slots once none remains, and rejected by the
    first element that is rejected.  An element settles once; one that is
    absent from [completion] never settles. *)
Fixpoint settle_all {A} (outcomes : list (Outcome A))
    (values : list (option A)) (remaining : nat) (completion : list nat)
  : Outcome (list A) :=
  match completion with
  | [] => Pending
  | i :: rest =>
      match values !! i, outcomes !! i with
      | Some None, Some (Fulfilled x) =>
          let values' := <[i := Some x]> values in
          match remaining with
          | 1%nat => Fulfilled (omap id values')
          | _ => settle_all outcomes values' (Nat.pred remaining) rest
          end
      | Some None, Some (Rejected e) => Rejected e
      | _, _ => settle_all outcomes values remaining rest
      end
  end.

(** The calls are all started, in the order of the array, before any is
    awaited: the log lists their events call by call in that order, and does
    not follow how their requests interleave. *)
Definition Promise_all {A} (calls : list (Async A)) (completion : list nat)
  : Async (list A) :=
  (flat_map fst calls,
   match calls with
   | [] => Fulfilled []
   | _ => settle_all (List.map snd calls)
            (replicate (length calls) None) (length calls) completion
   end).

(** [Object.keys(result)] and [result[accountNumber].txns] of lines 207-213;
    the account number read at line 213 is one of the own keys of line 207. *)
Definition result_keys (result : FetchTransactionsResult) : list string :=
  match result with
  | AccountTxnsObject o => JsObject.keys o
  | EmptyArray => []
  end.

Definition result_txns (result : FetchTransactionsResult) (accountNumber : string)
  : list Transaction :=
  match result with
  | AccountTxnsObject o =>
      match JsObject.get accountNumber o with
      | Some entry => AccountTxns.txns entry
      | None => []
      end
  | EmptyArray => []
  end.

(** The errors of line 214 when [combinedTxns[accountNumber]] is not an
    array; the texts of the messages are the engine's. *)
Definition push_not_a_function : JsError :=
  TypeError "combinedTxns[accountNumber].push is not a function".

Definition push_of_undefined : JsError :=
  TypeError "Cannot read properties of undefined (reading 'push')".

(** The body of the inner [forEach], lines 208-214. *)
Definition addAccountTxns (result : FetchTransactionsResult)
    (combinedTxns : JsObject.t (list Transaction)) (accountNumber : string)
  : Async (JsObject.t (list Transaction)) :=
  let combinedTxns :=
    match JsObject.read accountNumber combinedTxns with
    | JsObject.Undefined => JsObject.assign accountNumber [] combinedTxns
    | _ => combinedTxns
    end in
  let toBeAddedTxns := result_txns result accountNumber in
  match JsObject.read accountNumber combinedTxns with
  | JsObject.Own txnsForAccount =>
      ret (JsObject.set accountNumber (txnsForAccount ++ toBeAddedTxns) combinedTxns)
  | JsObject.Inherited => throw push_not_a_function
  | JsObject.Undefined => throw push_of_undefined
  end.

(** The body of the outer [forEach], lines 207-215. *)
Definition addResult (combinedTxns : JsObject.t (list Transaction))
    (result : FetchTransactionsResult) : Async (JsObject.t (list Transaction)) :=
  forEach (addAccountTxns result) (result_keys result) combinedTxns.

(** Lines 205-216. *)
Definition combineResults (results : list FetchTransactionsResult)
  : Async (JsObject.t (list Transaction)) :=
  forEach addResult results JsObject.empty.

(** Lines 218-223: an account for each own key of the merged object. *)
Definition accountsOf (combinedTxns : JsObject.t (list Transaction))
  : list ScraperAccount.t :=
  List.map
    (fun accountNumber =>
       {| ScraperAccount.accountNumber := accountNumber;
          ScraperAccount.txns :=
            match JsObject.get accountNumber combinedTxns with
            | Some txns => txns
            | None => []
            end |})
    (JsObject.keys combinedTxns).

Definition fetchAllTransactions {imports : Imports}
    (page : Page) (options : ExtendedOptions.t) (startMoment : Moment)
    (completion : list nat)
  : Async LegacyScrapingResult :=
  let allMonths := getAllMonthMoments startMoment true in
  results <- Promise_all
               (List.map (fun monthMoment =>
                            fetchTransactions page options startMoment monthMoment)
                  allMonths)
               completion ;;
  combinedTxns <- combineResults results ;;
  let accounts := accountsOf combinedTxns in
  ret {| success := true; accounts := Some accounts; errorType := None |}.

(** ** The scraper: login and fetchData *)

Module Credentials.
Record t := {
  id : option string;
  card6Digits : option string;
  password : option string
}.
End Credentials.

Record IsracardAmexBaseScraper := {
  options : BaseScraperOptions;
  page : Page;
  baseUrl : string;
  companyCode : string;
  servicesUrl : string
}.

Definition constructor (options : BaseScraperOptions) (page : Page)
    (baseUrl companyCode : string) : IsracardAmexBaseScraper :=
  {| options := options;
     page := page;
     baseUrl := baseUrl;
     companyCode := companyCode;
     servicesUrl := baseUrl +:+ "/services/ProxyRequestHandler.ashx" |}.

Definition validateRequest (this : IsracardAmexBaseScraper)
    (credentials : Credentials.t) : RequestBody :=
  [("id", Credentials.id credentials);
   ("cardSuffix", Credentials.card6Digits credentials);
   ("countryCode", Some COUNTRY_CODE); ("idType", Some ID_TYPE);
   ("checkLevel", Some "1"); ("companyCode", Some (companyCode this))].

Definition logonRequest (credentials : Credentials.t) (userName : option string)
  : RequestBody :=
  [("KodMishtamesh", userName); ("MisparZihuy", Credentials.id credentials);
   ("Sisma", Credentials.password credentials);
   ("cardSuffix", Credentials.card6Digits credentials);
   ("countryCode", Some COUNTRY_CODE); ("idType", Some ID_TYPE)].

Definition string_is (v : option string) (s : string) : bool :=
  match v with
  | Some v => (v =? s)%string
  | None => false
  end.

Definition login (this : IsracardAmexBaseScraper) (credentials : Credentials.t)
  : Async LegacyScrapingResult :=
  navigateTo (baseUrl this +:+ "/personalarea/Login") ;;;
  emitProgress ScrapeProgressTypes.LoggingIn ;;;
  let validateUrl := servicesUrl this +:+ "?reqName=ValidateIdData" in
  validateResult <- fetchPostWithinPage (post_ValidateIdData (page this))
                      validateUrl (validateRequest this credentials) ;;
  match validateResult with
  | Some {| ValidateIdDataResponse.Header := Some header;
            ValidateIdDataResponse.ValidateIdDataBean := Some bean |} =>
      if negb (string_is (Status header) "1")
      then throw (Error "unknown error during login")
      else
        let validateReturnCode := returnCode bean in
        if string_is validateReturnCode "1" then
          let loginUrl := servicesUrl this +:+ "?reqName=performLogonI" in
          loginResult <- fetchPostWithinPage (post_performLogonI (page this))
                           loginUrl (logonRequest credentials (userName bean)) ;;
          match loginResult with
          | Some r =>
              if string_is (PerformLogonResponse.status r) "1" then
                emitProgress ScrapeProgressTypes.LoginSuccess ;;;
                ret {| success := true; accounts := None; errorType := None |}
              else if string_is (PerformLogonResponse.status r) "3" then
                emitProgress ScrapeProgressTypes.ChangePassword ;;;
                ret {| success := false; accounts := None;
                       errorType := Some ErrorTypes.ChangePassword |}
              else
                emitProgress ScrapeProgressTypes.LoginFailed ;;;
                ret {| success := false; accounts := None;
                       errorType := Some ErrorTypes.InvalidPassword |}
          | None =>
              emitProgress ScrapeProgressTypes.LoginFailed ;;;
              ret {| success := false; accounts := None;
                     errorType := Some ErrorTypes.InvalidPassword |}
          end
        else if string_is validateReturnCode "4" then
          emitProgress ScrapeProgressTypes.ChangePassword ;;;
          ret {| success := false; accounts := None;
                 errorType := Some ErrorTypes.ChangePassword |}
        else
          emitProgress ScrapeProgressTypes.LoginFailed ;;;
          ret {| success := false; accounts := None;
                 errorType := Some ErrorTypes.InvalidPassword |}
  | _ => throw (Error "unknown error during login")
  end.

(** [moment.max(a, b)]: the later of two valid moments, the first on a tie. *)
Definition moment_max (a b : Moment) : Moment :=
  if a <? b then b else a.

(** Lines 316-318: the start of the window, for the clock reading [now]. *)
Definition effectiveStart {imports : Imports} (this : IsracardAmexBaseScraper) (now : Moment)
  : Moment :=
  let defaultStartMoment := moment_subtract_years now 1 in
  let startDate :=
    match startDate (options this) with
    | Some d => d
    | None => defaultStartMoment
    end in
  moment_max defaultStartMoment startDate.

Definition fetchData {imports : Imports} (this : IsracardAmexBaseScraper) (now : Moment)
    (completion : list nat)
  : Async LegacyScrapingResult :=
  let startMoment := effectiveStart this now in
  fetchAllTransactions (page this)
    {| ExtendedOptions.startDate := startDate (options this);
       ExtendedOptions.combineInstallments := combineInstallments (options this);
       ExtendedOptions.servicesUrl := servicesUrl this;
       ExtendedOptions.companyCode := companyCode this |}
    startMoment completion.

(** ** The vocabulary of the properties *)

(** The sign of an amount: -1, 0 or 1. *)
Definition Qsign (q : Q) : Z := Z.sgn (Qnum q).

(** The exclusion policy as the filter of [convertTransactions] applies it. *)
Definition excluded (txn : ScrapedTransaction) : Prop :=
  dealSumType txn = "1"
  \/ voucherNumberRatz txn = "000000000"
  \/ voucherNumberRatzOutbound txn = "000000000".

(** The raw sums of the direction the record's outbound flag selects. *)
Definition selectedDealSum (txn : ScrapedTransaction) : Q :=
  if truthy (dealSumOutbound txn) then toNumber (dealSumOutbound txn)
  else dealSum txn.

Definition selectedPaymentSum (txn : ScrapedTransaction) : Q :=
  if truthy (dealSumOutbound txn) then paymentSumOutbound txn
  else paymentSum txn.

(** A validation response with header status "1" and a payload. *)
Definition validation_ok (r : option ValidateIdDataResponse.t) : bool :=
  match r with
  | Some r =>
      status_is_1 (ValidateIdDataResponse.Header r)
      && match ValidateIdDataResponse.ValidateIdDataBean r with
         | Some _ => true
         | None => false
         end
  | None => false
  end.

(** A structured outcome: success, or failure with a typed error. *)
Definition structured (r : LegacyScrapingResult) : Prop :=
  (success r = true /\ errorType r = None)
  \/ (success r = false /\ exists e, errorType r = Some e).

Definition is_filter_call (e : Event) : bool :=
  match e with
  | CallFilterOldTransactions _ _ _ => true
  | _ => false
  end.

Definition filter_calls (log : list Event) : nat :=
  length (List.filter is_filter_call log).

Definition is_post_to (url : string) (e : Event) : bool :=
  match e with
  | FetchPost u _ => (u =? url)%string
  | _ => false
  end.

(** A dashboard response from which [fetchAccounts] resolves accounts. *)
Definition dashboard_accounts (r : option FetchAccountsWithinPageResponse.t)
  : option (list CardCharge) :=
  match r with
  | Some r =>
      if status_is_1 (FetchAccountsWithinPageResponse.Header r)
      then match FetchAccountsWithinPageResponse.DashboardMonthBean r with
           | Some bean => cardsCharges bean
           | None => None
           end
      else None
  | None => None
  end.

(** The bean of a transactions-list response with header status "1". *)
Definition transactions_bean (r : option CardsTransactionsListResponse.t)
  : option (JsObject.t CardTransactions) :=
  match r with
  | Some r =>
      if status_is_1 (CardsTransactionsListResponse.Header r)
      then CardsTransactionsListResponse.CardsTransactionsListBean r
      else None
  | None => None
  end.

(** What follows a run of digits: nothing, or a character that is not a
    digit. *)
Definition ends_run (post : string) : Prop :=
  match post with
  | EmptyString => True
  | String c _ => is_digit c = false
  end.

(** An account for which the month's response carries transaction groups. *)
Definition has_groups {imports : Imports}
    (bean : JsObject.t CardTransactions) (account : Account.t) : bool :=
  match getTxnGroups bean (Account.index account) with
  | Some _ => true
  | None => false
  end.

(** The accounts whose transactions [fetchTransactions] processes for a
    month: those the dashboard resolves and the transactions list carries. *)
Definition processed_accounts {imports : Imports}
    (page : Page) (options : ExtendedOptions.t) (monthMoment : Moment)
  : list Account.t :=
  let servicesUrl := ExtendedOptions.servicesUrl options in
  match transactions_bean
          (get_CardsTransactionsList page (getTransactionsUrl servicesUrl monthMoment)),
        dashboard_accounts
          (get_DashboardMonth page (getAccountsUrl servicesUrl monthMoment))
  with
  | Some bean, Some charges =>
      List.filter (has_groups bean) (List.map accountOfCardCharge charges)
  | _, _ => []
  end.

(** The lists on which [filterOldTransactions] was called, in order. *)
Definition filter_arguments (log : list Event) : list (list Transaction) :=
  flat_map (fun e => match e with
                     | CallFilterOldTransactions txns _ _ => [txns]
                     | _ => []
                     end) log.

(** The entries of the object a month returned; the empty array has none. *)
Definition entries (result : FetchTransactionsResult)
  : list (string * AccountTxns.t) :=
  match result with
  | AccountTxnsObject accountTxns => accountTxns
  | EmptyArray => []
  end.

(** The transactions that a month's object holds under an account number. *)
Definition txns_under (accountNumber : string) (result : FetchTransactionsResult)
  : list Transaction :=
  flat_map (fun e => if (fst e =? accountNumber)%string
                     then AccountTxns.txns (snd e) else [])
    (entries result).

(** No account number of the month's object names a property that a plain
    object inherits from [Object.prototype]. *)
Definition plain_numbers (result : FetchTransactionsResult) : Prop :=
  Forall (fun e => ~ In (fst e) JsObject.Object_prototype_names) (entries result).

(** The merge of lines 205-216 when no account number is an inherited
    name: the own properties alone decide. *)
Definition mergeAccountTxns (result : FetchTransactionsResult)
    (combinedTxns : JsObject.t (list Transaction)) (accountNumber : string)
  : JsObject.t (list Transaction) :=
  let combinedTxns :=
    match JsObject.get accountNumber combinedTxns with
    | Some _ => combinedTxns
    | None => JsObject.set accountNumber [] combinedTxns
    end in
  let toBeAddedTxns := result_txns result accountNumber in
  match JsObject.get accountNumber combinedTxns with
  | Some txnsForAccount =>
      JsObject.set accountNumber (txnsForAccount ++ toBeAddedTxns) combinedTxns
  | None => combinedTxns
  end.

Definition mergeResult (combinedTxns : JsObject.t (list Transaction))
    (result : FetchTransactionsResult) : JsObject.t (list Transaction) :=
  fold_left (mergeAccountTxns result) (result_keys result) combinedTxns.

Definition mergeResults (results : list FetchTransactionsResult)
  : JsObject.t (list Transaction) :=
  fold_left mergeResult results JsObject.empty.

(** The ledger of lines 205-223, from the results of the months. *)
Definition ledger_of (results : list FetchTransactionsResult)
  : Async (list ScraperAccount.t) :=
  combinedTxns <- combineResults results ;; ret (accountsOf combinedTxns).

(** What the months contribute to an account, in the order of the months. *)
Definition contributions (results : list FetchTransactionsResult)
    (accountNumber : string) : list Transaction :=
  concat (List.map (fun result => result_txns result accountNumber) results).

Definition txns_or_empty (v : option (list Transaction)) : list Transaction :=
  match v with
  | Some txns => txns
  | None => []
  end.

(** A month's result has an entry for the account number. *)
Definition mentions (accountNumber : string) (result : FetchTransactionsResult)
  : Prop :=
  In accountNumber (result_keys result).

(** No own key of the merged object is a name that a plain object
    inherits. *)
Definition own_plain (combinedTxns : JsObject.t (list Transaction)) : Prop :=
  forall k, JsObject.inherited k = true -> JsObject.get k combinedTxns = None.

(** [Object.keys] of the month's object gives a name that a plain object
    inherits from [Object.prototype]. *)
Definition has_inherited (result : FetchTransactionsResult) : Prop :=
  Exists (fun k => JsObject.inherited k = true) (result_keys result).

(** The addresses of the two requests of [login]. *)
Definition validateUrlOf (this : IsracardAmexBaseScraper) : string :=
  servicesUrl this +:+ "?reqName=ValidateIdData".

Definition loginUrlOf (this : IsracardAmexBaseScraper) : string :=
  servicesUrl this +:+ "?reqName=performLogonI".

(** The raw records of a group, domestic before abroad. *)
Definition groupRecords (txnGroup : TxnGroup) : list ScrapedTransaction :=
  (match txnIsrael txnGroup with Some txns => txns | None => [] end)
  ++ (match txnAbroad txnGroup with Some txns => txns | None => [] end).

(** A match of [/\d+/]: a run of digits that is not empty. *)
Definition is_run (r : string) : Prop :=
  all_digits r = true /\ r <> EmptyString.

(** The calls of the helpers of [../helpers/transactions], as opposed to
    the requests, the navigation and the progress notifications. *)
Definition is_helper_call (e : Event) : bool :=
  match e with
  | CallFixInstallments _ => true
  | CallFilterOldTransactions _ _ _ => true
  | _ => false
  end.

Definition helper_calls (log : list Event) : list Event :=
  List.filter is_helper_call log.

Definition transport_events (log : list Event) : list Event :=
  List.filter (fun e => negb (is_helper_call e)) log.

Definition is_fix_call (e : Event) : bool :=
  match e with
  | CallFixInstallments _ => true
  | _ => false
  end.

Definition fix_calls (log : list Event) : nat :=
  length (List.filter is_fix_call log).

(** The bean of the month's transactions list, empty when there is none. *)
Definition month_bean {imports : Imports}
    (page : Page) (options : ExtendedOptions.t) (monthMoment : Moment)
  : JsObject.t CardTransactions :=
  match transactions_bean
          (get_CardsTransactionsList page
             (getTransactionsUrl (ExtendedOptions.servicesUrl options) monthMoment))
  with
  | Some bean => bean
  | None => []
  end.

(** The transactions of an account before the helpers are applied:
    [allTxns] at line 180. *)
Definition rawTxns {imports : Imports}
    (bean : JsObject.t CardTransactions) (account : Account.t)
  : list Transaction :=
  match getTxnGroups bean (Account.index account) with
  | Some txnGroups => flat_map (groupTxns (Account.processedDate account)) txnGroups
  | None => []
  end.

(** The calls of lines 181-184 on an account's list. *)
Definition accountCalls {imports : Imports}
    (options : ExtendedOptions.t) (startMoment : Moment)
    (allTxns : list Transaction) : list Event :=
  if ExtendedOptions.combineInstallments options
  then [CallFilterOldTransactions allTxns startMoment true]
  else [CallFixInstallments allTxns;
        CallFilterOldTransactions (fixInstallments allTxns) startMoment false].

(** The entry stored for an account at lines 186-190. *)
Definition accountEntry {imports : Imports}
    (bean : JsObject.t CardTransactions) (options : ExtendedOptions.t)
    (startMoment : Moment) (account : Account.t) : AccountTxns.t :=
  let allTxns := rawTxns bean account in
  let allTxns :=
    if ExtendedOptions.combineInstallments options then allTxns
    else fixInstallments allTxns in
  {| AccountTxns.accountNumber := Account.accountNumber account;
     AccountTxns.index := Account.index account;
     AccountTxns.txns :=
       filterOldTransactions allTxns startMoment
         (ExtendedOptions.combineInstallments options) |}.

Definition storeAccount {imports : Imports}
    (bean : JsObject.t CardTransactions) (options : ExtendedOptions.t)
    (startMoment : Moment)
    (accountTxns : JsObject.t AccountTxns.t) (account : Account.t)
  : JsObject.t AccountTxns.t :=
  JsObject.assign (Account.accountNumber account)
    (accountEntry bean options startMoment account) accountTxns.

(** The two requests of a month's fetch. *)
Definition month_requests {imports : Imports}
    (options : ExtendedOptions.t) (monthMoment : Moment) : list Event :=
  [FetchGet (getAccountsUrl (ExtendedOptions.servicesUrl options) monthMoment);
   FetchGet (getTransactionsUrl (ExtendedOptions.servicesUrl options) monthMoment)].

(** A month for which the dashboard resolves no accounts while the
    transactions list has its bean. *)
Definition month_fails {imports : Imports}
    (page : Page) (options : ExtendedOptions.t) (monthMoment : Moment) : Prop :=
  dashboard_accounts
    (get_DashboardMonth page
       (getAccountsUrl (ExtendedOptions.servicesUrl options) monthMoment)) = None
  /\ exists bean,
       transactions_bean
         (get_CardsTransactionsList page
            (getTransactionsUrl (ExtendedOptions.servicesUrl options) monthMoment))
       = Some bean.

(** No account that the month processes has a card number that names a
    property of [Object.prototype]. *)
Definition plain_accounts {imports : Imports}
    (page : Page) (options : ExtendedOptions.t) (monthMoment : Moment) : Prop :=
  Forall (fun account =>
            ~ In (Account.accountNumber account) JsObject.Object_prototype_names)
    (processed_accounts page options monthMoment).

(** A call of [filterOldTransactions], if the event is one, has these
    arguments. *)
Definition filter_called_with (startMoment : Moment) (combine : bool) (e : Event)
  : Prop :=
  match e with
  | CallFilterOldTransactions _ s c => s = startMoment /\ c = combine
  | _ => True
  end.

(** The number of transactions of a month's result and of a ledger. *)
Definition result_size (result : FetchTransactionsResult) : nat :=
  list_sum (List.map (fun e => length (AccountTxns.txns (snd e))) (entries result)).

Definition ledger_size (ledger : list ScraperAccount.t) : nat :=
  list_sum (List.map (fun account => length (ScraperAccount.txns account)) ledger).

(** The options [fetchData] passes on, lines 320-324. *)
Definition extendedOptions (this : IsracardAmexBaseScraper) : ExtendedOptions.t :=
  {| ExtendedOptions.startDate := startDate (options this);
     ExtendedOptions.combineInstallments := combineInstallments (options this);
     ExtendedOptions.servicesUrl := servicesUrl this;
     ExtendedOptions.companyCode := companyCode this |}.

(** The same scraper with another start date in its options. *)
Definition with_startDate (d : option Moment) (this : IsracardAmexBaseScraper)
  : IsracardAmexBaseScraper :=
  {| options := {| startDate := d;
                   combineInstallments := combineInstallments (options this) |};
     page := page this;
     baseUrl := baseUrl this;
     companyCode := companyCode this;
     servicesUrl := servicesUrl this |}.

(** The payload of the validation response when login accepts it. *)
Definition validated (this : IsracardAmexBaseScraper) (credentials : Credentials.t)
  : option ValidateIdDataBeanT :=
  match post_ValidateIdData (page this) (validateUrlOf this)
          (validateRequest this credentials) with
  | Some r =>
      if status_is_1 (ValidateIdDataResponse.Header r)
      then ValidateIdDataResponse.ValidateIdDataBean r
      else None
  | None => None
  end.

(** The status of the logon response, if there is one. *)
Definition logonStatus (this : IsracardAmexBaseScraper) (credentials : Credentials.t)
    (bean : ValidateIdDataBeanT) : option string :=
  match post_performLogonI (page this) (loginUrlOf this)
          (logonRequest credentials (userName bean)) with
  | Some r => PerformLogonResponse.status r
  | None => None
  end.

Definition progress_events (log : list Event) : list ScrapeProgressTypes.t :=
  flat_map (fun e => match e with EmitProgress p => [p] | _ => [] end) log.

Definition post_requests (log : list Event) : list (string * RequestBody) :=
  flat_map (fun e => match e with FetchPost url body => [(url, body)] | _ => [] end)
    log.

(** The progress notification that goes with an outcome. *)
Definition terminal_progress (result : LegacyScrapingResult) : ScrapeProgressTypes.t :=
  if success result then ScrapeProgressTypes.LoginSuccess
  else match errorType result with
       | Some ErrorTypes.ChangePassword => ScrapeProgressTypes.ChangePassword
       | _ => ScrapeProgressTypes.LoginFailed
       end.

(** What login does before it reads the validation response. *)
Definition login_steps (this : IsracardAmexBaseScraper) (credentials : Credentials.t)
  : list Event :=
  [NavigateTo (baseUrl this +:+ "/personalarea/Login");
   EmitProgress ScrapeProgressTypes.LoggingIn;
   FetchPost (validateUrlOf this) (validateRequest this credentials)].

Definition loggedIn : LegacyScrapingResult :=
  {| success := true; accounts := None; errorType := None |}.

Definition refused (e : ErrorTypes.t) : LegacyScrapingResult :=
  {| success := false; accounts := None; errorType := Some e |}.

(** Modelled from the spec: [getAllMonthMoments] of [../helpers/dates],
    which the source imports and does not define.  The spec gives it as
    "given a start instant, produce the ordered sequence of calendar months
    from then to now": every month of the sequence is the calendar month of
    an instant that is not before the start.  [calendarMonth] gives the
    calendar month an instant lies in. *)
Definition monthSequence_contract {imports : Imports}
    (calendarMonth : Moment -> Moment) (startMoment : Moment) : Prop :=
  forall monthMoment,
    In monthMoment (getAllMonthMoments startMoment true) ->
    exists instant, startMoment <= instant /\ monthMoment = calendarMonth instant.

(** ** Concrete inputs *)

Module Sample.

Definition showZ (z : Z) : string := NilZero.string_of_int (Z.to_int z).

Definition showNumber (n : JsInt) : string :=
  match n with
  | NaN => "NaN"
  | Int z => showZ z
  | Approx z => showZ z
  end.

Fixpoint query (params : list (string * string)) : string :=
  match params with
  | [] => ""
  | [(k, v)] => k +:+ "=" +:+ v
  | (k, v) :: r => k +:+ "=" +:+ v +:+ "&" +:+ query r
  end.

(** Months are numbered 1, 2, 3 within the year 2020; the helpers of
    [../helpers/transactions] leave the list as it is. *)
Definition imports : Imports := {|
  SHEKEL_CURRENCY_KEYWORD := "שקל";
  SHEKEL_CURRENCY := "ILS";
  ALT_SHEKEL_CURRENCY := "NIS";
  moment_parse_toISOString := fun s _ => s;
  moment_format := fun m _ => "2020-0" +:+ showZ m +:+ "-01";
  moment_month := fun m => m - 1;
  moment_year := fun _ => 2020;
  moment_subtract_years := fun m n => m - 12 * n;
  buildUrl := fun base params => base +:+ "?" +:+ query params;
  numberToString := showNumber;
  getAllMonthMoments := fun _ _ => [1; 2; 3];
  fixInstallments := fun txns => txns;
  filterOldTransactions := fun txns _ _ => txns
|}.

(** A domestic purchase of 100. *)
Definition purchase : ScrapedTransaction := {|
  dealSumType := "0";
  voucherNumberRatzOutbound := "";
  voucherNumberRatz := "123456789";
  moreInfo := None;
  dealSumOutbound := FlagBool false;
  currencyId := "שקל";
  dealSum := 100;
  fullPurchaseDate := Some "05/01/2020";
  fullPurchaseDateOutbound := None;
  fullSupplierNameHeb := "supplier";
  fullSupplierNameOutbound := "";
  paymentSum := 100;
  paymentSumOutbound := 0
|}.

Definition with_vouchers (domestic outbound : string) (txn : ScrapedTransaction)
  : ScrapedTransaction :=
  {| dealSumType := dealSumType txn;
     voucherNumberRatzOutbound := outbound;
     voucherNumberRatz := domestic;
     moreInfo := moreInfo txn;
     dealSumOutbound := dealSumOutbound txn;
     currencyId := currencyId txn;
     dealSum := dealSum txn;
     fullPurchaseDate := fullPurchaseDate txn;
     fullPurchaseDateOutbound := fullPurchaseDateOutbound txn;
     fullSupplierNameHeb := fullSupplierNameHeb txn;
     fullSupplierNameOutbound := fullSupplierNameOutbound txn;
     paymentSum := paymentSum txn;
     paymentSumOutbound := paymentSumOutbound txn |}.

Definition with_sums (deal payment : Q) (txn : ScrapedTransaction)
  : ScrapedTransaction :=
  {| dealSumType := dealSumType txn;
     voucherNumberRatzOutbound := voucherNumberRatzOutbound txn;
     voucherNumberRatz := voucherNumberRatz txn;
     moreInfo := moreInfo txn;
     dealSumOutbound := dealSumOutbound txn;
     currencyId := currencyId txn;
     dealSum := deal;
     fullPurchaseDate := fullPurchaseDate txn;
     fullPurchaseDateOutbound := fullPurchaseDateOutbound txn;
     fullSupplierNameHeb := fullSupplierNameHeb txn;
     fullSupplierNameOutbound := fullSupplierNameOutbound txn;
     paymentSum := payment;
     paymentSumOutbound := paymentSumOutbound txn |}.

Definition with_memo (info : option string) (txn : ScrapedTransaction)
  : ScrapedTransaction :=
  {| dealSumType := dealSumType txn;
     voucherNumberRatzOutbound := voucherNumberRatzOutbound txn;
     voucherNumberRatz := voucherNumberRatz txn;
     moreInfo := info;
     dealSumOutbound := dealSumOutbound txn;
     currencyId := currencyId txn;
     dealSum := dealSum txn;
     fullPurchaseDate := fullPurchaseDate txn;
     fullPurchaseDateOutbound := fullPurchaseDateOutbound txn;
     fullSupplierNameHeb := fullSupplierNameHeb txn;
     fullSupplierNameOutbound := fullSupplierNameOutbound txn;
     paymentSum := paymentSum txn;
     paymentSumOutbound := paymentSumOutbound txn |}.

(** Only the domestic voucher number is the sentinel. *)
Definition domestic_sentinel : ScrapedTransaction :=
  with_vouchers "000000000" "123456789" purchase.

(** Only the outbound voucher number is the sentinel. *)
Definition outbound_sentinel : ScrapedTransaction :=
  with_vouchers "123456789" "000000000" purchase.

(** A deal of 100 of which nothing is charged. *)
Definition uncharged : ScrapedTransaction := with_sums 100 0 purchase.

(** A deal of 100 with a payment sum of -100. *)
Definition refunded : ScrapedTransaction := with_sums 100 (-100) purchase.

(** Installment 3 of 12. *)
Definition third_of_twelve : ScrapedTransaction :=
  with_memo (Some "תשלום 3 מתוך 12") purchase.

(** The marker with a single number. *)
Definition one_number : ScrapedTransaction :=
  with_memo (Some "תשלום 3") purchase.

(** The purchases of the three months. *)
Definition purchase_of (monthMoment : Moment) : ScrapedTransaction :=
  with_sums (inject_Z monthMoment) (inject_Z monthMoment) purchase.

Definition header_ok : option HeaderT := Some {| Status := Some "1" |}.

Definition services : string := "https://host/services/ProxyRequestHandler.ashx".

Definition options : BaseScraperOptions :=
  {| startDate := None; combineInstallments := false |}.

Definition extended : ExtendedOptions.t :=
  {| ExtendedOptions.startDate := None;
     ExtendedOptions.combineInstallments := false;
     ExtendedOptions.servicesUrl := services;
     ExtendedOptions.companyCode := "11" |}.

Definition month_of_url (url : string) : Moment :=
  if includes url "month=01" || includes url "billingDate=2020-01" then 1
  else if includes url "month=02" || includes url "billingDate=2020-02" then 2
  else 3.

Definition dashboard : option FetchAccountsWithinPageResponse.t :=
  Some {| FetchAccountsWithinPageResponse.Header := header_ok;
          FetchAccountsWithinPageResponse.DashboardMonthBean :=
            Some {| cardsCharges :=
                      Some [{| cardIndex := "0"; cardNumber := "1234";
                               billingDate := "10/02/2020" |}] |} |}.

Definition transactions (txns : list ScrapedTransaction)
  : option CardsTransactionsListResponse.t :=
  Some {| CardsTransactionsListResponse.Header := header_ok;
          CardsTransactionsListResponse.CardsTransactionsListBean :=
            Some [("Index0",
                   {| CurrentCardTransactions :=
                        Some [{| txnIsrael := Some txns; txnAbroad := None |}] |})]
       |}.

Definition validation_bean (code : string) : ValidateIdDataBeanT :=
  {| returnCode := Some code; userName := Some "user" |}.

Definition validation_response (code : string) : ValidateIdDataResponse.t :=
  {| ValidateIdDataResponse.Header := header_ok;
     ValidateIdDataResponse.ValidateIdDataBean := Some (validation_bean code) |}.

Definition validation (code : string) : option ValidateIdDataResponse.t :=
  Some (validation_response code).

(** Every month has the card 1234 and one purchase. *)
Definition page : Page := {|
  post_ValidateIdData := fun _ _ => validation "1";
  post_performLogonI := fun _ _ => Some {| PerformLogonResponse.status := Some "1" |};
  get_DashboardMonth := fun _ => dashboard;
  get_CardsTransactionsList := fun url => transactions [purchase_of (month_of_url url)]
|}.

(** The same, but the dashboard of the second month fails. *)
Definition page_dashboard_fails : Page := {|
  post_ValidateIdData := post_ValidateIdData page;
  post_performLogonI := post_performLogonI page;
  get_DashboardMonth :=
    fun url => if month_of_url url =? 2 then None else dashboard;
  get_CardsTransactionsList := get_CardsTransactionsList page
|}.

(** The validation request gets no response. *)
Definition page_no_validation : Page := {|
  post_ValidateIdData := fun _ _ => None;
  post_performLogonI := post_performLogonI page;
  get_DashboardMonth := get_DashboardMonth page;
  get_CardsTransactionsList := get_CardsTransactionsList page
|}.

(** The validation answers with return code "4". *)
Definition page_change_password : Page := {|
  post_ValidateIdData := fun _ _ => validation "4";
  post_performLogonI := post_performLogonI page;
  get_DashboardMonth := get_DashboardMonth page;
  get_CardsTransactionsList := get_CardsTransactionsList page
|}.

Definition credentials : Credentials.t :=
  {| Credentials.id := Some "012345678";
     Credentials.card6Digits := Some "123456";
     Credentials.password := Some "secret" |}.

Definition scraper (p : Page) : IsracardAmexBaseScraper :=
  constructor options p "https://host" "11".

(** The card whose purchases the three months carry, and what each month
    returns for it. *)
Definition month_txn (monthMoment : Moment) : Transaction :=
  convertTransaction (imports := imports) (Some "10/02/2020")
    (purchase_of monthMoment).

Definition month_result (monthMoment : Moment) : FetchTransactionsResult :=
  AccountTxnsObject
    [("1234", {| AccountTxns.accountNumber := "1234";
                 AccountTxns.index := Int 0;
                 AccountTxns.txns := [month_txn monthMoment] |})].

Definition ledger : ScraperAccount.t :=
  {| ScraperAccount.accountNumber := "1234";
     ScraperAccount.txns := [month_txn 1; month_txn 2; month_txn 3] |}.

Definition results : list FetchTransactionsResult :=
  [month_result 1; month_result 2; month_result 3].

(** The three months, the second settling last. *)
Definition run : Async LegacyScrapingResult :=
  fetchAllTransactions (imports := imports) page extended 0 [2; 0; 1]%nat.

(** The same when the dashboard of the second month fails. *)
Definition run_dashboard_fails : Async LegacyScrapingResult :=
  fetchAllTransactions (imports := imports) page_dashboard_fails extended 0
    [0; 1; 2]%nat.

End Sample.

(** ** More concrete inputs *)

Module MoreSamples.

(** No month answers its transactions list. *)
Definition page_no_transactions : Page := {|
  post_ValidateIdData := post_ValidateIdData Sample.page;
  post_performLogonI := post_performLogonI Sample.page;
  get_DashboardMonth := get_DashboardMonth Sample.page;
  get_CardsTransactionsList := fun _ => None
|}.

(** Two cards with the same card number, at the indices 0 and 1. *)
Definition first_card : CardCharge :=
  {| cardIndex := "0"; cardNumber := "1234"; billingDate := "10/02/2020" |}.

Definition second_card : CardCharge :=
  {| cardIndex := "1"; cardNumber := "1234"; billingDate := "10/02/2020" |}.

Definition card_transactions (txns : list ScrapedTransaction) : CardTransactions :=
  {| CurrentCardTransactions :=
       Some [{| txnIsrael := Some txns; txnAbroad := None |}] |}.

Definition two_cards_bean : JsObject.t CardTransactions :=
  [("Index0", card_transactions [Sample.purchase_of 1]);
   ("Index1", card_transactions [Sample.purchase_of 2])].

Definition page_two_cards : Page := {|
  post_ValidateIdData := post_ValidateIdData Sample.page;
  post_performLogonI := post_performLogonI Sample.page;
  get_DashboardMonth :=
    fun _ =>
      Some {| FetchAccountsWithinPageResponse.Header := Sample.header_ok;
              FetchAccountsWithinPageResponse.DashboardMonthBean :=
                Some {| cardsCharges := Some [first_card; second_card] |} |};
  get_CardsTransactionsList :=
    fun _ =>
      Some {| CardsTransactionsListResponse.Header := Sample.header_ok;
              CardsTransactionsListResponse.CardsTransactionsListBean :=
                Some two_cards_bean |}
|}.

(** The imports of [Sample] with an empty sequence of months. *)
Definition imports_no_months : Imports := {|
  SHEKEL_CURRENCY_KEYWORD := SHEKEL_CURRENCY_KEYWORD (Imports := Sample.imports);
  SHEKEL_CURRENCY := SHEKEL_CURRENCY (Imports := Sample.imports);
  ALT_SHEKEL_CURRENCY := ALT_SHEKEL_CURRENCY (Imports := Sample.imports);
  moment_parse_toISOString := moment_parse_toISOString (Imports := Sample.imports);
  moment_format := moment_format (Imports := Sample.imports);
  moment_month := moment_month (Imports := Sample.imports);
  moment_year := moment_year (Imports := Sample.imports);
  moment_subtract_years := moment_subtract_years (Imports := Sample.imports);
  buildUrl := buildUrl (Imports := Sample.imports);
  numberToString := numberToString (Imports := Sample.imports);
  getAllMonthMoments := fun _ _ => [];
  fixInstallments := fixInstallments (Imports := Sample.imports);
  filterOldTransactions := filterOldTransactions (Imports := Sample.imports)
|}.

(** The options of [Sample] for another company, with a start date. *)
Definition other_company : ExtendedOptions.t :=
  {| ExtendedOptions.startDate := Some 5;
     ExtendedOptions.combineInstallments := false;
     ExtendedOptions.servicesUrl := Sample.services;
     ExtendedOptions.companyCode := "22" |}.

(** A scraper whose caller asks for transactions from the instant 50 on. *)
Definition scraper_from_50 : IsracardAmexBaseScraper :=
  with_startDate (Some 50) (Sample.scraper Sample.page).

(** A card whose number is the name of a property of [Object.prototype]. *)
Definition constructor_card : CardCharge :=
  {| cardIndex := "0"; cardNumber := "constructor"; billingDate := "10/02/2020" |}.

Definition dashboard_of (charges : list CardCharge)
  : option FetchAccountsWithinPageResponse.t :=
  Some {| FetchAccountsWithinPageResponse.Header := Sample.header_ok;
          FetchAccountsWithinPageResponse.DashboardMonthBean :=
            Some {| cardsCharges := Some charges |} |}.

(** [Sample.page] with that card in the place of the card 1234. *)
Definition page_constructor_card : Page := {|
  post_ValidateIdData := post_ValidateIdData Sample.page;
  post_performLogonI := post_performLogonI Sample.page;
  get_DashboardMonth := fun _ => dashboard_of [constructor_card];
  get_CardsTransactionsList := get_CardsTransactionsList Sample.page
|}.

Definition constructor_result (monthMoment : Moment) : FetchTransactionsResult :=
  AccountTxnsObject
    [("constructor",
      {| AccountTxns.accountNumber := "constructor";
         AccountTxns.index := Int 0;
         AccountTxns.txns := [Sample.month_txn monthMoment] |})].

(** A card numbered [__proto__] at the index 0 and the card 1234 at the
    index 1. *)
Definition proto_card : CardCharge :=
  {| cardIndex := "0"; cardNumber := "__proto__"; billingDate := "10/02/2020" |}.

Definition page_proto_card : Page := {|
  post_ValidateIdData := post_ValidateIdData Sample.page;
  post_performLogonI := post_performLogonI Sample.page;
  get_DashboardMonth := fun _ => dashboard_of [proto_card; second_card];
  get_CardsTransactionsList := get_CardsTransactionsList page_two_cards
|}.

(** A calendar of months of 30 instants and years of 360, read at the
    instant 1000: the month of an instant begins at the multiple of 30 at
    or below it, and the sequence of months goes from the month of the
    start to the month of the clock. *)
Definition calendarMonth (instant : Moment) : Moment := 30 * (instant / 30).

Definition clock : Moment := 1000.

Definition monthsFrom (startMoment : Moment) : list Moment :=
  List.map (fun i => 30 * (startMoment / 30 + Z.of_nat i))
    (seq 0 (Z.to_nat (clock / 30 - startMoment / 30 + 1))).

Definition calendar_imports : Imports := {|
  SHEKEL_CURRENCY_KEYWORD := SHEKEL_CURRENCY_KEYWORD (Imports := Sample.imports);
  SHEKEL_CURRENCY := SHEKEL_CURRENCY (Imports := Sample.imports);
  ALT_SHEKEL_CURRENCY := ALT_SHEKEL_CURRENCY (Imports := Sample.imports);
  moment_parse_toISOString := moment_parse_toISOString (Imports := Sample.imports);
  moment_format := moment_format (Imports := Sample.imports);
  moment_month := moment_month (Imports := Sample.imports);
  moment_year := moment_year (Imports := Sample.imports);
  moment_subtract_years := fun m n => m - 360 * n;
  buildUrl := buildUrl (Imports := Sample.imports);
  numberToString := numberToString (Imports := Sample.imports);
  getAllMonthMoments := fun startMoment _ => monthsFrom startMoment;
  fixInstallments := fixInstallments (Imports := Sample.imports);
  filterOldTransactions := filterOldTransactions (Imports := Sample.imports)
|}.

End MoreSamples.

(** * Properties *)

(** ** Digits, runs of digits and [parseInt] *)

Section Strings.

Lemma append_cons (c : ascii) (s t : string) :
  String c s +:+ t = String c (s +:+ t).
Proof. reflexivity. Qed.

Lemma append_snoc_assoc (cur : string) (c : ascii) (d : string) :
  (cur +:+ String c EmptyString) +:+ d = cur +:+ String c d.
Proof.
  induction cur as [|a cur IH]; [reflexivity |].
  by rewrite !append_cons, IH.
Qed.

Lemma append_empty_r (s : string) : s +:+ EmptyString = s.
Proof.
  induction s as [|a s IH]; [reflexivity |].
  by rewrite append_cons, IH.
Qed.

Lemma append_nonempty_l (s t : string) : s <> EmptyString -> s +:+ t <> EmptyString.
Proof. destruct s; [congruence | discriminate]. Qed.

Lemma flush_nonempty (s : string) : s <> EmptyString -> flush s = [s].
Proof. destruct s; [congruence | reflexivity]. Qed.

Lemma digit_range (a : ascii) :
  is_digit a = true -> (48 <= code a <= 57)%N.
Proof.
  unfold is_digit. intros H. apply andb_prop in H as [H1 H2].
  apply N.leb_le in H1, H2. lia.
Qed.

Lemma digit_not_ws1 (a : ascii) : is_digit a = true -> is_ws1 a = false.
Proof.
  intros H%digit_range. unfold is_ws1.
  destruct (N.leb_spec 9 (code a)), (N.leb_spec (code a) 13),
    (N.eqb_spec (code a) 32); simpl; try reflexivity; lia.
Qed.

Lemma digit_not_ws2 (a b : ascii) : is_digit a = true -> is_ws2 a b = false.
Proof.
  intros H%digit_range. unfold is_ws2.
  destruct (N.eqb_spec (code a) 194); [lia | reflexivity].
Qed.

Lemma digit_not_ws3 (a b c : ascii) : is_digit a = true -> is_ws3 a b c = false.
Proof.
  intros H%digit_range. unfold is_ws3.
  destruct (N.eqb_spec (code a) 225), (N.eqb_spec (code a) 226),
    (N.eqb_spec (code a) 227), (N.eqb_spec (code a) 239);
    try lia; reflexivity.
Qed.

Lemma trimStart_digit (a : ascii) (r : string) :
  is_digit a = true -> trimStart (String a r) = String a r.
Proof.
  intros H. simpl. rewrite (digit_not_ws1 a H).
  destruct r as [|b r]; [reflexivity |].
  rewrite (digit_not_ws2 a b H).
  destruct r as [|c r]; [reflexivity |].
  by rewrite (digit_not_ws3 a b c H).
Qed.

Lemma split_sign_digit (a : ascii) (r : string) :
  is_digit a = true -> split_sign (String a r) = (false, String a r).
Proof.
  destruct a as [[] [] [] [] [] [] [] []]; intros H;
    first [ discriminate H | reflexivity ].
Qed.

Lemma span_all_digits (d : string) :
  all_digits d = true -> span_digits d = (d, EmptyString).
Proof.
  induction d as [|a d IH]; simpl; [reflexivity |].
  intros [Ha Hd]%andb_prop. rewrite Ha, (IH Hd). reflexivity.
Qed.

(** On a non-empty run of digits [parseInt] is the decimal value. *)
Lemma parseInt_digits (d : string) :
  all_digits d = true -> d <> EmptyString ->
  parseInt d = number_of_Z (decimal d).
Proof.
  intros Hd Hne. destruct d as [|a d]; [congruence |].
  pose proof Hd as Hd'. simpl in Hd'. apply andb_prop in Hd' as [Ha _].
  unfold parseInt. rewrite (trimStart_digit a d Ha), (split_sign_digit a d Ha).
  rewrite (span_all_digits _ Hd). reflexivity.
Qed.

Lemma runs_skip_no_digits (pre rest : string) :
  no_digits pre = true ->
  digit_runs_from EmptyString (pre +:+ rest) = digit_runs_from EmptyString rest.
Proof.
  induction pre as [|a pre IH]; simpl; [reflexivity |].
  intros [Ha Hp]%andb_prop. apply negb_true_iff in Ha. rewrite Ha. by apply IH.
Qed.

Lemma runs_read_digits (d rest cur : string) :
  all_digits d = true ->
  digit_runs_from cur (d +:+ rest) = digit_runs_from (cur +:+ d) rest.
Proof.
  revert cur. induction d as [|a d IH]; intros cur; simpl.
  - by rewrite append_empty_r.
  - intros [Ha Hd]%andb_prop. rewrite Ha, (IH _ Hd).
    by rewrite append_snoc_assoc.
Qed.

Lemma runs_close (cur mid rest : string) :
  no_digits mid = true -> mid <> EmptyString ->
  digit_runs_from cur (mid +:+ rest)
  = flush cur ++ digit_runs_from EmptyString rest.
Proof.
  intros Hm Hne. destruct mid as [|a mid]; [congruence |].
  simpl in Hm. apply andb_prop in Hm as [Ha Hm]. apply negb_true_iff in Ha.
  simpl. rewrite Ha. f_equal. by apply runs_skip_no_digits.
Qed.

Lemma runs_no_digits (cur post : string) :
  no_digits post = true -> digit_runs_from cur post = flush cur.
Proof.
  destruct post as [|a post]; [reflexivity |].
  intros H. rewrite <- (append_empty_r (String a post)).
  rewrite runs_close by (assumption || discriminate).
  simpl. by rewrite app_nil_r.
Qed.

Lemma runs_end (cur post : string) :
  ends_run post ->
  digit_runs_from cur post = flush cur ++ digit_runs_from EmptyString post.
Proof.
  destruct post as [|a post]; simpl.
  - intros _. by rewrite app_nil_r.
  - intros ->. reflexivity.
Qed.

Lemma runs_two (pre d1 mid d2 post : string) :
  no_digits pre = true ->
  all_digits d1 = true -> d1 <> EmptyString ->
  no_digits mid = true -> mid <> EmptyString ->
  all_digits d2 = true -> d2 <> EmptyString ->
  ends_run post ->
  digit_runs (pre +:+ d1 +:+ mid +:+ d2 +:+ post)
  = d1 :: d2 :: digit_runs post.
Proof.
  intros Hpre Hd1 Hn1 Hmid Hnm Hd2 Hn2 Hpost. unfold digit_runs.
  rewrite runs_skip_no_digits by assumption.
  rewrite runs_read_digits by assumption. simpl.
  rewrite runs_close by assumption.
  rewrite runs_read_digits by assumption. simpl.
  rewrite runs_end by assumption.
  by rewrite !flush_nonempty.
Qed.

Lemma runs_at_most_one (pre d post : string) :
  no_digits pre = true -> all_digits d = true -> no_digits post = true ->
  (length (digit_runs (pre +:+ d +:+ post)) < 2)%nat.
Proof.
  intros Hpre Hd Hpost. unfold digit_runs.
  rewrite runs_skip_no_digits by assumption.
  rewrite runs_read_digits by assumption. simpl.
  rewrite runs_no_digits by assumption.
  destruct d; simpl; lia.
Qed.

End Strings.

(** ** The record normalizer *)

Section Normalizer.

Context {imports : Imports}.

Lemma keepTransaction_false (txn : ScrapedTransaction) :
  keepTransaction txn = false <-> excluded txn.
Proof.
  unfold keepTransaction, excluded.
  destruct (String.eqb_spec (dealSumType txn) "1"),
    (String.eqb_spec (voucherNumberRatz txn) "000000000"),
    (String.eqb_spec (voucherNumberRatzOutbound txn) "000000000");
    simpl; intuition congruence.
Qed.

Lemma keepTransaction_true (txn : ScrapedTransaction) :
  keepTransaction txn = true <-> ~ excluded txn.
Proof.
  rewrite <- keepTransaction_false. destruct (keepTransaction txn); intuition congruence.
Qed.

Lemma filter_sublist {A} (f : A -> bool) (l : list A) :
  sublist (List.filter f l) l.
Proof.
  induction l as [|a l IH]; simpl; [constructor |].
  destruct (f a); by constructor.
Qed.

(** C1, as the code has it: [convertTransactions] converts, in order, the
    records it keeps, and it drops a record exactly when its deal-sum type
    is "1" or EITHER of its two voucher numbers is "000000000"; so a
    list of one record converts to nothing exactly in that case. *)
Theorem convertTransactions_drops_iff_excluded
    (txns : list ScrapedTransaction) (processedDate : option string) :
  (exists kept : list ScrapedTransaction,
      sublist kept txns
      /\ convertTransactions txns processedDate
         = List.map (convertTransaction processedDate) kept
      /\ forall txn, In txn txns -> (In txn kept <-> ~ excluded txn))
  /\ forall txn, convertTransactions [txn] processedDate = [] <-> excluded txn.
Proof.
  split.
  - exists (List.filter keepTransaction txns). split; [apply filter_sublist |].
    split; [reflexivity |].
    intros txn Hin. rewrite filter_In, keepTransaction_true. tauto.
  - intros txn. rewrite <- keepTransaction_false.
    unfold convertTransactions. simpl.
    destruct (keepTransaction txn); simpl; split; congruence.
Qed.

Lemma Qsign_opp (q : Q) : Qsign (- q) = - Qsign q.
Proof. unfold Qsign. destruct q as [n d]. simpl. apply Z.sgn_opp. Qed.

Lemma Qopp_nonpos (q : Q) : (0 <= q)%Q -> (- q <= 0)%Q.
Proof. unfold Qle. destruct q as [n d]. simpl. lia. Qed.

(** C5, as the code has it: every transaction the normalizer produces
    comes from a kept record; its original amount is the negation of the
    deal sum, and its charged amount the negation of the payment sum, of the
    direction the record selects.  So the original amount is at most zero
    when that deal sum is not negative, the charged amount is at most zero
    when that payment sum is not negative, and the two amounts have the
    same sign when the two raw sums have. *)
Theorem convertTransactions_amounts_negated
    (txns : list ScrapedTransaction) (processedDate : option string)
    (result : Transaction) :
  In result (convertTransactions txns processedDate) ->
  exists txn,
    In txn txns /\ ~ excluded txn
    /\ result = convertTransaction processedDate txn
    /\ originalAmount result = (- selectedDealSum txn)%Q
    /\ chargedAmount result = (- selectedPaymentSum txn)%Q
    /\ ((0 <= selectedDealSum txn)%Q -> (originalAmount result <= 0)%Q)
    /\ ((0 <= selectedPaymentSum txn)%Q -> (chargedAmount result <= 0)%Q)
    /\ (Qsign (selectedDealSum txn) = Qsign (selectedPaymentSum txn) ->
        Qsign (originalAmount result) = Qsign (chargedAmount result)).
Proof.
  unfold convertTransactions. intros Hin.
  apply in_map_iff in Hin as (txn & <- & Hin).
  apply filter_In in Hin as [Hin Hkeep].
  exists txn. split; [assumption |].
  split; [by apply keepTransaction_true |].
  split; [reflexivity |].
  assert (Ho : originalAmount (convertTransaction processedDate txn)
               = (- selectedDealSum txn)%Q).
  { unfold selectedDealSum. simpl. by destruct (truthy (dealSumOutbound txn)). }
  assert (Hc : chargedAmount (convertTransaction processedDate txn)
               = (- selectedPaymentSum txn)%Q).
  { unfold selectedPaymentSum. simpl. by destruct (truthy (dealSumOutbound txn)). }
  rewrite Ho, Hc. repeat split.
  - apply Qopp_nonpos.
  - apply Qopp_nonpos.
  - intros Hs. by rewrite !Qsign_opp, Hs.
Qed.

(** C6: when the memo has the installment marker, and its first two runs
    of digits are [d1] and [d2] in this order, [getInstallmentsInfo]
    returns the integers they write as number and total (exactly, up to
    2^53) and the transaction is of type Installments; when the memo is
    absent, lacks the marker, or has at most one run of digits, it returns
    nothing and the type is Normal. *)
Theorem getInstallmentsInfo_first_two_integers (txn : ScrapedTransaction) :
  (forall info pre d1 mid d2 post,
      moreInfo txn = Some info ->
      includes info INSTALLMENTS_KEYWORD = true ->
      info = pre +:+ d1 +:+ mid +:+ d2 +:+ post ->
      no_digits pre = true ->
      all_digits d1 = true -> d1 <> EmptyString ->
      no_digits mid = true -> mid <> EmptyString ->
      all_digits d2 = true -> d2 <> EmptyString ->
      ends_run post ->
      getInstallmentsInfo txn
      = Some {| number := number_of_Z (decimal d1);
                total := number_of_Z (decimal d2) |}
      /\ (Z.abs (decimal d1) <= 2 ^ 53 -> number_of_Z (decimal d1) = Int (decimal d1))
      /\ (Z.abs (decimal d2) <= 2 ^ 53 -> number_of_Z (decimal d2) = Int (decimal d2))
      /\ getTransactionType txn = TransactionTypes.Installments)
  /\ ((moreInfo txn = None
       \/ (exists info, moreInfo txn = Some info
                        /\ includes info INSTALLMENTS_KEYWORD = false)
       \/ (exists pre d post, moreInfo txn = Some (pre +:+ d +:+ post)
                              /\ no_digits pre = true /\ all_digits d = true
                              /\ no_digits post = true)) ->
      getInstallmentsInfo txn = None
      /\ getTransactionType txn = TransactionTypes.Normal).
Proof.
  split.
  - intros info pre d1 mid d2 post Hinfo Hkw -> Hpre Hd1 Hn1 Hmid Hnm Hd2 Hn2 Hpost.
    assert (Hget : getInstallmentsInfo txn
                   = Some {| number := number_of_Z (decimal d1);
                             total := number_of_Z (decimal d2) |}).
    { unfold getInstallmentsInfo. rewrite Hinfo, Hkw.
      destruct (String.eqb_spec (pre +:+ d1 +:+ mid +:+ d2 +:+ post) "") as [He|_].
      - rewrite He in Hkw. discriminate Hkw.
      - simpl. unfold match_digits.
        rewrite runs_two by assumption.
        by rewrite !parseInt_digits. }
    split; [exact Hget |].
    split; [| split].
    + intros Hle. unfold number_of_Z, MAX_EXACT.
      destruct (Z.leb_spec (Z.abs (decimal d1)) (2 ^ 53)); [reflexivity | lia].
    + intros Hle. unfold number_of_Z, MAX_EXACT.
      destruct (Z.leb_spec (Z.abs (decimal d2)) (2 ^ 53)); [reflexivity | lia].
    + unfold getTransactionType. by rewrite Hget.
  - intros H.
    assert (Hget : getInstallmentsInfo txn = None).
    { unfold getInstallmentsInfo.
      destruct H as [-> | [(info & -> & Hkw) | (pre & d & post & -> & Hpre & Hd & Hpost)]].
      - reflexivity.
      - rewrite Hkw. by rewrite orb_true_r.
      - destruct (_ || _); [reflexivity |].
        unfold match_digits.
        pose proof (runs_at_most_one pre d post Hpre Hd Hpost) as Hlen.
        destruct (digit_runs (pre +:+ d +:+ post)) as [|r1 [|r2 rs]];
          [reflexivity | reflexivity | simpl in Hlen; lia]. }
    split; [exact Hget |].
    unfold getTransactionType. by rewrite Hget.
Qed.

End Normalizer.

(** ** Objects used as dictionaries *)

Section JsObjectFacts.

Context {V : Type}.
Implicit Types (o : JsObject.t V) (k : string) (v : V).

Lemma get_set_eq k v o : JsObject.get k (JsObject.set k v o) = Some v.
Proof.
  induction o as [|[k' v'] o IH]; simpl.
  - by rewrite String.eqb_refl.
  - destruct (String.eqb_spec k k') as [->|Hne]; simpl.
    + by rewrite String.eqb_refl.
    + destruct (String.eqb_spec k k'); [congruence | exact IH].
Qed.

Lemma get_set_ne k k' v o :
  k <> k' -> JsObject.get k' (JsObject.set k v o) = JsObject.get k' o.
Proof.
  intros Hne. induction o as [|[k0 v0] o IH]; simpl.
  - destruct (String.eqb_spec k' k); [congruence | reflexivity].
  - destruct (String.eqb_spec k k0) as [->|Hk]; simpl.
    + destruct (String.eqb_spec k' k0); [congruence | reflexivity].
    + destruct (String.eqb_spec k' k0); [reflexivity | exact IH].
Qed.

Lemma get_None_not_In k o :
  JsObject.get k o = None <-> ~ In k (List.map fst o).
Proof.
  induction o as [|[k' v'] o IH]; simpl; [tauto |].
  destruct (String.eqb_spec k k') as [->|Hne].
  - split; [discriminate | tauto].
  - rewrite IH. intuition congruence.
Qed.

Lemma get_Some_In k o :
  (exists v, JsObject.get k o = Some v) <-> In k (List.map fst o).
Proof.
  destruct (JsObject.get k o) as [v|] eqn:Hget.
  - split; [intros _ | eauto].
    destruct (in_dec string_dec k (List.map fst o)) as [Hin|Hin]; [assumption |].
    apply get_None_not_In in Hin. congruence.
  - split; [intros [v Hv]; discriminate |].
    intros Hin. apply get_None_not_In in Hget. tauto.
Qed.

Lemma In_keys_set k k' v o :
  In k' (List.map fst (JsObject.set k v o)) <-> k' = k \/ In k' (List.map fst o).
Proof.
  induction o as [|[k0 v0] o IH]; simpl.
  - intuition congruence.
  - destruct (String.eqb_spec k k0) as [->|Hk]; simpl.
    + intuition congruence.
    + rewrite IH. intuition congruence.
Qed.

Lemma NoDup_set k v o :
  List.NoDup (List.map fst o) -> List.NoDup (List.map fst (JsObject.set k v o)).
Proof.
  induction o as [|[k0 v0] o IH]; simpl; intros Hnd.
  - apply List.NoDup_cons_iff. split; [intros [] | apply List.NoDup_nil].
  - apply List.NoDup_cons_iff in Hnd as [Hnin Hnd].
    destruct (String.eqb_spec k k0) as [->|Hk]; simpl.
    + by apply List.NoDup_cons_iff.
    + apply List.NoDup_cons_iff. split; [| by apply IH].
      rewrite In_keys_set. intuition congruence.
Qed.

Lemma NoDup_assign k v o :
  List.NoDup (List.map fst o) -> List.NoDup (List.map fst (JsObject.assign k v o)).
Proof.
  unfold JsObject.assign. destruct (k =? "__proto__")%string; [auto |].
  apply NoDup_set.
Qed.

Lemma get_assign_ne k k' v o :
  k <> k' -> JsObject.get k' (JsObject.assign k v o) = JsObject.get k' o.
Proof.
  intros Hne. unfold JsObject.assign.
  destruct (k =? "__proto__")%string; [reflexivity | by apply get_set_ne].
Qed.

Lemma get_assign_eq k v o :
  k <> "__proto__" -> JsObject.get k (JsObject.assign k v o) = Some v.
Proof.
  intros Hne. unfold JsObject.assign.
  destruct (String.eqb_spec k "__proto__"); [contradiction | apply get_set_eq].
Qed.

(** An assignment to [__proto__] sets the prototype and creates no own
    property. *)
Lemma get_assign_proto k v o :
  JsObject.get "__proto__" o = None ->
  JsObject.get "__proto__" (JsObject.assign k v o) = None.
Proof.
  intros Hget. unfold JsObject.assign.
  destruct (String.eqb_spec k "__proto__") as [->|Hne]; [exact Hget |].
  by rewrite get_set_ne.
Qed.

Lemma inherited_false k :
  JsObject.inherited k = false <-> ~ In k JsObject.Object_prototype_names.
Proof.
  unfold JsObject.inherited. split.
  - intros H Hin. apply Bool.not_true_iff_false in H. apply H.
    apply existsb_exists. exists k. split; [exact Hin | apply String.eqb_refl].
  - intros H. apply Bool.not_true_iff_false. intros Hex.
    apply existsb_exists in Hex as (x & Hin & Heq).
    apply String.eqb_eq in Heq. subst. contradiction.
Qed.

Lemma assign_plain k v o :
  JsObject.inherited k = false -> JsObject.assign k v o = JsObject.set k v o.
Proof.
  unfold JsObject.assign. destruct (String.eqb_spec k "__proto__") as [->|];
    [discriminate | reflexivity].
Qed.

Lemma read_own k v o :
  JsObject.get k o = Some v -> JsObject.read k o = JsObject.Own v.
Proof. unfold JsObject.read. by intros ->. Qed.

Lemma read_inherited k o :
  JsObject.get k o = None -> JsObject.inherited k = true ->
  JsObject.read k o = JsObject.Inherited.
Proof. unfold JsObject.read. by intros -> ->. Qed.

Lemma read_undefined k o :
  JsObject.get k o = None -> JsObject.inherited k = false ->
  JsObject.read k o = JsObject.Undefined.
Proof. unfold JsObject.read. by intros -> ->. Qed.

End JsObjectFacts.

Section KeyOrder.

Lemma insert_by_index_perm (e : Z * string) (l : list (Z * string)) :
  Permutation (JsObject.insert_by_index e l) (e :: l).
Proof.
  induction l as [|e' l IH]; simpl; [reflexivity |].
  destruct (fst e <=? fst e'); [reflexivity |].
  rewrite IH. apply perm_swap.
Qed.

Lemma sort_by_index_perm (l : list (Z * string)) :
  Permutation (JsObject.sort_by_index l) l.
Proof.
  induction l as [|e l IH]; simpl; [reflexivity |].
  rewrite insert_by_index_perm. by constructor.
Qed.

Lemma index_keys_snd (ks : list string) :
  List.map snd (JsObject.index_keys ks) = List.filter JsObject.is_index_key ks.
Proof.
  induction ks as [|k ks IH]; simpl; [reflexivity |].
  unfold JsObject.is_index_key.
  destruct (JsObject.array_index k); simpl; by rewrite IH.
Qed.

Lemma filter_split_perm {A} (f : A -> bool) (l : list A) :
  Permutation (List.filter f l ++ List.filter (fun x => negb (f x)) l) l.
Proof.
  induction l as [|a l IH]; simpl; [reflexivity |].
  destruct (f a); simpl.
  - by constructor.
  - rewrite <- Permutation_middle. by constructor.
Qed.

(** [Object.keys] lists every key once, whatever the order. *)
Lemma order_keys_perm (ks : list string) :
  Permutation (JsObject.order_keys ks) ks.
Proof.
  unfold JsObject.order_keys.
  rewrite (Permutation_map snd (sort_by_index_perm _)), index_keys_snd.
  apply filter_split_perm.
Qed.

Lemma In_keys {V} (k : string) (o : JsObject.t V) :
  In k (JsObject.keys o) <-> In k (List.map fst o).
Proof.
  unfold JsObject.keys. split; apply Permutation_in;
    [| symmetry]; apply order_keys_perm.
Qed.

Lemma NoDup_keys {V} (o : JsObject.t V) :
  List.NoDup (List.map fst o) -> List.NoDup (JsObject.keys o).
Proof.
  unfold JsObject.keys. intros Hnd.
  eapply Permutation_NoDup; [symmetry; apply order_keys_perm | exact Hnd].
Qed.

End KeyOrder.

(** ** Promise.all *)

Section PromiseAll.

Context {A : Type}.

Lemma omap_id_Some (xs : list A) :
  omap id (Some <$> xs : list (option A)) = xs.
Proof. induction xs as [|x xs IH]; [reflexivity |]. simpl. f_equal. exact IH. Qed.

(** While the elements of [completion] are still to settle, and the slots
    of all the others are filled, the promise is fulfilled with the values
    in the order of the array. *)
Lemma settle_all_pending (xs : list A) (completion : list nat)
    (values : list (option A)) :
  List.NoDup completion ->
  (forall i, In i completion -> (i < length xs)%nat) ->
  (forall i, (i < length xs)%nat ->
             values !! i = Some (if in_dec Nat.eq_dec i completion
                                 then None else xs !! i)) ->
  length values = length xs ->
  completion <> [] ->
  settle_all (Fulfilled <$> xs) values (length completion) completion
  = Fulfilled xs.
Proof.
  revert values. induction completion as [|i rest IH]; [congruence |].
  intros values Hnd Hlt Hslots Hlen _.
  apply List.NoDup_cons_iff in Hnd as [Hnin Hnd].
  assert (Hi : (i < length xs)%nat) by (apply Hlt; simpl; tauto).
  destruct (lookup_lt_is_Some_2 xs i Hi) as [x Hx].
  assert (Hslots' : forall j, (j < length xs)%nat ->
            <[i := Some x]> values !! j
            = Some (if in_dec Nat.eq_dec j rest then None else xs !! j)).
  { intros j Hj. destruct (decide (i = j)) as [<-|Hne].
    - rewrite list_lookup_insert_eq by lia.
      destruct (in_dec Nat.eq_dec i rest); [tauto | by rewrite Hx].
    - rewrite list_lookup_insert_ne by assumption. rewrite (Hslots j Hj).
      destruct (in_dec Nat.eq_dec j (i :: rest)) as [Hin|Hin],
        (in_dec Nat.eq_dec j rest) as [Hin'|Hin'];
        simpl in Hin; try reflexivity; intuition congruence. }
  cbn [settle_all]. rewrite (Hslots i Hi).
  destruct (in_dec Nat.eq_dec i (i :: rest)) as [_|Hn]; [| simpl in Hn; tauto].
  rewrite list_lookup_fmap, Hx. cbn [fmap option_fmap option_map].
  destruct rest as [|j rest].
  - cbn [length]. f_equal.
    assert (Hall : <[i := Some x]> values = Some <$> xs).
    { apply list_eq. intros j. rewrite list_lookup_fmap.
      destruct (decide (j < length xs)%nat) as [Hj|Hj].
      - rewrite (Hslots' j Hj). simpl.
        destruct (lookup_lt_is_Some_2 xs j Hj) as [y Hy]. by rewrite Hy.
      - rewrite (lookup_ge_None_2 xs j) by lia.
        apply lookup_ge_None_2. rewrite length_insert. lia. }
    rewrite Hall. apply omap_id_Some.
  - cbn [length Nat.pred]. apply IH.
    + exact Hnd.
    + intros k Hk. apply Hlt. simpl. tauto.
    + exact Hslots'.
    + by rewrite length_insert.
    + discriminate.
Qed.

(** Whatever the order in which the calls settle, if each of them is
    fulfilled then [Promise.all] is fulfilled with their values in the
    order of the array. *)
Lemma Promise_all_fulfilled (calls : list (Async A)) (xs : list A)
    (completion : list nat) :
  Forall2 (fun call x => snd call = Fulfilled x) calls xs ->
  Permutation completion (seq 0 (length calls)) ->
  snd (Promise_all calls completion) = Fulfilled xs.
Proof.
  intros Hall Hperm. unfold Promise_all. simpl.
  assert (Hlen : length calls = length xs) by (eapply Forall2_length; eauto).
  assert (Hout : List.map snd calls = Fulfilled <$> xs).
  { clear Hperm Hlen. induction Hall as [|c x calls xs Hc _ IH]; simpl;
      [reflexivity | by rewrite Hc, IH]. }
  destruct calls as [|c calls].
  { destruct xs; [reflexivity | discriminate]. }
  rewrite Hout, Hlen.
  assert (Hclen : length completion = length xs).
  { rewrite (Permutation_length Hperm), length_seq. exact Hlen. }
  rewrite <- Hclen at 2. apply settle_all_pending.
  - eapply Permutation_NoDup; [symmetry; exact Hperm | apply List.seq_NoDup].
  - intros i Hin. eapply Permutation_in in Hin; [| exact Hperm].
    apply in_seq in Hin. lia.
  - intros i Hi. rewrite lookup_replicate_2 by lia.
    destruct (in_dec Nat.eq_dec i completion) as [_|Hn]; [reflexivity |].
    exfalso. apply Hn. eapply Permutation_in; [symmetry; exact Hperm |].
    apply in_seq. lia.
  - by rewrite length_replicate.
  - intros ->. simpl in Hclen. rewrite <- Hclen in Hlen. discriminate.
Qed.

(** When every element is fulfilled or rejected with the same error, and
    one of those still to settle is rejected, the promise is rejected with
    that error. *)
Lemma settle_all_rejected (outcomes : list (Outcome A)) (e : JsError)
    (completion : list nat) (values : list (option A)) :
  Forall (fun o => o = Rejected e \/ exists x, o = Fulfilled x) outcomes ->
  List.NoDup completion ->
  (forall i, In i completion ->
             values !! i = Some None /\ (i < length outcomes)%nat) ->
  Exists (fun i => outcomes !! i = Some (Rejected e)) completion ->
  settle_all outcomes values (length completion) completion = Rejected e.
Proof.
  intros Hall. revert values.
  induction completion as [|i rest IH]; intros values Hnd Hslots Hex;
    [inversion Hex |].
  apply List.NoDup_cons_iff in Hnd as [Hnin Hnd].
  destruct (Hslots i (or_introl eq_refl)) as [Hi Hlt].
  destruct (lookup_lt_is_Some_2 outcomes i Hlt) as [o Ho].
  cbn [settle_all]. rewrite Hi, Ho.
  assert (Hform : o = Rejected e \/ exists x, o = Fulfilled x).
  { rewrite List.Forall_forall in Hall. apply Hall.
    apply list_elem_of_In. eapply list_elem_of_lookup_2. exact Ho. }
  destruct Hform as [-> | [x ->]]; [reflexivity |].
  apply List.Exists_cons in Hex as [Hex|Hex]; [congruence |].
  destruct rest as [|j rest]; [inversion Hex |].
  cbn [length Nat.pred]. apply (IH (<[i := Some x]> values) Hnd); [| exact Hex].
  intros k Hk. destruct (Hslots k (or_intror Hk)) as [Hkv Hklt].
  split; [| exact Hklt].
  rewrite list_lookup_insert_ne; [exact Hkv |].
  intros ->. contradiction.
Qed.

Lemma Promise_all_rejected (calls : list (Async A)) (e : JsError)
    (completion : list nat) :
  Forall (fun call => snd call = Rejected e \/ exists x, snd call = Fulfilled x)
    calls ->
  Exists (fun call => snd call = Rejected e) calls ->
  Permutation completion (seq 0 (length calls)) ->
  snd (Promise_all calls completion) = Rejected e.
Proof.
  intros Hall Hex Hperm. unfold Promise_all. cbn [snd].
  destruct calls as [|c calls]; [inversion Hex |].
  cbv beta iota. set (cs := c :: calls) in *. clearbody cs.
  assert (Hclen : length completion = length cs).
  { by rewrite (Permutation_length Hperm), length_seq. }
  rewrite <- Hclen at 2. apply settle_all_rejected.
  - clear -Hall. induction Hall as [|call l Hc _ IH]; simpl; constructor; assumption.
  - eapply Permutation_NoDup; [symmetry; exact Hperm | apply List.seq_NoDup].
  - intros i Hin. eapply Permutation_in in Hin; [| exact Hperm].
    apply in_seq in Hin. rewrite length_map. unfold Async in *.
    split; [apply lookup_replicate_2 |]; lia.
  - apply List.Exists_exists in Hex as (call & Hin & Hrej).
    apply list_elem_of_In, list_elem_of_lookup in Hin as [i Hi].
    apply List.Exists_exists. exists i. split.
    + eapply Permutation_in; [symmetry; exact Hperm |].
      apply in_seq. apply lookup_lt_Some in Hi. unfold Async in *. lia.
    + by rewrite list_lookup_fmap, Hi; simpl; rewrite Hrej.
Qed.

End PromiseAll.

(** ** Logs and outcomes of asynchronous calls *)

Section AsyncFacts.

Lemma bind_fulfilled {A B} (m : Async A) (k : A -> Async B) (a : A) :
  snd m = Fulfilled a -> bind m k = (fst m ++ fst (k a), snd (k a)).
Proof.
  destruct m as [log o]. simpl. intros ->. by destruct (k a).
Qed.

Lemma bind_log_prefix {A B} (m : Async A) (k : A -> Async B) :
  (forall a, fst (k a) = []) -> fst (bind m k) = fst m.
Proof.
  intros Hk. destruct m as [log [a| |]]; simpl; try reflexivity.
  specialize (Hk a). destruct (k a) as [log' r]. simpl in *. subst.
  by rewrite app_nil_r.
Qed.

Lemma filter_calls_app (l1 l2 : list Event) :
  filter_calls (l1 ++ l2) = (filter_calls l1 + filter_calls l2)%nat.
Proof. unfold filter_calls. by rewrite List.filter_app, length_app. Qed.

Lemma filter_calls_flat_map {A} (f : A -> list Event) (l : list A) :
  filter_calls (flat_map f l) = list_sum (List.map (fun a => filter_calls (f a)) l).
Proof.
  induction l as [|a l IH]; simpl; [reflexivity |].
  by rewrite filter_calls_app, IH.
Qed.

Lemma flat_map_map {A B C} (f : A -> B) (g : B -> list C) (l : list A) :
  flat_map g (List.map f l) = flat_map (fun a => g (f a)) l.
Proof. induction l as [|a l IH]; simpl; [reflexivity | by rewrite IH]. Qed.

Lemma bind_ret {A B} (a : A) (k : A -> Async B) : bind (ret a) k = k a.
Proof. unfold bind, ret. by destruct (k a). Qed.

Lemma bind_throw {A B} (e : JsError) (k : A -> Async B) :
  bind (throw e) k = throw e.
Proof. reflexivity. Qed.

Lemma bind_ext {A B} (m : Async A) (k k' : A -> Async B) :
  (forall a, k a = k' a) -> bind m k = bind m k'.
Proof. intros H. destruct m as [log [a| |]]; simpl; by rewrite ?H. Qed.

Lemma bind_assoc {A B C} (m : Async A) (k : A -> Async B) (k' : B -> Async C) :
  bind (bind m k) k' = bind m (fun a => bind (k a) k').
Proof.
  destruct m as [log [a| |]]; simpl; try reflexivity.
  destruct (k a) as [log1 [b| |]]; simpl; try reflexivity.
  destruct (k' b) as [log2 r]. by rewrite app_assoc.
Qed.

Lemma forEach_app {A S} (f : S -> A -> Async S) (l1 l2 : list A) (s : S) :
  forEach f (l1 ++ l2) s = bind (forEach f l1 s) (forEach f l2).
Proof.
  revert s. induction l1 as [|a l1 IH]; intros s.
  - symmetry. apply (bind_ret s (forEach f l2)).
  - change (bind (f s a) (fun s' => forEach f (l1 ++ l2) s')
            = bind (bind (f s a) (forEach f l1)) (forEach f l2)).
    rewrite bind_assoc. apply bind_ext. intros s'. apply IH.
Qed.

(** A loop whose body neither throws nor logs is a fold. *)
Lemma forEach_pure {A S} (f : S -> A -> Async S) (g : S -> A -> S)
    (l : list A) (s : S) :
  (forall s a, In a l -> f s a = ret (g s a)) ->
  forEach f l s = ret (fold_left g l s).
Proof.
  revert s. induction l as [|a l IH]; intros s H; [reflexivity |].
  simpl. rewrite (H s a) by (by left). rewrite bind_ret.
  apply IH. intros s' a' Hin. apply H. by right.
Qed.

Lemma forEach_log_empty {A S} (f : S -> A -> Async S) (l : list A) (s : S) :
  (forall s a, fst (f s a) = []) -> fst (forEach f l s) = [].
Proof.
  intros H. revert s. induction l as [|a l IH]; intros s; [reflexivity |].
  simpl. specialize (H s a). destruct (f s a) as [log [s'| |]]; simpl in *;
    subst; try reflexivity.
  specialize (IH s'). by destruct (forEach f l s') as [log' r]; simpl in *; subst.
Qed.

End AsyncFacts.

(** ** The monthly fetcher *)

Section Fetcher.

Context {imports : Imports}.

Lemma processAccount_fulfilled bean options startMoment accountTxns account :
  exists accountTxns',
    snd (processAccount bean options startMoment accountTxns account)
    = Fulfilled accountTxns'
    /\ (List.NoDup (List.map fst accountTxns) ->
        List.NoDup (List.map fst accountTxns'))
    /\ filter_calls (fst (processAccount bean options startMoment accountTxns account))
       = (if has_groups bean account then 1 else 0)%nat.
Proof.
  unfold processAccount, has_groups.
  destruct (getTxnGroups bean (Account.index account)) as [groups|].
  - destruct (ExtendedOptions.combineInstallments options); simpl;
      (eexists; split; [reflexivity | split; [apply NoDup_assign | reflexivity]]).
  - exists accountTxns. simpl. auto.
Qed.

Lemma forEach_processAccount bean options startMoment accounts accountTxns :
  exists accountTxns',
    snd (forEach (processAccount bean options startMoment) accounts accountTxns)
    = Fulfilled accountTxns'
    /\ (List.NoDup (List.map fst accountTxns) ->
        List.NoDup (List.map fst accountTxns'))
    /\ filter_calls
         (fst (forEach (processAccount bean options startMoment) accounts accountTxns))
       = length (List.filter (has_groups bean) accounts).
Proof.
  revert accountTxns. induction accounts as [|account accounts IH]; intros o.
  - exists o. simpl. auto.
  - destruct (processAccount_fulfilled bean options startMoment o account)
      as (o1 & Hout & Hnd & Hcalls).
    destruct (IH o1) as (o2 & Hout2 & Hnd2 & Hcalls2).
    exists o2. cbn [forEach]. rewrite (bind_fulfilled _ _ _ Hout).
    cbn [fst snd]. split; [exact Hout2 |]. split; [auto |].
    rewrite filter_calls_app, Hcalls, Hcalls2. simpl.
    by destruct (has_groups bean account).
Qed.

Lemma fetchAccounts_returns page servicesUrl monthMoment :
  fetchAccounts page servicesUrl monthMoment
  = ([FetchGet (getAccountsUrl servicesUrl monthMoment)],
     Fulfilled
       (List.map accountOfCardCharge
          <$> dashboard_accounts
                (get_DashboardMonth page (getAccountsUrl servicesUrl monthMoment)))).
Proof.
  unfold fetchAccounts, dashboard_accounts, fetchGetWithinPage. simpl.
  destruct (get_DashboardMonth page _) as [r|]; [| reflexivity].
  destruct (status_is_1 _); [| reflexivity].
  destruct (FetchAccountsWithinPageResponse.DashboardMonthBean r) as [bean|];
    [| reflexivity].
  by destruct (cardsCharges bean).
Qed.

(** The three ways in which a month's fetch ends. *)
Lemma fetchTransactions_cases page options startMoment monthMoment :
  let servicesUrl := ExtendedOptions.servicesUrl options in
  let gets := [FetchGet (getAccountsUrl servicesUrl monthMoment);
               FetchGet (getTransactionsUrl servicesUrl monthMoment)] in
  match transactions_bean
          (get_CardsTransactionsList page
             (getTransactionsUrl servicesUrl monthMoment)),
        dashboard_accounts
          (get_DashboardMonth page (getAccountsUrl servicesUrl monthMoment))
  with
  | None, _ =>
      fetchTransactions page options startMoment monthMoment
      = (gets, Fulfilled EmptyArray)
  | Some _, None =>
      fetchTransactions page options startMoment monthMoment
      = (gets, Rejected forEach_null)
  | Some bean, Some charges =>
      exists accountTxns,
        snd (fetchTransactions page options startMoment monthMoment)
        = Fulfilled (AccountTxnsObject accountTxns)
        /\ List.NoDup (List.map fst accountTxns)
        /\ filter_calls (fst (fetchTransactions page options startMoment monthMoment))
           = length (List.filter (has_groups bean)
                       (List.map accountOfCardCharge charges))
  end.
Proof.
  intros servicesUrl gets. unfold fetchTransactions.
  rewrite fetchAccounts_returns. fold servicesUrl.
  unfold transactions_bean, fetchGetWithinPage. simpl.
  destruct (get_CardsTransactionsList page _) as [r|]; [| reflexivity].
  destruct (status_is_1 _); [| reflexivity].
  destruct (CardsTransactionsListResponse.CardsTransactionsListBean r) as [bean|];
    [| reflexivity].
  destruct (dashboard_accounts _) as [charges|]; [| reflexivity].
  simpl.
  destruct (forEach_processAccount bean options startMoment
              (List.map accountOfCardCharge charges) JsObject.empty)
    as (o & Hout & Hnd & Hcalls).
  exists o. rewrite (bind_fulfilled _ _ _ Hout). simpl.
  split; [reflexivity |]. split; [apply Hnd; constructor |].
  rewrite app_nil_r. exact Hcalls.
Qed.

Lemma fetchTransactions_filter_calls page options startMoment monthMoment :
  filter_calls (fst (fetchTransactions page options startMoment monthMoment))
  = length (processed_accounts page options monthMoment).
Proof.
  pose proof (fetchTransactions_cases page options startMoment monthMoment) as H.
  unfold processed_accounts. cbv zeta in H.
  destruct (transactions_bean _) as [bean|].
  - destruct (dashboard_accounts _) as [charges|].
    + destruct H as (o & _ & _ & H). exact H.
    + by rewrite H.
  - by rewrite H.
Qed.

Lemma fetchTransactions_own_keys page options startMoment monthMoment result :
  snd (fetchTransactions page options startMoment monthMoment) = Fulfilled result ->
  List.NoDup (List.map fst (entries result)).
Proof.
  pose proof (fetchTransactions_cases page options startMoment monthMoment) as H.
  cbv zeta in H. intros Hres.
  destruct (transactions_bean _) as [bean|].
  - destruct (dashboard_accounts _) as [charges|].
    + destruct H as (o & Ho & Hnd & _). rewrite Ho in Hres.
      injection Hres as <-. exact Hnd.
    + rewrite H in Hres. discriminate Hres.
  - rewrite H in Hres. injection Hres as <-. constructor.
Qed.

(** A month's fetch returns, or is rejected with the error of
    [accounts.forEach] on [null]. *)
Lemma fetchTransactions_outcome page options startMoment monthMoment :
  snd (fetchTransactions page options startMoment monthMoment) = Rejected forEach_null
  \/ exists result,
       snd (fetchTransactions page options startMoment monthMoment) = Fulfilled result.
Proof.
  pose proof (fetchTransactions_cases page options startMoment monthMoment) as H.
  cbv zeta in H.
  destruct (transactions_bean _) as [bean|].
  - destruct (dashboard_accounts _) as [charges|].
    + destruct H as (o & Ho & _). right. eauto.
    + left. by rewrite H.
  - right. rewrite H. eauto.
Qed.

End Fetcher.

(** ** The cross-month aggregator *)

Section Aggregator.

Implicit Types (combinedTxns : JsObject.t (list Transaction))
  (result : FetchTransactionsResult) (accountNumber : string).

Lemma get_mergeAccountTxns result combinedTxns k accountNumber :
  JsObject.get accountNumber (mergeAccountTxns result combinedTxns k)
  = if (accountNumber =? k)%string
    then Some (txns_or_empty (JsObject.get accountNumber combinedTxns)
               ++ result_txns result accountNumber)
    else JsObject.get accountNumber combinedTxns.
Proof.
  unfold mergeAccountTxns. cbv zeta.
  destruct (String.eqb_spec accountNumber k) as [->|Hne].
  - destruct (JsObject.get k combinedTxns) as [cur|] eqn:Hget.
    + rewrite Hget. by rewrite get_set_eq.
    + rewrite get_set_eq. by rewrite get_set_eq.
  - destruct (JsObject.get k combinedTxns) as [cur|] eqn:Hget.
    + rewrite Hget. by rewrite get_set_ne.
    + rewrite get_set_eq. by rewrite !get_set_ne.
Qed.

Lemma get_fold_mergeAccountTxns_other result ks combinedTxns accountNumber :
  ~ In accountNumber ks ->
  JsObject.get accountNumber (fold_left (mergeAccountTxns result) ks combinedTxns)
  = JsObject.get accountNumber combinedTxns.
Proof.
  revert combinedTxns. induction ks as [|k ks IH]; intros o Hnin; [reflexivity |].
  simpl in *. rewrite IH by tauto. rewrite get_mergeAccountTxns.
  destruct (String.eqb_spec accountNumber k); [subst; tauto | reflexivity].
Qed.

Lemma get_fold_mergeAccountTxns result ks combinedTxns accountNumber :
  List.NoDup ks -> In accountNumber ks ->
  JsObject.get accountNumber (fold_left (mergeAccountTxns result) ks combinedTxns)
  = Some (txns_or_empty (JsObject.get accountNumber combinedTxns)
          ++ result_txns result accountNumber).
Proof.
  revert combinedTxns. induction ks as [|k ks IH]; intros o Hnd Hin; [destruct Hin |].
  apply List.NoDup_cons_iff in Hnd as [Hnin Hnd]. simpl.
  destruct (string_dec k accountNumber) as [->|Hne].
  - rewrite get_fold_mergeAccountTxns_other by assumption.
    by rewrite get_mergeAccountTxns, String.eqb_refl.
  - destruct Hin as [Heq|Hin]; [congruence |].
    rewrite (IH _ Hnd Hin), get_mergeAccountTxns.
    destruct (String.eqb_spec accountNumber k); [congruence | reflexivity].
Qed.

Lemma result_txns_other result accountNumber :
  ~ In accountNumber (result_keys result) -> result_txns result accountNumber = [].
Proof.
  destruct result as [o|]; simpl; [| reflexivity].
  rewrite In_keys, <- get_None_not_In. by intros ->.
Qed.

Lemma get_mergeResult_other result combinedTxns accountNumber :
  ~ In accountNumber (result_keys result) ->
  JsObject.get accountNumber (mergeResult combinedTxns result)
  = JsObject.get accountNumber combinedTxns.
Proof. apply get_fold_mergeAccountTxns_other. Qed.

Lemma get_mergeResult result combinedTxns accountNumber :
  List.NoDup (result_keys result) -> In accountNumber (result_keys result) ->
  JsObject.get accountNumber (mergeResult combinedTxns result)
  = Some (txns_or_empty (JsObject.get accountNumber combinedTxns)
          ++ result_txns result accountNumber).
Proof. apply get_fold_mergeAccountTxns. Qed.

Lemma mentions_dec accountNumber result :
  {mentions accountNumber result} + {~ mentions accountNumber result}.
Proof. apply in_dec, string_dec. Qed.

Lemma contributions_none results accountNumber :
  Forall (fun result => ~ mentions accountNumber result) results ->
  contributions results accountNumber = [].
Proof.
  unfold contributions. induction 1 as [|r rs Hr _ IH]; simpl; [reflexivity |].
  by rewrite (result_txns_other _ _ Hr), IH.
Qed.

Lemma get_fold_mergeResult_none results combinedTxns accountNumber :
  Forall (fun result => ~ mentions accountNumber result) results ->
  JsObject.get accountNumber (fold_left mergeResult results combinedTxns)
  = JsObject.get accountNumber combinedTxns.
Proof.
  intros H. revert combinedTxns.
  induction H as [|r rs Hr _ IH]; intros o; simpl; [reflexivity |].
  by rewrite IH, get_mergeResult_other.
Qed.

Lemma get_fold_mergeResult results combinedTxns accountNumber :
  Forall (fun result => List.NoDup (result_keys result)) results ->
  Exists (mentions accountNumber) results ->
  JsObject.get accountNumber (fold_left mergeResult results combinedTxns)
  = Some (txns_or_empty (JsObject.get accountNumber combinedTxns)
          ++ contributions results accountNumber).
Proof.
  intros Hnd. revert combinedTxns.
  induction Hnd as [|r rs Hr Hrs IH]; intros o Hex; [inversion Hex |].
  simpl. unfold contributions. simpl. fold (contributions rs accountNumber).
  destruct (mentions_dec accountNumber r) as [Hin|Hnin].
  - destruct (List.Exists_dec (mentions accountNumber) rs (mentions_dec accountNumber))
      as [Hex'|Hnex].
    + rewrite (IH _ Hex'), get_mergeResult by assumption. simpl.
      by rewrite app_assoc.
    + apply Forall_Exists_neg in Hnex.
      rewrite get_fold_mergeResult_none, get_mergeResult by assumption.
      by rewrite (contributions_none _ _ Hnex), app_nil_r.
  - apply List.Exists_cons in Hex as [Hin|Hex']; [contradiction |].
    rewrite (IH _ Hex'), get_mergeResult_other by assumption.
    by rewrite (result_txns_other _ _ Hnin).
Qed.

Lemma get_mergeResults results accountNumber :
  Forall (fun result => List.NoDup (result_keys result)) results ->
  JsObject.get accountNumber (mergeResults results)
  = if List.Exists_dec (mentions accountNumber) results (mentions_dec accountNumber)
    then Some (contributions results accountNumber)
    else None.
Proof.
  intros Hnd. unfold mergeResults.
  destruct (List.Exists_dec _ _ _) as [Hex|Hnex].
  - by rewrite get_fold_mergeResult.
  - apply Forall_Exists_neg in Hnex. by rewrite get_fold_mergeResult_none.
Qed.

Lemma NoDup_mergeAccountTxns result combinedTxns k :
  List.NoDup (List.map fst combinedTxns) ->
  List.NoDup (List.map fst (mergeAccountTxns result combinedTxns k)).
Proof.
  intros Hnd. unfold mergeAccountTxns. cbv zeta.
  destruct (JsObject.get k combinedTxns) as [cur|] eqn:Hget.
  - rewrite Hget. by apply NoDup_set.
  - rewrite get_set_eq. by do 2 apply NoDup_set.
Qed.

Lemma NoDup_mergeResults results :
  List.NoDup (List.map fst (mergeResults results)).
Proof.
  unfold mergeResults.
  assert (H : forall o, List.NoDup (List.map fst o) ->
                        List.NoDup (List.map fst (fold_left mergeResult results o))).
  { induction results as [|r rs IH]; intros o Ho; [exact Ho |].
    simpl. apply IH. unfold mergeResult.
    generalize (result_keys r). intros ks. revert o Ho.
    induction ks as [|k ks IHk]; intros o Ho; [exact Ho |].
    simpl. apply IHk. by apply NoDup_mergeAccountTxns. }
  apply H. constructor.
Qed.

Lemma accountsOf_numbers combinedTxns :
  List.map ScraperAccount.accountNumber (accountsOf combinedTxns)
  = JsObject.keys combinedTxns.
Proof.
  unfold accountsOf. rewrite List.map_map. simpl. apply List.map_id.
Qed.

(** The merged ledger: one entry for each account number some month
    mentions, holding what the months contribute in the order of
    [results]. *)
Lemma accountsOf_mergeResults results :
  Forall (fun result => List.NoDup (result_keys result)) results ->
  (forall account, In account (accountsOf (mergeResults results)) ->
     ScraperAccount.txns account
     = contributions results (ScraperAccount.accountNumber account))
  /\ (forall accountNumber,
        In accountNumber
          (List.map ScraperAccount.accountNumber (accountsOf (mergeResults results)))
        <-> Exists (mentions accountNumber) results)
  /\ List.NoDup
       (List.map ScraperAccount.accountNumber (accountsOf (mergeResults results))).
Proof.
  intros Hnd. split; [| split].
  - intros account Hin. unfold accountsOf in Hin.
    apply in_map_iff in Hin as (k & <- & Hk). simpl.
    rewrite In_keys in Hk. apply get_Some_In in Hk as [v Hv].
    rewrite Hv. rewrite get_mergeResults in Hv by assumption.
    destruct (List.Exists_dec _ _ _); congruence.
  - intros k. rewrite accountsOf_numbers, In_keys, <- get_Some_In.
    rewrite get_mergeResults by assumption.
    destruct (List.Exists_dec _ _ _) as [Hex|Hnex].
    + split; eauto.
    + split; [intros [v Hv]; discriminate | contradiction].
  - rewrite accountsOf_numbers. apply NoDup_keys, NoDup_mergeResults.
Qed.

(** The merge of the code, with the inherited names. *)

Lemma addAccountTxns_plain result combinedTxns k :
  JsObject.inherited k = false ->
  addAccountTxns result combinedTxns k
  = ret (mergeAccountTxns result combinedTxns k).
Proof.
  intros Hk. unfold addAccountTxns, mergeAccountTxns. cbv zeta.
  destruct (JsObject.get k combinedTxns) as [cur|] eqn:Hget.
  - rewrite (read_own _ _ _ Hget), (read_own _ _ _ Hget), Hget. reflexivity.
  - rewrite (read_undefined _ _ Hget Hk), (assign_plain _ _ _ Hk).
    rewrite (read_own k [] _ (get_set_eq k [] combinedTxns)).
    by rewrite get_set_eq.
Qed.

Lemma addAccountTxns_inherited result combinedTxns k :
  JsObject.inherited k = true -> JsObject.get k combinedTxns = None ->
  addAccountTxns result combinedTxns k = throw push_not_a_function.
Proof.
  intros Hk Hget. unfold addAccountTxns. cbv zeta.
  by rewrite !(read_inherited _ _ Hget Hk).
Qed.

Lemma addAccountTxns_log result combinedTxns k :
  fst (addAccountTxns result combinedTxns k) = [].
Proof.
  unfold addAccountTxns. cbv zeta.
  destruct (JsObject.read k combinedTxns); simpl;
    try by destruct (JsObject.read k _).
Qed.

Lemma combineResults_log results : fst (combineResults results) = [].
Proof.
  unfold combineResults. apply forEach_log_empty. intros c r.
  unfold addResult. apply forEach_log_empty. intros c' k.
  apply addAccountTxns_log.
Qed.

Lemma addResult_plain combinedTxns result :
  Forall (fun k => JsObject.inherited k = false) (result_keys result) ->
  addResult combinedTxns result = ret (mergeResult combinedTxns result).
Proof.
  intros H. unfold addResult, mergeResult. apply forEach_pure.
  intros c k Hin. apply addAccountTxns_plain.
  rewrite List.Forall_forall in H. by apply H.
Qed.

Lemma plain_numbers_keys result :
  plain_numbers result ->
  Forall (fun k => JsObject.inherited k = false) (result_keys result).
Proof.
  unfold plain_numbers. intros H. apply List.Forall_forall. intros k Hk.
  apply inherited_false. destruct result as [o|]; [| destruct Hk].
  simpl in *. apply In_keys in Hk. apply in_map_iff in Hk as (e & <- & He).
  rewrite List.Forall_forall in H. by apply H.
Qed.

Lemma combineResults_plain results :
  Forall plain_numbers results ->
  combineResults results = ret (mergeResults results).
Proof.
  intros H. unfold combineResults, mergeResults. apply forEach_pure.
  intros c r Hin. apply addResult_plain, plain_numbers_keys.
  rewrite List.Forall_forall in H. by apply H.
Qed.

Lemma own_plain_mergeAccountTxns result combinedTxns k :
  JsObject.inherited k = false -> own_plain combinedTxns ->
  own_plain (mergeAccountTxns result combinedTxns k).
Proof.
  intros Hk Hc k' Hk'. rewrite get_mergeAccountTxns.
  destruct (String.eqb_spec k' k); [congruence | by apply Hc].
Qed.

Lemma own_plain_fold result ks combinedTxns :
  Forall (fun k => JsObject.inherited k = false) ks -> own_plain combinedTxns ->
  own_plain (fold_left (mergeAccountTxns result) ks combinedTxns).
Proof.
  intros H. revert combinedTxns.
  induction H as [|k ks Hk _ IH]; intros c Hc; [exact Hc |].
  simpl. apply IH. by apply own_plain_mergeAccountTxns.
Qed.

Lemma forEach_addAccountTxns_inherited result ks combinedTxns :
  own_plain combinedTxns ->
  Exists (fun k => JsObject.inherited k = true) ks ->
  forEach (addAccountTxns result) ks combinedTxns = throw push_not_a_function.
Proof.
  intros Hc Hex. revert combinedTxns Hc.
  induction ks as [|k ks IH]; intros c Hc; [inversion Hex |].
  simpl. destruct (JsObject.inherited k) eqn:Hk.
  - by rewrite (addAccountTxns_inherited _ _ _ Hk (Hc k Hk)).
  - rewrite (addAccountTxns_plain _ _ _ Hk), bind_ret.
    apply List.Exists_cons in Hex as [Hex|Hex]; [congruence |].
    apply IH; [exact Hex | by apply own_plain_mergeAccountTxns].
Qed.

Lemma has_inherited_dec result : {has_inherited result} + {~ has_inherited result}.
Proof.
  apply List.Exists_dec. intros k.
  destruct (JsObject.inherited k); [by left | by right].
Qed.

Lemma not_has_inherited result :
  ~ has_inherited result ->
  Forall (fun k => JsObject.inherited k = false) (result_keys result).
Proof.
  intros H. apply List.Forall_forall. intros k Hk.
  destruct (JsObject.inherited k) eqn:Hi; [| reflexivity].
  exfalso. apply H. apply List.Exists_exists. eauto.
Qed.

Lemma forEach_addResult_inherited results combinedTxns :
  own_plain combinedTxns ->
  Exists has_inherited results ->
  forEach addResult results combinedTxns = throw push_not_a_function.
Proof.
  intros Hc Hex. revert combinedTxns Hc.
  induction results as [|r rs IH]; intros c Hc; [inversion Hex |].
  simpl. destruct (has_inherited_dec r) as [Hr|Hr].
  - unfold addResult. by rewrite forEach_addAccountTxns_inherited.
  - apply not_has_inherited in Hr.
    rewrite (addResult_plain _ _ Hr), bind_ret.
    apply List.Exists_cons in Hex as [Hex|Hex].
    + exfalso. apply List.Exists_exists in Hex as (k & Hin & Hk).
      rewrite List.Forall_forall in Hr. rewrite (Hr k Hin) in Hk. discriminate Hk.
    + apply IH; [exact Hex |]. by apply own_plain_fold.
Qed.

Lemma combineResults_inherited results :
  Exists has_inherited results ->
  combineResults results = throw push_not_a_function.
Proof.
  intros Hex. apply forEach_addResult_inherited; [| exact Hex].
  intros k _. reflexivity.
Qed.

(** With account numbers all different, what an object holds under a
    number is what [result[accountNumber].txns] reads. *)
Lemma txns_under_get (accountTxns : JsObject.t AccountTxns.t) accountNumber :
  List.NoDup (List.map fst accountTxns) ->
  txns_under accountNumber (AccountTxnsObject accountTxns)
  = result_txns (AccountTxnsObject accountTxns) accountNumber.
Proof.
  unfold txns_under, result_txns, entries.
  induction accountTxns as [|[k v] o IH]; intros Hnd; [reflexivity |].
  apply List.NoDup_cons_iff in Hnd as [Hnin Hnd]. specialize (IH Hnd).
  cbn [flat_map JsObject.get fst snd].
  rewrite (String.eqb_sym accountNumber k).
  destruct (String.eqb_spec k accountNumber) as [->|Hne].
  - apply get_None_not_In in Hnin. cbn [fst] in Hnin. rewrite Hnin in IH.
    rewrite IH. apply app_nil_r.
  - exact IH.
Qed.

Lemma txns_under_result_txns result accountNumber :
  List.NoDup (List.map fst (entries result)) ->
  txns_under accountNumber result = result_txns result accountNumber.
Proof.
  destruct result as [o|]; [apply txns_under_get | reflexivity].
Qed.

Lemma contributions_txns_under results accountNumber :
  Forall (fun result => List.NoDup (List.map fst (entries result))) results ->
  concat (List.map (txns_under accountNumber) results)
  = contributions results accountNumber.
Proof.
  unfold contributions. induction 1 as [|r rs Hr _ IH]; [reflexivity |].
  simpl. by rewrite IH, (txns_under_result_txns _ _ Hr).
Qed.

Lemma mentions_entries result accountNumber :
  mentions accountNumber result
  <-> In accountNumber (List.map fst (entries result)).
Proof.
  unfold mentions. destruct result as [o|]; simpl; [apply In_keys | tauto].
Qed.

Lemma NoDup_result_keys result :
  List.NoDup (List.map fst (entries result)) -> List.NoDup (result_keys result).
Proof.
  destruct result as [o|]; simpl; [apply NoDup_keys | constructor].
Qed.

End Aggregator.

(** ** The pipeline *)

Section Pipeline.

Context {imports : Imports}.

Lemma fetchAllTransactions_log page options startMoment completion :
  fst (fetchAllTransactions page options startMoment completion)
  = flat_map (fun monthMoment =>
                fst (fetchTransactions page options startMoment monthMoment))
      (getAllMonthMoments startMoment true).
Proof.
  unfold fetchAllTransactions. rewrite bind_log_prefix.
  - unfold Promise_all. simpl. apply flat_map_map.
  - intros results. rewrite bind_log_prefix by reflexivity.
    apply combineResults_log.
Qed.

(** Whenever the aggregator returns, the flag it returns is [true]. *)
Lemma fetchAllTransactions_success page options startMoment completion result :
  snd (fetchAllTransactions page options startMoment completion) = Fulfilled result ->
  success result = true.
Proof.
  unfold fetchAllTransactions, bind.
  destruct (Promise_all _ completion) as [log [results| |]]; simpl;
    [| discriminate | discriminate].
  destruct (combineResults results) as [log' [combinedTxns| |]]; simpl;
    [| discriminate | discriminate].
  by intros [= <-].
Qed.

(** What the aggregator does with the results of the months, when
    [Promise.all] gives them. *)
Lemma fetchAllTransactions_of_results page options startMoment completion results :
  snd (Promise_all
         (List.map (fun monthMoment =>
                      fetchTransactions page options startMoment monthMoment)
            (getAllMonthMoments startMoment true)) completion)
  = Fulfilled results ->
  snd (fetchAllTransactions page options startMoment completion)
  = snd (ledger <- ledger_of results ;;
         ret {| success := true; accounts := Some ledger; errorType := None |}).
Proof.
  intros Hout. unfold fetchAllTransactions.
  rewrite (bind_fulfilled _ _ _ Hout). cbn [snd].
  unfold ledger_of. rewrite bind_assoc. f_equal.
Qed.

(** C7: the months are fetched in any order of completion, and when each
    month's fetch returns an object whose account numbers name no property
    of [Object.prototype], the aggregator returns one entry for every
    account number that is a key of some month's object, holding the
    transactions that the months' objects have under that number,
    concatenated in the order of the month sequence computed up front. *)
Theorem fetchAllTransactions_merges_in_month_order
    page options startMoment (completion : list nat)
    (results : list FetchTransactionsResult) :
  Permutation completion (seq 0 (length (getAllMonthMoments startMoment true))) ->
  Forall2 (fun monthMoment result =>
             snd (fetchTransactions page options startMoment monthMoment)
             = Fulfilled result)
    (getAllMonthMoments startMoment true) results ->
  Forall plain_numbers results ->
  exists ledger,
    snd (fetchAllTransactions page options startMoment completion)
    = Fulfilled {| success := true; accounts := Some ledger; errorType := None |}
    /\ (forall account, In account ledger ->
          ScraperAccount.txns account
          = concat (List.map
                      (txns_under (ScraperAccount.accountNumber account))
                      results))
    /\ (forall accountNumber,
          In accountNumber (List.map ScraperAccount.accountNumber ledger)
          <-> Exists (fun result =>
                        In accountNumber (List.map fst (entries result)))
                results)
    /\ List.NoDup (List.map ScraperAccount.accountNumber ledger).
Proof.
  intros Hperm Hall Hplain.
  set (calls := List.map
                  (fun monthMoment =>
                     fetchTransactions page options startMoment monthMoment)
                  (getAllMonthMoments startMoment true)).
  assert (Hcalls : Forall2 (fun call x => snd call = Fulfilled x) calls results).
  { subst calls. clear Hperm Hplain.
    induction Hall; simpl; constructor; assumption. }
  assert (Hout : snd (Promise_all calls completion) = Fulfilled results).
  { apply Promise_all_fulfilled; [exact Hcalls |].
    subst calls. by rewrite length_map. }
  assert (Hown : Forall (fun result => List.NoDup (List.map fst (entries result)))
                   results).
  { clear Hperm Hcalls Hout calls Hplain.
    induction Hall as [|m r ms rs Hr _ IH]; constructor; [| exact IH].
    eapply fetchTransactions_own_keys. exact Hr. }
  assert (Hnd : Forall (fun result => List.NoDup (result_keys result)) results).
  { eapply List.Forall_impl; [| exact Hown]. intros r. apply NoDup_result_keys. }
  destruct (accountsOf_mergeResults results Hnd) as (Htxns & Hkeys & Hnodup).
  exists (accountsOf (mergeResults results)).
  split; [| split; [| split]].
  - rewrite (fetchAllTransactions_of_results _ _ _ _ _ Hout).
    unfold ledger_of. by rewrite (combineResults_plain _ Hplain), !bind_ret.
  - intros account Hin. rewrite (Htxns account Hin).
    symmetry. by apply contributions_txns_under.
  - intros k. rewrite (Hkeys k). split; intros Hex;
      (eapply List.Exists_impl; [| exact Hex]); intros r; apply mentions_entries.
  - exact Hnodup.
Qed.

(** C4, as the code has it: [filterOldTransactions] is called at one
    granularity only.  Everything the aggregator does is done by the
    months' fetches; each of them calls the filter once for every account
    it processes, on that account's list of the month; the merged ledger
    is not filtered again. *)
Theorem filterOldTransactions_called_per_month_only
    page options startMoment (completion : list nat) :
  fst (fetchAllTransactions page options startMoment completion)
  = flat_map (fun monthMoment =>
                fst (fetchTransactions page options startMoment monthMoment))
      (getAllMonthMoments startMoment true)
  /\ (forall monthMoment,
        filter_calls (fst (fetchTransactions page options startMoment monthMoment))
        = length (processed_accounts page options monthMoment))
  /\ filter_calls (fst (fetchAllTransactions page options startMoment completion))
     = list_sum
         (List.map (fun monthMoment =>
                      length (processed_accounts page options monthMoment))
            (getAllMonthMoments startMoment true)).
Proof.
  split; [apply fetchAllTransactions_log |].
  split; [intros m; apply fetchTransactions_filter_calls |].
  rewrite fetchAllTransactions_log, filter_calls_flat_map. f_equal.
  apply List.map_ext. intros m. apply fetchTransactions_filter_calls.
Qed.

(** C3: when the dashboard response has a failing header or lacks the
    nested structure, the resolver returns [null] and not an error; the
    month's fetch then returns no transactions only if the transactions
    list fails as well: when that response is a success, the fetch is
    rejected with a [TypeError]. *)
Theorem fetchTransactions_rejected_without_accounts
    page options startMoment monthMoment :
  let servicesUrl := ExtendedOptions.servicesUrl options in
  dashboard_accounts
    (get_DashboardMonth page (getAccountsUrl servicesUrl monthMoment)) = None ->
  snd (fetchAccounts page servicesUrl monthMoment) = Fulfilled None
  /\ (transactions_bean
        (get_CardsTransactionsList page (getTransactionsUrl servicesUrl monthMoment))
      = None ->
      snd (fetchTransactions page options startMoment monthMoment)
      = Fulfilled EmptyArray)
  /\ (forall bean,
        transactions_bean
          (get_CardsTransactionsList page (getTransactionsUrl servicesUrl monthMoment))
        = Some bean ->
        snd (fetchTransactions page options startMoment monthMoment)
        = Rejected forEach_null).
Proof.
  intros servicesUrl Hdash.
  pose proof (fetchTransactions_cases page options startMoment monthMoment) as H.
  cbv zeta in H. fold servicesUrl in H. rewrite Hdash in H.
  split; [by rewrite fetchAccounts_returns, Hdash |].
  split.
  - intros Hbean. rewrite Hbean in H. by rewrite H.
  - intros bean Hbean. rewrite Hbean in H. by rewrite H.
Qed.

(** C10 fails on the code when, for some month, the dashboard resolves no
    accounts while the transactions list succeeds: whatever the order of
    completion, the aggregation is rejected with the [TypeError] of that
    month, and returns no result and no success flag. *)
Theorem fetchAllTransactions_rejected_when_a_dashboard_fails
    page options startMoment (completion : list nat) (monthMoment : Moment)
    (bean : JsObject.t CardTransactions) :
  let servicesUrl := ExtendedOptions.servicesUrl options in
  Permutation completion (seq 0 (length (getAllMonthMoments startMoment true))) ->
  In monthMoment (getAllMonthMoments startMoment true) ->
  dashboard_accounts
    (get_DashboardMonth page (getAccountsUrl servicesUrl monthMoment)) = None ->
  transactions_bean
    (get_CardsTransactionsList page (getTransactionsUrl servicesUrl monthMoment))
  = Some bean ->
  snd (fetchAllTransactions page options startMoment completion)
  = Rejected forEach_null
  /\ ~ (exists result,
           snd (fetchAllTransactions page options startMoment completion)
           = Fulfilled result).
Proof.
  intros servicesUrl Hperm Hin Hdash Hbean.
  assert (Hrej : snd (fetchAllTransactions page options startMoment completion)
                 = Rejected forEach_null).
  { unfold fetchAllTransactions.
    set (calls := List.map _ (getAllMonthMoments startMoment true)).
    assert (Hall : snd (Promise_all calls completion) = Rejected forEach_null).
    { apply Promise_all_rejected.
      - subst calls. apply List.Forall_forall. intros call Hcall.
        apply in_map_iff in Hcall as (m & <- & _).
        apply fetchTransactions_outcome.
      - subst calls. apply List.Exists_exists.
        exists (fetchTransactions page options startMoment monthMoment).
        split; [by apply in_map |].
        pose proof (fetchTransactions_cases page options startMoment monthMoment) as H.
        cbv zeta in H. fold servicesUrl in H. rewrite Hbean, Hdash in H.
        by rewrite H.
      - subst calls. by rewrite length_map. }
    destruct (Promise_all calls completion) as [log o]. simpl in Hall. subst o.
    reflexivity. }
  split; [exact Hrej |]. rewrite Hrej. intros [result H]. discriminate H.
Qed.

End Pipeline.

(** ** The scraper *)

Section Scraper.

Context {imports : Imports}.

Lemma moment_max_is_max (a b : Moment) : moment_max a b = Z.max a b.
Proof. unfold moment_max. destruct (Z.ltb_spec a b); lia. Qed.

(** C8: the window starts at the later of one year before now and the
    caller's start date, and at one year before now when there is none; so
    it never starts before one year before now, a caller's start date that
    is earlier gives the months of one year before now, and the months
    fetched are those of the sequence computed from that start.  When the
    month sequence is what the specification says of it, the calendar
    months from the start on, every month fetched is the calendar month of
    an instant that is not before one year before now. *)
Theorem fetchData_effective_start
    (this : IsracardAmexBaseScraper) (now : Moment) (completion : list nat)
    (calendarMonth : Moment -> Moment) :
  let defaultStart := moment_subtract_years now 1 in
  let start :=
    match startDate (options this) with
    | Some callerStart => Z.max defaultStart callerStart
    | None => defaultStart
    end in
  let extended :=
    {| ExtendedOptions.startDate := startDate (options this);
       ExtendedOptions.combineInstallments := combineInstallments (options this);
       ExtendedOptions.servicesUrl := servicesUrl this;
       ExtendedOptions.companyCode := companyCode this |} in
  fetchData this now completion
  = fetchAllTransactions (page this) extended start completion
  /\ defaultStart <= start
  /\ fst (fetchData this now completion)
     = flat_map (fun monthMoment =>
                   fst (fetchTransactions (page this) extended start monthMoment))
         (getAllMonthMoments start true)
  /\ (forall callerStart,
        startDate (options this) = Some callerStart ->
        callerStart <= defaultStart ->
        getAllMonthMoments start true = getAllMonthMoments defaultStart true)
  /\ (monthSequence_contract calendarMonth start ->
      forall monthMoment,
        In monthMoment (getAllMonthMoments start true) ->
        exists instant,
          defaultStart <= instant /\ monthMoment = calendarMonth instant).
Proof.
  intros defaultStart start extended.
  assert (Hstart : effectiveStart this now = start).
  { unfold effectiveStart. fold defaultStart. rewrite moment_max_is_max.
    subst start. destruct (startDate (options this)); [reflexivity | lia]. }
  assert (Hdata : fetchData this now completion
                  = fetchAllTransactions (page this) extended start completion).
  { unfold fetchData. by rewrite Hstart. }
  assert (Hle : defaultStart <= start).
  { subst start. destruct (startDate (options this)); lia. }
  split; [exact Hdata |]. split; [exact Hle |]. split; [| split].
  - rewrite Hdata. apply fetchAllTransactions_log.
  - intros callerStart Hcaller Hearlier. subst start. rewrite Hcaller.
    by rewrite Z.max_l.
  - intros Hcontract monthMoment Hin.
    destruct (Hcontract monthMoment Hin) as (instant & Hinstant & Hmonth).
    exists instant. split; [lia | exact Hmonth].
Qed.

End Scraper.

Section Login.

Implicit Types (this : IsracardAmexBaseScraper) (credentials : Credentials.t).

Lemma append_inj_l (s a b : string) : s +:+ a = s +:+ b -> a = b.
Proof.
  induction s as [|c s IH]; [tauto |].
  rewrite !append_cons. intros [= H]. by apply IH.
Qed.

Lemma validateUrl_not_loginUrl this : validateUrlOf this <> loginUrlOf this.
Proof. intros H%append_inj_l. discriminate H. Qed.

(** C2, as the code has it: when the validation response has header
    status "1" and a payload, login returns a structured outcome; when
    the response is absent or malformed, login throws the error
    "unknown error during login" to its caller. *)
Theorem login_structured_or_throws this credentials :
  let response :=
    post_ValidateIdData (page this) (validateUrlOf this)
      (validateRequest this credentials) in
  (validation_ok response = true ->
   exists result,
     snd (login this credentials) = Fulfilled result /\ structured result)
  /\ (validation_ok response = false ->
      snd (login this credentials) = Rejected (Error "unknown error during login")).
Proof.
  intros response. unfold login, validation_ok, structured.
  unfold fetchPostWithinPage at 1. subst response. unfold validateUrlOf.
  simpl.
  destruct (post_ValidateIdData _ _ _) as [[[[status]|] [bean|]]|]; simpl;
    try (split; [discriminate | reflexivity]).
  - unfold status_is_1, string_is.
    destruct status as [status|]; simpl;
      [| split; [discriminate | reflexivity]].
    destruct (String.eqb_spec status "1"); simpl;
      [| split; [discriminate | reflexivity]].
    split; [intros _ | discriminate].
    destruct (returnCode bean) as [code|]; simpl.
    + destruct (String.eqb_spec code "1"); simpl.
      * destruct (post_performLogonI _ _ _) as [[[ls|]]|]; simpl.
        -- destruct (String.eqb_spec ls "1"); simpl; [eauto |].
           destruct (String.eqb_spec ls "3"); simpl; eauto 6.
        -- eauto 6.
        -- eauto 6.
      * destruct (String.eqb_spec code "4"); simpl; eauto 6.
    + eauto 6.
  - unfold status_is_1. destruct status as [status|]; simpl;
      [| split; [discriminate | reflexivity]].
    rewrite andb_false_r. split; [discriminate | reflexivity].
Qed.

(** C9: when the validation response has header status "1" and return
    code "4", login returns the change-password outcome after a single
    request, the validation; the logon request is not issued, whatever the
    logon stage would have answered. *)
Theorem login_change_password_on_return_code_4
    this credentials (response : ValidateIdDataResponse.t)
    (bean : ValidateIdDataBeanT) :
  post_ValidateIdData (page this) (validateUrlOf this)
    (validateRequest this credentials) = Some response ->
  status_is_1 (ValidateIdDataResponse.Header response) = true ->
  ValidateIdDataResponse.ValidateIdDataBean response = Some bean ->
  returnCode bean = Some "4" ->
  login this credentials
  = ([NavigateTo (baseUrl this +:+ "/personalarea/Login");
      EmitProgress ScrapeProgressTypes.LoggingIn;
      FetchPost (validateUrlOf this) (validateRequest this credentials);
      EmitProgress ScrapeProgressTypes.ChangePassword],
     Fulfilled {| success := false; accounts := None;
                  errorType := Some ErrorTypes.ChangePassword |})
  /\ forall e, In e (fst (login this credentials)) ->
               is_post_to (loginUrlOf this) e = false.
Proof.
  intros Hresp Hstatus Hbean Hcode.
  assert (Hlogin : login this credentials
    = ([NavigateTo (baseUrl this +:+ "/personalarea/Login");
        EmitProgress ScrapeProgressTypes.LoggingIn;
        FetchPost (validateUrlOf this) (validateRequest this credentials);
        EmitProgress ScrapeProgressTypes.ChangePassword],
       Fulfilled {| success := false; accounts := None;
                    errorType := Some ErrorTypes.ChangePassword |})).
  { unfold login. unfold fetchPostWithinPage at 1. unfold validateUrlOf in *.
    simpl. rewrite Hresp.
    destruct response as [header payload]. simpl in *. subst payload.
    unfold status_is_1 in Hstatus.
    destruct header as [[[status|]]|]; try discriminate Hstatus.
    simpl. rewrite Hstatus, Hcode. reflexivity. }
  split; [exact Hlogin |].
  rewrite Hlogin. simpl. intros e [<- | [<- | [<- | [<- | []]]]]; try reflexivity.
  simpl. destruct (String.eqb_spec (validateUrlOf this) (loginUrlOf this)) as [H|_];
    [| reflexivity].
  by apply validateUrl_not_loginUrl in H.
Qed.

End Login.

(** ** The properties on concrete inputs *)

Section Concrete.

#[local] Existing Instance Sample.imports.

(** C1 does not hold as it is stated: a record with deal-sum type "0" of
    which one voucher number alone is "000000000", the domestic one or the
    outbound one, is dropped. *)
Lemma single_sentinel_voucher_is_dropped :
  ~ (convertTransactions [Sample.domestic_sentinel] None = []
     <-> (dealSumType Sample.domestic_sentinel = "1"
          \/ (voucherNumberRatz Sample.domestic_sentinel = "000000000"
              /\ voucherNumberRatzOutbound Sample.domestic_sentinel
                 = "000000000")))
  /\ ~ (convertTransactions [Sample.outbound_sentinel] None = []
        <-> (dealSumType Sample.outbound_sentinel = "1"
             \/ (voucherNumberRatz Sample.outbound_sentinel = "000000000"
                 /\ voucherNumberRatzOutbound Sample.outbound_sentinel
                    = "000000000"))).
Proof.
  split; intros [H _].
  - destruct (H eq_refl) as [H1 | [_ H2]]; discriminate.
  - destruct (H eq_refl) as [H1 | [H2 _]]; discriminate.
Qed.

(** C5 does not hold as it is stated: a kept record with deal sum 100 and
    payment sum 0 gives amounts of different signs, and one with deal sum
    100 and payment sum -100 gives a positive charged amount. *)
Lemma kept_records_with_unrelated_amounts :
  ~ (forall result,
        In result (convertTransactions [Sample.uncharged] None) ->
        Qsign (originalAmount result) = Qsign (chargedAmount result))
  /\ ~ (forall result,
          In result (convertTransactions [Sample.refunded] None) ->
          (0 < dealSum Sample.refunded)%Q ->
          (originalAmount result <= 0)%Q /\ (chargedAmount result <= 0)%Q).
Proof.
  split; intros H.
  - specialize (H _ (or_introl eq_refl)). discriminate H.
  - destruct (H _ (or_introl eq_refl) eq_refl) as [_ Hc].
    apply Hc. reflexivity.
Qed.

(** The purchase of 100 becomes a transaction of -100, charged -100. *)
Lemma convertTransactions_amounts_negated_witness :
  In (convertTransaction None Sample.purchase)
    (convertTransactions [Sample.purchase] None)
  /\ originalAmount (convertTransaction None Sample.purchase) = (-100)%Q
  /\ chargedAmount (convertTransaction None Sample.purchase) = (-100)%Q.
Proof.
  assert (Hin : In (convertTransaction None Sample.purchase)
                  (convertTransactions [Sample.purchase] None))
    by (left; reflexivity).
  split; [exact Hin |].
  destruct (convertTransactions_amounts_negated
              (imports := Sample.imports) [Sample.purchase] None _ Hin)
    as (txn & [<- | []] & _ & _ & Ho & Hc & _).
  split; [exact Ho | exact Hc].
Defined.

(** The memo of installment 3 of 12 gives number 3 and total 12; the
    marker followed by a single number gives nothing. *)
Lemma getInstallmentsInfo_third_of_twelve :
  getInstallmentsInfo Sample.third_of_twelve
  = Some {| number := Int 3; total := Int 12 |}
  /\ getTransactionType Sample.third_of_twelve = TransactionTypes.Installments
  /\ getInstallmentsInfo Sample.one_number = None
  /\ getTransactionType Sample.one_number = TransactionTypes.Normal.
Proof.
  destruct (getInstallmentsInfo_first_two_integers Sample.third_of_twelve)
    as [Hsome _].
  destruct (Hsome "תשלום 3 מתוך 12" "תשלום " "3" " מתוך " "12" ""
              eq_refl eq_refl eq_refl eq_refl eq_refl
              ltac:(discriminate) eq_refl ltac:(discriminate)
              eq_refl ltac:(discriminate) I)
    as (Hget & _ & _ & Htype).
  destruct (getInstallmentsInfo_first_two_integers Sample.one_number)
    as [_ Hnone].
  destruct (Hnone (or_intror (or_intror
              (ex_intro _ "תשלום "
                 (ex_intro _ "3"
                    (ex_intro _ ""
                       (conj eq_refl (conj eq_refl (conj eq_refl eq_refl)))))))))
    as [Hget' Htype'].
  repeat split; assumption.
Defined.

(** C2 does not hold as it is stated: when the validation request gets no
    response, login does not return an outcome but throws. *)
Lemma login_throws_without_validation_response :
  ~ (exists result,
        snd (login (Sample.scraper Sample.page_no_validation) Sample.credentials)
        = Fulfilled result)
  /\ snd (login (Sample.scraper Sample.page_no_validation) Sample.credentials)
     = Rejected (Error "unknown error during login").
Proof.
  split; [intros [result H]; discriminate H | reflexivity].
Qed.

(** With a validation that succeeds, login returns the success outcome. *)
Lemma login_structured_witness :
  validation_ok
    (post_ValidateIdData Sample.page
       (validateUrlOf (Sample.scraper Sample.page))
       (validateRequest (Sample.scraper Sample.page) Sample.credentials))
  = true
  /\ exists result,
       snd (login (Sample.scraper Sample.page) Sample.credentials)
       = Fulfilled result
       /\ structured result.
Proof.
  split; [reflexivity |].
  apply (proj1 (login_structured_or_throws
                  (Sample.scraper Sample.page) Sample.credentials)).
  reflexivity.
Defined.

(** With return code "4" the outcome is the change of password. *)
Lemma login_change_password_witness :
  post_ValidateIdData Sample.page_change_password
    (validateUrlOf (Sample.scraper Sample.page_change_password))
    (validateRequest (Sample.scraper Sample.page_change_password)
       Sample.credentials)
  = Some (Sample.validation_response "4")
  /\ snd (login (Sample.scraper Sample.page_change_password) Sample.credentials)
     = Fulfilled {| success := false; accounts := None;
                    errorType := Some ErrorTypes.ChangePassword |}.
Proof.
  split; [reflexivity |].
  destruct (login_change_password_on_return_code_4
              (Sample.scraper Sample.page_change_password) Sample.credentials
              (Sample.validation_response "4") (Sample.validation_bean "4")
              eq_refl eq_refl eq_refl eq_refl) as [Hlogin _].
  rewrite Hlogin. reflexivity.
Defined.

(** C4 does not hold as it is stated: over three months of one purchase
    each, the filter is called on the list of each month and never on the
    merged ledger of the account. *)
Lemma merged_ledger_is_not_filtered :
  snd Sample.run
  = Fulfilled {| success := true; accounts := Some [Sample.ledger];
                 errorType := None |}
  /\ filter_arguments (fst Sample.run)
     = [[Sample.month_txn 1]; [Sample.month_txn 2]; [Sample.month_txn 3]]
  /\ ~ In (ScraperAccount.txns Sample.ledger) (filter_arguments (fst Sample.run)).
Proof.
  assert (Hargs : filter_arguments (fst Sample.run)
                  = [[Sample.month_txn 1]; [Sample.month_txn 2];
                     [Sample.month_txn 3]])
    by (vm_compute; reflexivity).
  split; [vm_compute; reflexivity |]. split; [exact Hargs |].
  rewrite Hargs. intros [H | [H | [H | []]]]; discriminate H.
Qed.

(** Three months settling in the order 3, 1, 2 are merged in the order
    1, 2, 3: the ledger is the one account 1234 with the purchase of the
    first month, then that of the second, then that of the third. *)
Lemma fetchAllTransactions_month_order_witness :
  Permutation [2; 0; 1]%nat (seq 0 3)
  /\ Forall plain_numbers Sample.results
  /\ exists ledger,
       snd Sample.run
       = Fulfilled {| success := true; accounts := Some ledger;
                      errorType := None |}
       /\ ledger
          = [{| ScraperAccount.accountNumber := "1234";
                ScraperAccount.txns :=
                  [Sample.month_txn 1; Sample.month_txn 2; Sample.month_txn 3] |}]
       /\ forall account, In account ledger ->
            ScraperAccount.accountNumber account = "1234"
            /\ ScraperAccount.txns account
               = [Sample.month_txn 1; Sample.month_txn 2; Sample.month_txn 3].
Proof.
  assert (Hperm : Permutation [2; 0; 1]%nat (seq 0 3)).
  { simpl. apply perm_trans with [0; 2; 1]%nat;
      [apply perm_swap | apply perm_skip, perm_swap]. }
  assert (Hplain : Forall plain_numbers Sample.results).
  { repeat constructor; simpl; intuition discriminate. }
  split; [exact Hperm |]. split; [exact Hplain |].
  destruct (fetchAllTransactions_merges_in_month_order
              (imports := Sample.imports) Sample.page Sample.extended 0
              [2; 0; 1]%nat Sample.results)
    as (ledger & Hrun & Htxns & Hkeys & _).
  - exact Hperm.
  - repeat constructor.
  - exact Hplain.
  - exists ledger. split; [exact Hrun |]. split.
    + assert (Hpin : snd Sample.run
                     = Fulfilled {| success := true;
                                    accounts := Some [Sample.ledger];
                                    errorType := None |})
        by (vm_compute; reflexivity).
      change (snd Sample.run
              = Fulfilled {| success := true; accounts := Some ledger;
                             errorType := None |}) in Hrun.
      rewrite Hpin in Hrun. by injection Hrun as <-.
    + intros account Hin.
      assert (Hnum : ScraperAccount.accountNumber account = "1234").
      { apply (in_map ScraperAccount.accountNumber) in Hin.
        apply Hkeys in Hin. apply List.Exists_exists in Hin as (r & Hr & Hk).
        destruct Hr as [<- | [<- | [<- | []]]];
          destruct Hk as [Hk | []]; by rewrite <- Hk. }
      split; [exact Hnum |].
      rewrite (Htxns account Hin), Hnum. reflexivity.
Defined.

(** The second month of the page whose dashboard fails. *)
Lemma fetchTransactions_rejected_witness :
  dashboard_accounts
    (get_DashboardMonth Sample.page_dashboard_fails
       (getAccountsUrl Sample.services 2)) = None
  /\ snd (fetchTransactions Sample.page_dashboard_fails Sample.extended 0 2)
     = Rejected forEach_null.
Proof.
  split; [reflexivity |].
  destruct (fetchTransactions_rejected_without_accounts
              (imports := Sample.imports)
              Sample.page_dashboard_fails Sample.extended 0 2 eq_refl)
    as (_ & _ & Hrej).
  eapply Hrej. reflexivity.
Defined.

(** Three months, of which the second has no dashboard response. *)
Lemma fetchAllTransactions_rejected_witness :
  In 2 (getAllMonthMoments 0 true)
  /\ snd Sample.run_dashboard_fails = Rejected forEach_null.
Proof.
  assert (Hin : In 2 (getAllMonthMoments 0 true)) by (simpl; tauto).
  split; [exact Hin |].
  apply (fetchAllTransactions_rejected_when_a_dashboard_fails
           (imports := Sample.imports)
           Sample.page_dashboard_fails Sample.extended 0 [0; 1; 2]%nat 2
           [("Index0",
             {| CurrentCardTransactions :=
                  Some [{| txnIsrael := Some [Sample.purchase_of 2];
                           txnAbroad := None |}] |})]).
  - apply Permutation_refl.
  - exact Hin.
  - reflexivity.
  - reflexivity.
Defined.

End Concrete.

(** * Further properties *)

(** ** The record normalizer, continued *)

Section NormalizerMore.

Context {imports : Imports}.

(** X1: [convertCurrency] maps the shekel keyword and the alternate shekel
    code to the canonical code, returns every other code as it is, and
    applying it twice is the same as applying it once. *)
Theorem convertCurrency_idempotent (currencyStr : string) :
  convertCurrency (convertCurrency currencyStr) = convertCurrency currencyStr
  /\ convertCurrency SHEKEL_CURRENCY_KEYWORD = SHEKEL_CURRENCY
  /\ convertCurrency ALT_SHEKEL_CURRENCY = SHEKEL_CURRENCY
  /\ (currencyStr <> SHEKEL_CURRENCY_KEYWORD ->
      currencyStr <> ALT_SHEKEL_CURRENCY ->
      convertCurrency currencyStr = currencyStr).
Proof.
  unfold convertCurrency. repeat split.
  - destruct (String.eqb_spec currencyStr SHEKEL_CURRENCY_KEYWORD),
      (String.eqb_spec currencyStr ALT_SHEKEL_CURRENCY); simpl;
      try (by destruct (_ || _)).
    destruct (String.eqb_spec currencyStr SHEKEL_CURRENCY_KEYWORD),
      (String.eqb_spec currencyStr ALT_SHEKEL_CURRENCY); simpl; congruence.
  - by rewrite String.eqb_refl.
  - by rewrite String.eqb_refl, orb_true_r.
  - intros H1 H2.
    destruct (String.eqb_spec currencyStr SHEKEL_CURRENCY_KEYWORD),
      (String.eqb_spec currencyStr ALT_SHEKEL_CURRENCY); simpl; congruence.
Qed.

Lemma convertTransactions_app (txns1 txns2 : list ScrapedTransaction)
    (processedDate : option string) :
  convertTransactions (txns1 ++ txns2) processedDate
  = convertTransactions txns1 processedDate
    ++ convertTransactions txns2 processedDate.
Proof.
  unfold convertTransactions. cbv zeta. by rewrite List.filter_app, List.map_app.
Qed.

Lemma groupTxns_records (processedDate : option string) (txnGroup : TxnGroup) :
  groupTxns processedDate txnGroup
  = convertTransactions (groupRecords txnGroup) processedDate.
Proof.
  unfold groupTxns, groupRecords. rewrite convertTransactions_app.
  by destruct (txnIsrael txnGroup), (txnAbroad txnGroup).
Qed.

(** X2: normalizing is compatible with concatenation: the records of an
    account's groups, normalized sub-list by sub-list as the fetcher does,
    are the normalization of all its raw records taken in order, domestic
    before abroad within each group; and the normalizer never returns more
    transactions than it is given records. *)
Theorem groups_normalized_as_one_list
    (processedDate : option string) (txnGroups : list TxnGroup)
    (txns1 txns2 : list ScrapedTransaction) :
  flat_map (groupTxns processedDate) txnGroups
  = convertTransactions (flat_map groupRecords txnGroups) processedDate
  /\ convertTransactions (txns1 ++ txns2) processedDate
     = convertTransactions txns1 processedDate
       ++ convertTransactions txns2 processedDate
  /\ (length (convertTransactions txns1 processedDate) <= length txns1)%nat.
Proof.
  split; [| split].
  - induction txnGroups as [|g gs IH]; [reflexivity |].
    simpl. by rewrite convertTransactions_app, IH, groupTxns_records.
  - apply convertTransactions_app.
  - unfold convertTransactions. cbv zeta. rewrite List.length_map.
    apply List.filter_length_le.
Qed.

(** X3: every transaction the normalizer returns is Completed, carries the
    processed date it was given, and is of type Installments exactly when it
    has an installments descriptor. *)
Theorem convertTransactions_type_matches_installments
    (txns : list ScrapedTransaction) (processed : option string)
    (result : Transaction) :
  In result (convertTransactions txns processed) ->
  status result = TransactionStatuses.Completed
  /\ processedDate result = processed
  /\ (type result = TransactionTypes.Installments
      <-> exists info, installments result = Some info)
  /\ (type result = TransactionTypes.Normal <-> installments result = None).
Proof.
  unfold convertTransactions. intros Hin.
  apply in_map_iff in Hin as (txn & <- & _). simpl.
  unfold getTransactionType.
  destruct (getInstallmentsInfo txn) as [info|].
  - repeat split; try discriminate; eauto.
  - repeat split; try discriminate. intros [info H]. discriminate H.
Qed.

Lemma all_digits_snoc (cur : string) (c : ascii) :
  all_digits cur = true -> is_digit c = true ->
  all_digits (cur +:+ String c EmptyString) = true.
Proof.
  induction cur as [|a cur IH]; intros Hc Hd.
  - simpl. by rewrite Hd.
  - simpl in Hc. apply andb_prop in Hc as [Ha Hc]. rewrite append_cons.
    simpl. by rewrite Ha, IH.
Qed.

Lemma snoc_nonempty (cur : string) (c : ascii) :
  cur +:+ String c EmptyString <> EmptyString.
Proof. destruct cur; discriminate. Qed.

Lemma flush_runs (cur : string) :
  all_digits cur = true -> Forall is_run (flush cur).
Proof.
  destruct cur; simpl; intros H; constructor; [| constructor].
  split; [exact H | discriminate].
Qed.

Lemma digit_runs_from_runs (s cur : string) :
  all_digits cur = true -> Forall is_run (digit_runs_from cur s).
Proof.
  revert cur. induction s as [|c s IH]; intros cur Hcur; simpl.
  - by apply flush_runs.
  - destruct (is_digit c) eqn:Hc.
    + apply IH. by apply all_digits_snoc.
    + apply List.Forall_app. split; [by apply flush_runs | by apply IH].
Qed.

Lemma decimal_from_nonneg (s : string) (acc : Z) :
  0 <= acc -> all_digits s = true -> 0 <= decimal_from acc s.
Proof.
  revert acc. induction s as [|c s IH]; intros acc Hacc; simpl; [auto |].
  intros [Hc Hs]%andb_prop. apply IH; [| exact Hs].
  apply digit_range in Hc. unfold digit_value. lia.
Qed.

(** Reading on from inside a run: the digits that continue it, and what
    follows them. *)
Lemma current_run_split (s cur : string) :
  exists d post,
    s = d +:+ post /\ all_digits d = true /\ ends_run post
    /\ digit_runs_from cur s
       = flush (cur +:+ d) ++ digit_runs_from EmptyString post.
Proof.
  revert cur. induction s as [|c s IH]; intros cur.
  - exists EmptyString, EmptyString. simpl.
    rewrite !append_empty_r, app_nil_r. repeat split.
  - destruct (is_digit c) eqn:Hc.
    + destruct (IH (cur +:+ String c EmptyString))
        as (d & post & -> & Hd & Hpost & Hruns).
      exists (String c d), post. rewrite append_cons. simpl.
      rewrite Hc, Hd, Hruns, append_snoc_assoc. repeat split. exact Hpost.
    + exists EmptyString, (String c s). simpl.
      rewrite Hc, append_empty_r. repeat split.
Qed.

(** Reading from outside a run: what is skipped has no digit, and what
    follows is empty or begins with a digit. *)
Lemma skipped_split (s : string) :
  exists pre post,
    s = pre +:+ post /\ no_digits pre = true
    /\ (post = EmptyString \/ exists c r, post = String c r /\ is_digit c = true)
    /\ digit_runs_from EmptyString s = digit_runs_from EmptyString post.
Proof.
  induction s as [|c s IH].
  - exists EmptyString, EmptyString. auto.
  - destruct (is_digit c) eqn:Hc.
    + exists EmptyString, (String c s). repeat split; eauto.
    + destruct IH as (pre & post & -> & Hpre & Hpost & Hruns).
      exists (String c pre), post. rewrite append_cons. simpl.
      rewrite Hc, Hpre. auto.
Qed.

(** The first match of the pattern: what precedes it has no digit, and what
    follows it does not continue it. *)
Lemma first_run_split (s r1 : string) (rest : list string) :
  digit_runs_from EmptyString s = r1 :: rest ->
  exists pre post,
    s = pre +:+ r1 +:+ post /\ no_digits pre = true /\ ends_run post
    /\ digit_runs_from EmptyString post = rest.
Proof.
  intros Hruns.
  destruct (skipped_split s) as (pre & post1 & -> & Hpre & Hpost1 & Hskip).
  rewrite Hskip in Hruns.
  destruct Hpost1 as [-> | (c & r & -> & Hc)]; [discriminate Hruns |].
  destruct (current_run_split (String c r) EmptyString)
    as (d & post & Hsplit & Hd & Hpost & Hcur).
  rewrite Hcur in Hruns.
  destruct d as [|a d].
  - change (String c r = post) in Hsplit. subst post.
    simpl in Hpost. congruence.
  - change ([String a d] ++ digit_runs_from EmptyString post = r1 :: rest)
      in Hruns.
    injection Hruns as <- <-.
    exists pre, post. by rewrite Hsplit.
Qed.

(** The first two matches of the pattern, where they lie in the text. *)
Lemma two_runs_split (s d1 d2 : string) (rest : list string) :
  digit_runs s = d1 :: d2 :: rest ->
  exists pre mid post,
    s = pre +:+ d1 +:+ mid +:+ d2 +:+ post
    /\ no_digits pre = true /\ is_run d1
    /\ no_digits mid = true /\ mid <> EmptyString
    /\ is_run d2 /\ ends_run post.
Proof.
  intros Hruns.
  pose proof (digit_runs_from_runs s EmptyString eq_refl) as Hall.
  fold (digit_runs s) in Hall. rewrite Hruns in Hall.
  apply List.Forall_cons_iff in Hall as [H1 Hall].
  apply List.Forall_cons_iff in Hall as [H2 _].
  apply first_run_split in Hruns as (pre & post1 & -> & Hpre & Hpost1 & Hruns).
  apply first_run_split in Hruns as (mid & post & -> & Hmid & Hpost & _).
  exists pre, mid, post. repeat split; try assumption; try apply H1; try apply H2.
  intros ->. destruct H2 as [Hd2 Hn2].
  destruct d2 as [|a d2]; [congruence |].
  simpl in Hpost1, Hd2. apply andb_prop in Hd2 as [Ha _]. congruence.
Qed.

(** X4: a descriptor that [getInstallmentsInfo] returns holds two integers
    that are not negative, never [NaN]: the memo has the installment marker,
    and they are the values of its first two runs of digits, the first
    preceded by no digit and the two separated by text without digits. *)
Theorem getInstallmentsInfo_nonnegative
    (txn : ScrapedTransaction) (info : Installments) :
  getInstallmentsInfo txn = Some info ->
  exists memo pre d1 mid d2 post,
    moreInfo txn = Some memo
    /\ includes memo INSTALLMENTS_KEYWORD = true
    /\ memo = pre +:+ d1 +:+ mid +:+ d2 +:+ post
    /\ no_digits pre = true
    /\ all_digits d1 = true /\ d1 <> EmptyString
    /\ no_digits mid = true /\ mid <> EmptyString
    /\ all_digits d2 = true /\ d2 <> EmptyString
    /\ ends_run post
    /\ number info = number_of_Z (decimal d1) /\ 0 <= decimal d1
    /\ total info = number_of_Z (decimal d2) /\ 0 <= decimal d2.
Proof.
  unfold getInstallmentsInfo.
  destruct (moreInfo txn) as [memo|]; [| discriminate].
  destruct (String.eqb_spec memo ""); simpl; [discriminate |].
  destruct (includes memo INSTALLMENTS_KEYWORD) eqn:Hkw; simpl; [| discriminate].
  unfold match_digits.
  destruct (digit_runs memo) as [|d1 [|d2 rest]] eqn:Hruns; try discriminate.
  intros [= <-].
  destruct (two_runs_split memo d1 d2 rest Hruns)
    as (pre & mid & post & Hmemo & Hpre & [Hd1 Hn1] & Hmid & Hnm & [Hd2 Hn2]
        & Hpost).
  exists memo, pre, d1, mid, d2, post. simpl.
  rewrite !parseInt_digits by assumption.
  repeat split; try assumption; try reflexivity;
    by apply decimal_from_nonneg.
Qed.

End NormalizerMore.

(** ** The monthly fetcher, continued *)

Section FetcherMore.

Context {imports : Imports}.

Lemma processAccount_run bean options startMoment accountTxns account :
  processAccount bean options startMoment accountTxns account
  = if has_groups bean account
    then (accountCalls options startMoment (rawTxns bean account),
          Fulfilled (storeAccount bean options startMoment accountTxns account))
    else ([], Fulfilled accountTxns).
Proof.
  unfold processAccount, has_groups, accountCalls, storeAccount, accountEntry,
    rawTxns.
  destruct (getTxnGroups bean (Account.index account)) as [groups|];
    [| reflexivity].
  by destruct (ExtendedOptions.combineInstallments options).
Qed.

Lemma forEach_processAccount_run bean options startMoment accounts accountTxns :
  forEach (processAccount bean options startMoment) accounts accountTxns
  = (flat_map (fun account =>
                 accountCalls options startMoment (rawTxns bean account))
       (List.filter (has_groups bean) accounts),
     Fulfilled (fold_left (storeAccount bean options startMoment)
                  (List.filter (has_groups bean) accounts) accountTxns)).
Proof.
  revert accountTxns. induction accounts as [|a accounts IH]; intros o;
    [reflexivity |].
  cbn [forEach List.filter]. rewrite processAccount_run.
  destruct (has_groups bean a); simpl; by rewrite IH.
Qed.

(** What a month's fetch does and how it ends. *)
Lemma fetchTransactions_run page options startMoment monthMoment :
  fetchTransactions page options startMoment monthMoment
  = (month_requests options monthMoment
     ++ flat_map (fun account =>
                    accountCalls options startMoment
                      (rawTxns (month_bean page options monthMoment) account))
          (processed_accounts page options monthMoment),
     match transactions_bean
             (get_CardsTransactionsList page
                (getTransactionsUrl (ExtendedOptions.servicesUrl options)
                   monthMoment)),
           dashboard_accounts
             (get_DashboardMonth page
                (getAccountsUrl (ExtendedOptions.servicesUrl options) monthMoment))
     with
     | None, _ => Fulfilled EmptyArray
     | Some _, None => Rejected forEach_null
     | Some bean, Some _ =>
         Fulfilled
           (AccountTxnsObject
              (fold_left (storeAccount bean options startMoment)
                 (processed_accounts page options monthMoment) JsObject.empty))
     end).
Proof.
  unfold fetchTransactions, processed_accounts, month_bean, month_requests.
  rewrite fetchAccounts_returns.
  unfold transactions_bean, fetchGetWithinPage. simpl.
  destruct (get_CardsTransactionsList page _) as [r|];
    [| reflexivity].
  destruct (status_is_1 _); [| reflexivity].
  destruct (CardsTransactionsListResponse.CardsTransactionsListBean r) as [bean|];
    [| reflexivity].
  destruct (dashboard_accounts _) as [charges|]; [| reflexivity].
  simpl. rewrite forEach_processAccount_run. simpl. by rewrite app_nil_r.
Qed.

Lemma accountCalls_helper options startMoment allTxns :
  List.filter is_helper_call (accountCalls options startMoment allTxns)
  = accountCalls options startMoment allTxns
  /\ List.filter (fun e => negb (is_helper_call e))
       (accountCalls options startMoment allTxns) = [].
Proof.
  unfold accountCalls. by destruct (ExtendedOptions.combineInstallments options).
Qed.

Lemma filter_flat_map_all {A} (f : Event -> bool) (g : A -> list Event)
    (l : list A) :
  (forall a, List.filter f (g a) = g a) ->
  List.filter f (flat_map g l) = flat_map g l.
Proof.
  intros H. induction l as [|a l IH]; [reflexivity |].
  simpl. by rewrite List.filter_app, H, IH.
Qed.

Lemma filter_flat_map_none {A} (f : Event -> bool) (g : A -> list Event)
    (l : list A) :
  (forall a, List.filter f (g a) = []) ->
  List.filter f (flat_map g l) = [].
Proof.
  intros H. induction l as [|a l IH]; [reflexivity |].
  simpl. by rewrite List.filter_app, H, IH.
Qed.

(** X6: whatever the responses are, a month's fetch issues exactly two
    requests, the GET of the dashboard and then the GET of the transactions
    list; it navigates nowhere, posts nothing and notifies no progress. *)
Theorem fetchTransactions_two_requests page options startMoment monthMoment :
  transport_events (fst (fetchTransactions page options startMoment monthMoment))
  = [FetchGet (getAccountsUrl (ExtendedOptions.servicesUrl options) monthMoment);
     FetchGet (getTransactionsUrl (ExtendedOptions.servicesUrl options) monthMoment)].
Proof.
  rewrite fetchTransactions_run. unfold transport_events. cbn [fst].
  rewrite List.filter_app, filter_flat_map_none.
  - by rewrite app_nil_r.
  - intros a. apply accountCalls_helper.
Qed.

(** X7: the helpers are called account by account, for the accounts the
    month processes and in their order: [fixInstallments] on the account's
    normalized list and then [filterOldTransactions] on its result when
    [combineInstallments] is off, [filterOldTransactions] alone on the
    normalized list when it is on; so [fixInstallments] is called once per
    processed account, or never. *)
Theorem fetchTransactions_helper_calls page options startMoment monthMoment :
  helper_calls (fst (fetchTransactions page options startMoment monthMoment))
  = flat_map (fun account =>
                accountCalls options startMoment
                  (rawTxns (month_bean page options monthMoment) account))
      (processed_accounts page options monthMoment)
  /\ fix_calls (fst (fetchTransactions page options startMoment monthMoment))
     = if ExtendedOptions.combineInstallments options then 0%nat
       else length (processed_accounts page options monthMoment).
Proof.
  rewrite fetchTransactions_run. unfold helper_calls, fix_calls. cbn [fst].
  split.
  - rewrite List.filter_app. simpl. apply filter_flat_map_all.
    intros a. apply accountCalls_helper.
  - rewrite List.filter_app. simpl.
    generalize (processed_accounts page options monthMoment).
    intros l. unfold accountCalls.
    destruct (ExtendedOptions.combineInstallments options);
      induction l as [|a l IH]; simpl; auto.
Qed.

(** X8: a month whose transactions list is absent, has a header status
    other than "1" or lacks its bean ends with the empty result after the
    two requests, whatever the dashboard answers, and calls no helper. *)
Theorem fetchTransactions_empty_without_bean page options startMoment monthMoment :
  transactions_bean
    (get_CardsTransactionsList page
       (getTransactionsUrl (ExtendedOptions.servicesUrl options) monthMoment))
  = None ->
  fetchTransactions page options startMoment monthMoment
  = ([FetchGet (getAccountsUrl (ExtendedOptions.servicesUrl options) monthMoment);
      FetchGet (getTransactionsUrl (ExtendedOptions.servicesUrl options) monthMoment)],
     Fulfilled EmptyArray).
Proof.
  intros Hbean. rewrite fetchTransactions_run.
  unfold processed_accounts. rewrite Hbean. reflexivity.
Qed.

(** X9: a month's fetch is rejected in one case only, when the dashboard
    resolves no accounts while the transactions list has its bean; the error
    is then the [TypeError] of [accounts.forEach], and in every other case the
    fetch returns. *)
Theorem fetchTransactions_rejected_iff page options startMoment monthMoment :
  (snd (fetchTransactions page options startMoment monthMoment)
   = Rejected forEach_null
   <-> month_fails page options monthMoment)
  /\ (~ month_fails page options monthMoment ->
      exists result,
        snd (fetchTransactions page options startMoment monthMoment)
        = Fulfilled result).
Proof.
  rewrite fetchTransactions_run. unfold month_fails. cbn [snd].
  destruct (transactions_bean _) as [bean|].
  - destruct (dashboard_accounts _) as [charges|].
    + split; [split; [discriminate | intros [H _]; discriminate H] | eauto].
    + split; [split; eauto |]. intros H. exfalso. apply H. eauto.
  - split; [split; [discriminate | intros [_ [b H]]; discriminate H] | eauto].
Qed.

Lemma get_fold_storeAccount_other bean options startMoment accounts accountTxns k :
  Forall (fun account => Account.accountNumber account <> k) accounts ->
  JsObject.get k (fold_left (storeAccount bean options startMoment) accounts accountTxns)
  = JsObject.get k accountTxns.
Proof.
  intros H. revert accountTxns.
  induction H as [|a l Ha _ IH]; intros o; [reflexivity |].
  simpl. rewrite IH. unfold storeAccount. by apply get_assign_ne.
Qed.

Lemma get_proto_fold_storeAccount bean options startMoment accounts accountTxns :
  JsObject.get "__proto__" accountTxns = None ->
  JsObject.get "__proto__"
    (fold_left (storeAccount bean options startMoment) accounts accountTxns)
  = None.
Proof.
  revert accountTxns. induction accounts as [|a l IH]; intros o Ho; [exact Ho |].
  simpl. apply IH. unfold storeAccount. by apply get_assign_proto.
Qed.

Lemma get_fold_storeAccount bean options startMoment accounts accountTxns k entry :
  JsObject.get k (fold_left (storeAccount bean options startMoment) accounts accountTxns)
  = Some entry ->
  JsObject.get k accountTxns = Some entry
  \/ exists account,
       In account accounts /\ Account.accountNumber account = k
       /\ entry = accountEntry bean options startMoment account.
Proof.
  revert accountTxns. induction accounts as [|a l IH]; intros o; [auto |].
  simpl. intros H. apply IH in H as [H | (b & Hb & Hk & He)].
  - unfold storeAccount in H.
    destruct (string_dec (Account.accountNumber a) k) as [Heq|Hne].
    + destruct (string_dec k "__proto__") as [Hp|Hp].
      * left. subst k. rewrite Hp in *. exact H.
      * rewrite Heq, get_assign_eq in H by assumption.
        injection H as <-. right. eauto.
    + rewrite get_assign_ne in H by assumption. auto.
  - right. eauto.
Qed.

Lemma processed_accounts_nonempty page options monthMoment :
  processed_accounts page options monthMoment <> [] ->
  exists charges,
    transactions_bean
      (get_CardsTransactionsList page
         (getTransactionsUrl (ExtendedOptions.servicesUrl options) monthMoment))
    = Some (month_bean page options monthMoment)
    /\ dashboard_accounts
         (get_DashboardMonth page
            (getAccountsUrl (ExtendedOptions.servicesUrl options) monthMoment))
       = Some charges.
Proof.
  unfold processed_accounts, month_bean.
  destruct (transactions_bean _) as [bean|]; [| congruence].
  destruct (dashboard_accounts _) as [charges|]; [eauto | congruence].
Qed.

(** X10: every entry of the object a month's fetch returns is stored under
    its own account number, and is the entry of an account that the month
    processes: its transactions are that account's normalized list after
    the helpers. *)
Theorem fetchTransactions_entries page options startMoment monthMoment
    (accountTxns : JsObject.t AccountTxns.t) (k : string) (entry : AccountTxns.t) :
  snd (fetchTransactions page options startMoment monthMoment)
  = Fulfilled (AccountTxnsObject accountTxns) ->
  JsObject.get k accountTxns = Some entry ->
  AccountTxns.accountNumber entry = k
  /\ exists account,
       In account (processed_accounts page options monthMoment)
       /\ Account.accountNumber account = k
       /\ entry = accountEntry (month_bean page options monthMoment) options
                    startMoment account.
Proof.
  rewrite fetchTransactions_run. cbn [snd]. unfold month_bean.
  destruct (transactions_bean _) as [bean|]; [| discriminate].
  destruct (dashboard_accounts _) as [charges|]; [| discriminate].
  intros [= <-] Hget.
  apply get_fold_storeAccount in Hget as [Hget | (a & Ha & Hk & He)];
    [discriminate Hget |].
  split; [by rewrite He | eauto].
Qed.

(** X11: when two cards of a month have the same card number, other than
    [__proto__], the entry of the one processed last replaces the other: the
    object holds, under that number, the entry of the last processed account
    that has it. *)
Theorem fetchTransactions_last_account_wins page options startMoment monthMoment
    (before after : list Account.t) (account : Account.t) :
  processed_accounts page options monthMoment = before ++ account :: after ->
  Forall (fun other =>
            Account.accountNumber other <> Account.accountNumber account) after ->
  Account.accountNumber account <> "__proto__" ->
  exists accountTxns,
    snd (fetchTransactions page options startMoment monthMoment)
    = Fulfilled (AccountTxnsObject accountTxns)
    /\ JsObject.get (Account.accountNumber account) accountTxns
       = Some (accountEntry (month_bean page options monthMoment) options
                 startMoment account).
Proof.
  intros Hsplit Hafter Hproto.
  destruct (processed_accounts_nonempty page options monthMoment)
    as (charges & Hbean & Hdash).
  { rewrite Hsplit. by destruct before. }
  rewrite fetchTransactions_run, Hbean, Hdash, Hsplit. cbn [snd].
  eexists. split; [reflexivity |].
  rewrite fold_left_app. simpl.
  rewrite get_fold_storeAccount_other by assumption.
  unfold storeAccount. by apply get_assign_eq.
Qed.

(** X25: an account whose card number is [__proto__] leaves no entry: the
    assignment of line 186 sets the prototype of the month's object, so the
    object has no own property of that name and [Object.keys] does not
    list it. *)
Theorem fetchTransactions_no_proto_entry page options startMoment monthMoment
    (result : FetchTransactionsResult) :
  snd (fetchTransactions page options startMoment monthMoment) = Fulfilled result ->
  ~ In "__proto__" (result_keys result)
  /\ ~ In "__proto__" (List.map fst (entries result)).
Proof.
  rewrite fetchTransactions_run. cbn [snd]. intros Hres.
  assert (Hown : ~ In "__proto__" (List.map fst (entries result))).
  { destruct (transactions_bean _) as [bean|].
    - destruct (dashboard_accounts _) as [charges|]; [| discriminate].
      injection Hres as <-. simpl. apply get_None_not_In.
      by apply get_proto_fold_storeAccount.
    - injection Hres as <-. simpl. tauto. }
  split; [| exact Hown].
  destruct result as [o|]; simpl in *; [by rewrite In_keys | tauto].
Qed.

End FetcherMore.

Section ResolverMore.

Context {imports : Imports}.

(** X5: the account resolver issues one GET and never fails: it returns
    [null] when the response is absent, its header status is not "1", or
    the bean or its card list is missing, and otherwise one account for each
    card, in the order of the cards, with the card's number as account
    number and its parsed index. *)
Theorem fetchAccounts_one_account_per_card page servicesUrl monthMoment :
  fst (fetchAccounts page servicesUrl monthMoment)
  = [FetchGet (getAccountsUrl servicesUrl monthMoment)]
  /\ match dashboard_accounts
             (get_DashboardMonth page (getAccountsUrl servicesUrl monthMoment))
     with
     | None => snd (fetchAccounts page servicesUrl monthMoment) = Fulfilled None
     | Some charges =>
         exists accounts,
           snd (fetchAccounts page servicesUrl monthMoment)
           = Fulfilled (Some accounts)
           /\ List.map Account.accountNumber accounts
              = List.map cardNumber charges
           /\ List.map Account.index accounts
              = List.map (fun charge => parseInt (cardIndex charge)) charges
     end.
Proof.
  rewrite fetchAccounts_returns. split; [reflexivity |].
  destruct (dashboard_accounts _) as [charges|]; [| reflexivity].
  eexists. split; [reflexivity |].
  by rewrite !List.map_map.
Qed.

End ResolverMore.

(** ** The aggregator and the pipeline, continued *)

Section AggregatorMore.

Lemma list_sum_perm (l l' : list nat) :
  Permutation l l' -> list_sum l = list_sum l'.
Proof. induction 1; simpl; lia. Qed.

Lemma list_sum_map_add {A} (f g : A -> nat) (l : list A) :
  list_sum (List.map (fun a => (f a + g a)%nat) l)
  = (list_sum (List.map f l) + list_sum (List.map g l))%nat.
Proof. induction l as [|a l IH]; simpl; lia. Qed.

Lemma list_sum_swap {A B} (f : A -> B -> nat) (la : list A) (lb : list B) :
  list_sum (List.map (fun a => list_sum (List.map (fun b => f a b) lb)) la)
  = list_sum (List.map (fun b => list_sum (List.map (fun a => f a b) la)) lb).
Proof.
  induction la as [|a la IH]; simpl.
  - induction lb as [|b lb IHb]; simpl; lia.
  - by rewrite IH, list_sum_map_add.
Qed.

(** A sum over keys that are all different only counts the keys at which
    the summand is not zero. *)
Lemma list_sum_support (g : string -> nat) (K L : list string) :
  List.NoDup K -> List.NoDup L -> incl L K ->
  (forall k, In k K -> ~ In k L -> g k = 0%nat) ->
  list_sum (List.map g K) = list_sum (List.map g L).
Proof.
  revert L. induction K as [|k K IH]; intros L HK HL Hincl Hzero.
  - destruct L as [|x L]; [reflexivity |].
    destruct (Hincl x (or_introl eq_refl)).
  - apply List.NoDup_cons_iff in HK as [Hk HK].
    destruct (in_dec string_dec k L) as [Hin|Hnin].
    + apply in_split in Hin as (L1 & L2 & ->).
      pose proof (List.NoDup_remove _ _ _ HL) as [HL' HkL'].
      rewrite (list_sum_perm _ _
                 (Permutation_map g (Permutation_sym (Permutation_middle L1 L2 k)))).
      simpl. f_equal. apply IH; [assumption | assumption | |].
      * intros x Hx.
        assert (Hx' : In x (L1 ++ k :: L2)).
        { apply in_app_iff in Hx. apply in_app_iff. simpl. tauto. }
        destruct (Hincl x Hx') as [<- | HxK]; [contradiction | assumption].
      * intros x HxK HxL. apply Hzero; [simpl; tauto |].
        intros Hx. apply in_app_iff in Hx. simpl in Hx.
        destruct Hx as [Hx | [<- | Hx]];
          [apply HxL, in_app_iff; tauto | contradiction
          | apply HxL, in_app_iff; tauto].
    + simpl. rewrite (Hzero k (or_introl eq_refl) Hnin). simpl.
      apply IH; [assumption | assumption | |].
      * intros x Hx. destruct (Hincl x Hx) as [<- | HxK];
          [contradiction | assumption].
      * intros x HxK HxL. apply Hzero; [simpl; tauto | assumption].
Qed.

Lemma length_contributions results accountNumber :
  length (contributions results accountNumber)
  = list_sum (List.map (fun result => length (result_txns result accountNumber))
                results).
Proof.
  unfold contributions. induction results as [|r rs IH]; [reflexivity |].
  simpl. by rewrite length_app, IH.
Qed.

Lemma get_In_NoDup {V} (k : string) (v : V) (o : JsObject.t V) :
  List.NoDup (List.map fst o) -> In (k, v) o -> JsObject.get k o = Some v.
Proof.
  induction o as [|[k0 v0] o IH]; intros Hnd Hin; [destruct Hin |].
  apply List.NoDup_cons_iff in Hnd as [Hnin Hnd]. cbn [JsObject.get].
  destruct Hin as [[= -> ->] | Hin].
  - by rewrite String.eqb_refl.
  - destruct (String.eqb_spec k k0) as [->|Hne]; [| by apply IH].
    exfalso. apply Hnin. apply in_map_iff. by exists (k0, v).
Qed.

(** With account numbers all different, reading the object key by key
    counts its entries. *)
Lemma result_size_keys result :
  List.NoDup (List.map fst (entries result)) ->
  list_sum (List.map (fun k => length (result_txns result k)) (result_keys result))
  = result_size result.
Proof.
  intros Hnd. destruct result as [o|]; [| reflexivity].
  unfold result_size, result_keys, JsObject.keys. cbn [entries] in *.
  rewrite (list_sum_perm _ _
             (Permutation_map _ (order_keys_perm (List.map fst o)))).
  rewrite List.map_map. f_equal. apply List.map_ext_in.
  intros [k v] Hin. unfold result_txns. cbn [fst snd].
  by rewrite (get_In_NoDup k v o Hnd Hin).
Qed.

(** The merge neither loses nor repeats a transaction. *)
Lemma ledger_size_mergeResults results :
  Forall (fun result => List.NoDup (List.map fst (entries result))) results ->
  ledger_size (accountsOf (mergeResults results))
  = list_sum (List.map result_size results).
Proof.
  intros Hown.
  assert (Hnd : Forall (fun result => List.NoDup (result_keys result)) results).
  { eapply List.Forall_impl; [| exact Hown]. intros r. apply NoDup_result_keys. }
  destruct (accountsOf_mergeResults results Hnd) as (Htxns & Hkeys & HK).
  unfold ledger_size.
  rewrite (List.map_ext_in _
             (fun account =>
                length (contributions results (ScraperAccount.accountNumber account)))).
  2: { intros account Hin. by rewrite (Htxns account Hin). }
  rewrite <- (List.map_map ScraperAccount.accountNumber
                (fun k => length (contributions results k))).
  set (K := List.map ScraperAccount.accountNumber (accountsOf (mergeResults results)))
    in *.
  rewrite (List.map_ext _ _ (length_contributions results)).
  rewrite (list_sum_swap (fun k result => length (result_txns result k)) K results).
  f_equal. apply List.map_ext_in. intros r Hr.
  rewrite List.Forall_forall in Hown, Hnd.
  rewrite <- (result_size_keys r (Hown r Hr)). apply list_sum_support.
  - exact HK.
  - by apply Hnd.
  - intros k Hk. apply Hkeys. apply List.Exists_exists. eauto.
  - intros k _ Hk. by rewrite result_txns_other.
Qed.

(** X12: a month that ended with the empty result leaves the merged ledger
    as it is: merging with it or without it ends in the same way, and when
    it returns gives the same accounts, with the same transactions in the
    same order. *)
Theorem combineResults_ignores_empty_month
    (before after : list FetchTransactionsResult) :
  combineResults (before ++ EmptyArray :: after) = combineResults (before ++ after)
  /\ ledger_of (before ++ EmptyArray :: after) = ledger_of (before ++ after).
Proof.
  assert (H : combineResults (before ++ EmptyArray :: after)
              = combineResults (before ++ after)).
  { unfold combineResults. rewrite !forEach_app. apply bind_ext.
    intros combinedTxns.
    change (forEach addResult (EmptyArray :: after) combinedTxns)
      with (bind (addResult combinedTxns EmptyArray) (forEach addResult after)).
    change (addResult combinedTxns EmptyArray) with (ret combinedTxns).
    apply bind_ret. }
  unfold ledger_of. by rewrite H.
Qed.

End AggregatorMore.

Section PipelineMore.

Context {imports : Imports}.

Lemma fetchAllTransactions_fulfilled page options startMoment
    (completion : list nat) (results : list FetchTransactionsResult) :
  Permutation completion (seq 0 (length (getAllMonthMoments startMoment true))) ->
  Forall2 (fun monthMoment result =>
             snd (fetchTransactions page options startMoment monthMoment)
             = Fulfilled result)
    (getAllMonthMoments startMoment true) results ->
  snd (fetchAllTransactions page options startMoment completion)
  = snd (ledger <- ledger_of results ;;
         ret {| success := true; accounts := Some ledger; errorType := None |})
  /\ Forall (fun result => List.NoDup (List.map fst (entries result))) results.
Proof.
  intros Hperm Hall. split.
  - apply fetchAllTransactions_of_results.
    apply Promise_all_fulfilled; [| by rewrite length_map].
    clear Hperm. induction Hall; simpl; constructor; assumption.
  - clear Hperm. induction Hall as [|m r ms rs Hr _ IH]; constructor; [| exact IH].
    eapply fetchTransactions_own_keys. exact Hr.
Qed.

Lemma ledger_of_plain results :
  Forall plain_numbers results ->
  ledger_of results = ret (accountsOf (mergeResults results)).
Proof.
  intros H. unfold ledger_of. by rewrite (combineResults_plain _ H), bind_ret.
Qed.

(** The object of a month has the account numbers of the accounts the
    month processes. *)
Lemma fetchTransactions_plain page options startMoment monthMoment result :
  plain_accounts page options monthMoment ->
  snd (fetchTransactions page options startMoment monthMoment) = Fulfilled result ->
  plain_numbers result.
Proof.
  unfold plain_accounts, plain_numbers. intros Hplain.
  rewrite fetchTransactions_run. cbn [snd]. intros Hres.
  destruct (transactions_bean _) as [bean|].
  - destruct (dashboard_accounts _) as [charges|]; [| discriminate].
    injection Hres as <-. cbn [entries]. apply List.Forall_forall.
    intros [k v] Hin.
    assert (Hk : In k (List.map fst
                         (fold_left (storeAccount bean options startMoment)
                            (processed_accounts page options monthMoment)
                            JsObject.empty))).
    { apply in_map_iff. by exists (k, v). }
    apply get_Some_In in Hk as [entry Hget].
    apply get_fold_storeAccount in Hget as [Hget | (a & Ha & Hnum & _)];
      [discriminate Hget |].
    cbn [fst]. rewrite <- Hnum.
    rewrite List.Forall_forall in Hplain. by apply Hplain.
  - injection Hres as <-. constructor.
Qed.

Lemma fetchAllTransactions_rejected page options startMoment
    (completion : list nat) (monthMoment : Moment) :
  Permutation completion (seq 0 (length (getAllMonthMoments startMoment true))) ->
  In monthMoment (getAllMonthMoments startMoment true) ->
  month_fails page options monthMoment ->
  snd (fetchAllTransactions page options startMoment completion)
  = Rejected forEach_null.
Proof.
  intros Hperm Hin Hfails. unfold fetchAllTransactions.
  set (calls := List.map _ (getAllMonthMoments startMoment true)).
  assert (Hall : snd (Promise_all calls completion) = Rejected forEach_null).
  { apply Promise_all_rejected; subst calls.
    - apply List.Forall_forall. intros call Hcall.
      apply in_map_iff in Hcall as (m & <- & _). apply fetchTransactions_outcome.
    - apply List.Exists_exists.
      exists (fetchTransactions page options startMoment monthMoment).
      split; [by apply in_map |].
      rewrite fetchTransactions_run. cbn [snd].
      destruct Hfails as [-> [bean ->]]. reflexivity.
    - by rewrite length_map. }
  destruct (Promise_all calls completion) as [log o]. simpl in Hall. by subst o.
Qed.

Lemma Forall2_of_exists {A B} (P : A -> B -> Prop) (l : list A) :
  (forall a, In a l -> exists b, P a b) -> exists lb, Forall2 P l lb.
Proof.
  induction l as [|a l IH]; intros H; [exists []; constructor |].
  destruct (H a (or_introl eq_refl)) as [b Hb].
  destruct IH as [lb Hlb]; [intros x Hx; apply H; by right |].
  exists (b :: lb). by constructor.
Qed.

(** X13: when the months settle, each once, and no card number of an
    account they process names a property of [Object.prototype], the
    aggregation returns if and only if no month of the sequence has a
    dashboard that resolves no accounts together with a transactions list
    that has its bean. *)
Theorem fetchAllTransactions_returns_iff page options startMoment
    (completion : list nat) :
  Permutation completion (seq 0 (length (getAllMonthMoments startMoment true))) ->
  (forall monthMoment,
      In monthMoment (getAllMonthMoments startMoment true) ->
      plain_accounts page options monthMoment) ->
  (exists result,
      snd (fetchAllTransactions page options startMoment completion)
      = Fulfilled result)
  <-> (forall monthMoment,
          In monthMoment (getAllMonthMoments startMoment true) ->
          ~ month_fails page options monthMoment).
Proof.
  intros Hperm Hplain. split.
  - intros [result Hres] m Hin Hfails.
    rewrite (fetchAllTransactions_rejected _ _ _ _ m Hperm Hin Hfails) in Hres.
    discriminate Hres.
  - intros Hok.
    destruct (Forall2_of_exists
                (fun monthMoment result =>
                   snd (fetchTransactions page options startMoment monthMoment)
                   = Fulfilled result)
                (getAllMonthMoments startMoment true)) as [results Hall].
    { intros m Hin. specialize (Hok m Hin).
      rewrite fetchTransactions_run. cbn [snd]. unfold month_fails in Hok.
      destruct (transactions_bean _) as [bean|]; [| eauto].
      destruct (dashboard_accounts _) as [charges|]; [eauto |].
      exfalso. apply Hok. eauto. }
    assert (Hnumbers : Forall plain_numbers results).
    { clear Hperm Hok.
      induction Hall as [|m r ms rs Hr _ IH]; constructor.
      - eapply fetchTransactions_plain; [| exact Hr]. apply Hplain. by left.
      - apply IH. intros m' Hm'. apply Hplain. by right. }
    destruct (fetchAllTransactions_fulfilled _ _ _ _ _ Hperm Hall) as [Hres _].
    rewrite (ledger_of_plain _ Hnumbers), bind_ret in Hres.
    eexists. exact Hres.
Qed.

(** X14: when no account number of the months' objects names a property of
    [Object.prototype], the merged ledger holds as many transactions as the
    entries of the months' objects: the merge neither loses nor repeats
    one. *)
Theorem fetchAllTransactions_keeps_every_transaction page options startMoment
    (completion : list nat) (results : list FetchTransactionsResult) :
  Permutation completion (seq 0 (length (getAllMonthMoments startMoment true))) ->
  Forall2 (fun monthMoment result =>
             snd (fetchTransactions page options startMoment monthMoment)
             = Fulfilled result)
    (getAllMonthMoments startMoment true) results ->
  Forall plain_numbers results ->
  exists ledger,
    snd (fetchAllTransactions page options startMoment completion)
    = Fulfilled {| success := true; accounts := Some ledger; errorType := None |}
    /\ ledger_size ledger = list_sum (List.map result_size results).
Proof.
  intros Hperm Hall Hplain.
  destruct (fetchAllTransactions_fulfilled _ _ _ _ _ Hperm Hall) as [Hres Hown].
  rewrite (ledger_of_plain _ Hplain), bind_ret in Hres.
  eexists. split; [exact Hres |]. by apply ledger_size_mergeResults.
Qed.

(** X26: a card number that is the name of a property of
    [Object.prototype], as [constructor] or [toString], ends the
    aggregation: once the object of some month has such a key, line 214
    calls [push] on what the empty object inherits under that name, and the
    aggregation is rejected with a [TypeError]; no ledger is returned. *)
Theorem fetchAllTransactions_rejected_on_inherited_name page options startMoment
    (completion : list nat) (results : list FetchTransactionsResult)
    (result : FetchTransactionsResult) (accountNumber : string) :
  Permutation completion (seq 0 (length (getAllMonthMoments startMoment true))) ->
  Forall2 (fun monthMoment result =>
             snd (fetchTransactions page options startMoment monthMoment)
             = Fulfilled result)
    (getAllMonthMoments startMoment true) results ->
  In result results ->
  In accountNumber (List.map fst (entries result)) ->
  In accountNumber JsObject.Object_prototype_names ->
  snd (fetchAllTransactions page options startMoment completion)
  = Rejected push_not_a_function
  /\ ~ (exists returned,
           snd (fetchAllTransactions page options startMoment completion)
           = Fulfilled returned).
Proof.
  intros Hperm Hall Hr Hk Hname.
  assert (H : combineResults results = throw push_not_a_function).
  { apply combineResults_inherited. apply List.Exists_exists.
    exists result. split; [exact Hr |]. apply List.Exists_exists.
    exists accountNumber. split; [by apply mentions_entries |].
    destruct (JsObject.inherited accountNumber) eqn:Hi; [reflexivity |].
    apply inherited_false in Hi. contradiction. }
  destruct (fetchAllTransactions_fulfilled _ _ _ _ _ Hperm Hall) as [Hres _].
  unfold ledger_of in Hres. rewrite H in Hres.
  split; [exact Hres |]. rewrite Hres. intros [returned Hret]. discriminate Hret.
Qed.

(** X15: with no month to fetch, the aggregation does nothing and returns
    success with an empty list of accounts. *)
Theorem fetchAllTransactions_no_months page options startMoment
    (completion : list nat) :
  getAllMonthMoments startMoment true = [] ->
  fetchAllTransactions page options startMoment completion
  = ([], Fulfilled {| success := true; accounts := Some []; errorType := None |}).
Proof.
  intros H. unfold fetchAllTransactions. by rewrite H.
Qed.

Lemma transport_events_flat_map {A} (f : A -> list Event) (l : list A) :
  transport_events (flat_map f l) = flat_map (fun a => transport_events (f a)) l.
Proof.
  unfold transport_events. induction l as [|a l IH]; [reflexivity |].
  simpl. by rewrite List.filter_app, IH.
Qed.

Lemma month_transport_events page options startMoment monthMoment :
  transport_events (fst (fetchTransactions page options startMoment monthMoment))
  = month_requests options monthMoment.
Proof.
  rewrite fetchTransactions_run. unfold transport_events. cbn [fst].
  rewrite List.filter_app, filter_flat_map_none.
  - by rewrite app_nil_r.
  - intros a. apply accountCalls_helper.
Qed.

(** X16: the aggregation issues two GET requests for every month of the
    sequence, the dashboard and the transactions list, whatever the responses
    are, and nothing else goes to the transport or to the observer. *)
Theorem fetchAllTransactions_requests page options startMoment
    (completion : list nat) :
  transport_events (fst (fetchAllTransactions page options startMoment completion))
  = flat_map (month_requests options) (getAllMonthMoments startMoment true)
  /\ length (transport_events
               (fst (fetchAllTransactions page options startMoment completion)))
     = (2 * length (getAllMonthMoments startMoment true))%nat.
Proof.
  assert (H : transport_events
                (fst (fetchAllTransactions page options startMoment completion))
              = flat_map (month_requests options)
                  (getAllMonthMoments startMoment true)).
  { rewrite fetchAllTransactions_log, transport_events_flat_map.
    induction (getAllMonthMoments startMoment true) as [|m ms IH]; [reflexivity |].
    simpl. by rewrite month_transport_events, IH. }
  split; [exact H |]. rewrite H. clear H.
  induction (getAllMonthMoments startMoment true) as [|m ms IH]; [reflexivity |].
  cbn [flat_map length]. rewrite length_app, IH. simpl. lia.
Qed.

Lemma fetchTransactions_options_ext page (options options' : ExtendedOptions.t)
    startMoment monthMoment :
  ExtendedOptions.servicesUrl options = ExtendedOptions.servicesUrl options' ->
  ExtendedOptions.combineInstallments options
  = ExtendedOptions.combineInstallments options' ->
  fetchTransactions page options startMoment monthMoment
  = fetchTransactions page options' startMoment monthMoment.
Proof.
  destruct options as [d c u k], options' as [d' c' u' k']. simpl.
  intros <- <-. reflexivity.
Qed.

Lemma fetchAllTransactions_options_ext page
    (options options' : ExtendedOptions.t) startMoment (completion : list nat) :
  ExtendedOptions.servicesUrl options = ExtendedOptions.servicesUrl options' ->
  ExtendedOptions.combineInstallments options
  = ExtendedOptions.combineInstallments options' ->
  fetchAllTransactions page options startMoment completion
  = fetchAllTransactions page options' startMoment completion.
Proof.
  intros Hu Hc. unfold fetchAllTransactions.
  rewrite (List.map_ext
             (fun monthMoment =>
                fetchTransactions page options startMoment monthMoment)
             (fun monthMoment =>
                fetchTransactions page options' startMoment monthMoment));
    [reflexivity |].
  intros m. by apply fetchTransactions_options_ext.
Qed.

(** X17: of its options the pipeline only uses the services address and
    the [combineInstallments] flag: the company code and the start date
    recorded in the options change nothing, for a month's fetch and for the
    aggregation; the window is the start moment that is passed. *)
Theorem fetchAllTransactions_options_used page
    (options options' : ExtendedOptions.t) startMoment (completion : list nat) :
  ExtendedOptions.servicesUrl options = ExtendedOptions.servicesUrl options' ->
  ExtendedOptions.combineInstallments options
  = ExtendedOptions.combineInstallments options' ->
  fetchAllTransactions page options startMoment completion
  = fetchAllTransactions page options' startMoment completion
  /\ forall monthMoment,
       fetchTransactions page options startMoment monthMoment
       = fetchTransactions page options' startMoment monthMoment.
Proof.
  intros Hu Hc. split.
  - by apply fetchAllTransactions_options_ext.
  - intros m. by apply fetchTransactions_options_ext.
Qed.

Lemma effectiveStart_max (this : IsracardAmexBaseScraper) (now : Moment) :
  effectiveStart this now
  = match startDate (options this) with
    | Some callerStart => Z.max (moment_subtract_years now 1) callerStart
    | None => moment_subtract_years now 1
    end.
Proof.
  unfold effectiveStart. rewrite moment_max_is_max.
  destruct (startDate (options this)); [reflexivity | lia].
Qed.

(** X18: a start date that is not later than one year before now is the
    same as no start date: the two runs of [fetchData] are equal. *)
Theorem fetchData_ignores_older_start (this : IsracardAmexBaseScraper)
    (now callerStart : Moment) (completion : list nat) :
  startDate (options this) = Some callerStart ->
  callerStart <= moment_subtract_years now 1 ->
  fetchData this now completion
  = fetchData (with_startDate None this) now completion.
Proof.
  intros Hstart Hle. unfold fetchData.
  rewrite !effectiveStart_max, Hstart. simpl.
  rewrite Z.max_l by exact Hle.
  by apply fetchAllTransactions_options_ext.
Qed.

Lemma Forall_flat_map {A B} (P : B -> Prop) (f : A -> list B) (l : list A) :
  (forall a, In a l -> Forall P (f a)) -> Forall P (flat_map f l).
Proof.
  induction l as [|a l IH]; intros H; [constructor |].
  simpl. apply List.Forall_app. split; [apply H; by left |].
  apply IH. intros x Hx. apply H. by right.
Qed.

(** X19: every call of [filterOldTransactions] made during [fetchData]
    receives the start of the window, the later of one year before now and
    the caller's start date, and the [combineInstallments] flag of the
    options. *)
Theorem fetchData_filter_arguments (this : IsracardAmexBaseScraper)
    (now : Moment) (completion : list nat) :
  Forall
    (filter_called_with
       (match startDate (options this) with
        | Some callerStart => Z.max (moment_subtract_years now 1) callerStart
        | None => moment_subtract_years now 1
        end)
       (combineInstallments (options this)))
    (fst (fetchData this now completion)).
Proof.
  unfold fetchData. rewrite effectiveStart_max, fetchAllTransactions_log.
  apply Forall_flat_map. intros m _. rewrite fetchTransactions_run. cbn [fst].
  apply List.Forall_app. split; [repeat constructor |].
  apply Forall_flat_map. intros a _. unfold accountCalls. simpl.
  destruct (combineInstallments (options this)); repeat constructor.
Qed.

End PipelineMore.

Section Scheduling.

Context {imports : Imports}.

Lemma month_fails_of_rejected page options startMoment monthMoment :
  snd (fetchTransactions page options startMoment monthMoment)
  = Rejected forEach_null ->
  month_fails page options monthMoment.
Proof.
  rewrite fetchTransactions_run. unfold month_fails. cbn [snd].
  destruct (transactions_bean _) as [bean|]; [| discriminate].
  destruct (dashboard_accounts _) as [charges|]; [discriminate | eauto].
Qed.

Lemma rejected_or_all_fulfilled {A B} (P : A -> Prop) (Q : A -> B -> Prop)
    (l : list A) :
  (forall a, In a l -> P a \/ exists b, Q a b) ->
  (exists a, In a l /\ P a) \/ exists lb, Forall2 Q l lb.
Proof.
  induction l as [|a l IH]; intros H; [right; exists []; constructor |].
  destruct (H a (or_introl eq_refl)) as [Ha | [b Hb]];
    [left; exists a; simpl; auto |].
  destruct IH as [(x & Hx & Px) | [lb Hlb]].
  - intros x Hx. apply H. by right.
  - left. exists x. simpl. auto.
  - right. exists (b :: lb). by constructor.
Qed.

(** X24: the run of the aggregation does not depend on the order in which
    the months settle: for any two orders in which every month settles once,
    it ends in the same way, with the same result or the same error. *)
Theorem fetchAllTransactions_same_for_every_completion
    page options startMoment (completion completion' : list nat) :
  Permutation completion (seq 0 (length (getAllMonthMoments startMoment true))) ->
  Permutation completion' (seq 0 (length (getAllMonthMoments startMoment true))) ->
  fetchAllTransactions page options startMoment completion
  = fetchAllTransactions page options startMoment completion'.
Proof.
  intros Hperm Hperm'.
  apply injective_projections.
  - by rewrite !fetchAllTransactions_log.
  - destruct (rejected_or_all_fulfilled
                (fun monthMoment =>
                   snd (fetchTransactions page options startMoment monthMoment)
                   = Rejected forEach_null)
                (fun monthMoment result =>
                   snd (fetchTransactions page options startMoment monthMoment)
                   = Fulfilled result)
                (getAllMonthMoments startMoment true))
      as [(m & Hin & Hrej) | [results Hall]].
    + intros m _. apply fetchTransactions_outcome.
    + apply month_fails_of_rejected in Hrej.
      by rewrite !(fetchAllTransactions_rejected _ _ _ _ m) by assumption.
    + destruct (fetchAllTransactions_fulfilled _ _ _ _ _ Hperm Hall) as [-> _].
      by destruct (fetchAllTransactions_fulfilled _ _ _ _ _ Hperm' Hall) as [-> _].
Qed.

End Scheduling.

(** ** Login, continued *)

Section LoginMore.

Implicit Types (this : IsracardAmexBaseScraper) (credentials : Credentials.t).

Lemma string_is_true (v : option string) (s : string) :
  string_is v s = true <-> v = Some s.
Proof.
  unfold string_is. destruct v as [v|]; [| split; discriminate].
  destruct (String.eqb_spec v s); split; congruence.
Qed.

(** The whole of what login does, by the payload of the validation and the
    status of the logon. *)
Lemma login_run this credentials :
  login this credentials
  = match validated this credentials with
    | None =>
        (login_steps this credentials,
         Rejected (Error "unknown error during login"))
    | Some bean =>
        if string_is (returnCode bean) "1" then
          let logon :=
            FetchPost (loginUrlOf this)
              (logonRequest credentials (userName bean)) in
          if string_is (logonStatus this credentials bean) "1" then
            (login_steps this credentials
             ++ [logon; EmitProgress ScrapeProgressTypes.LoginSuccess],
             Fulfilled loggedIn)
          else if string_is (logonStatus this credentials bean) "3" then
            (login_steps this credentials
             ++ [logon; EmitProgress ScrapeProgressTypes.ChangePassword],
             Fulfilled (refused ErrorTypes.ChangePassword))
          else
            (login_steps this credentials
             ++ [logon; EmitProgress ScrapeProgressTypes.LoginFailed],
             Fulfilled (refused ErrorTypes.InvalidPassword))
        else if string_is (returnCode bean) "4" then
          (login_steps this credentials
           ++ [EmitProgress ScrapeProgressTypes.ChangePassword],
           Fulfilled (refused ErrorTypes.ChangePassword))
        else
          (login_steps this credentials
           ++ [EmitProgress ScrapeProgressTypes.LoginFailed],
           Fulfilled (refused ErrorTypes.InvalidPassword))
    end.
Proof.
  unfold login, validated, logonStatus, login_steps, validateUrlOf, loginUrlOf,
    loggedIn, refused.
  unfold fetchPostWithinPage at 1. simpl.
  destruct (post_ValidateIdData _ _ _) as [[[[status]|] [bean|]]|]; simpl;
    try reflexivity.
  - unfold status_is_1, string_is at 1.
    destruct status as [status|]; simpl; [| reflexivity].
    destruct (String.eqb_spec status "1"); simpl; [| reflexivity].
    destruct (string_is (returnCode bean) "1"); simpl.
    + destruct (post_performLogonI _ _ _) as [[ls]|]; simpl.
      * destruct (string_is ls "1"); simpl; [reflexivity |].
        destruct (string_is ls "3"); reflexivity.
      * reflexivity.
    + destruct (string_is (returnCode bean) "4"); reflexivity.
  - unfold status_is_1. destruct status as [status|]; simpl; [| reflexivity].
    by destruct (status =? "1")%string.
Qed.

(** X20: the progress notifications of login agree with how it ends: the
    login attempt is always notified first; when login returns, exactly one
    more notification follows, the one of its outcome (success, change of
    password, or failure); when it throws, none follows. *)
Theorem login_progress_matches_outcome this credentials :
  match snd (login this credentials) with
  | Fulfilled result =>
      progress_events (fst (login this credentials))
      = [ScrapeProgressTypes.LoggingIn; terminal_progress result]
  | Rejected _ =>
      progress_events (fst (login this credentials))
      = [ScrapeProgressTypes.LoggingIn]
  | Pending => False
  end.
Proof.
  rewrite login_run.
  destruct (validated this credentials) as [bean|]; [| reflexivity].
  destruct (string_is (returnCode bean) "1").
  - cbv zeta. destruct (string_is (logonStatus this credentials bean) "1");
      [reflexivity |].
    destruct (string_is (logonStatus this credentials bean) "3"); reflexivity.
  - destruct (string_is (returnCode bean) "4"); reflexivity.
Qed.

(** X21: login succeeds exactly when the validation is accepted with return
    code "1" and the logon answers with status "1". *)
Theorem login_success_iff this credentials :
  (exists result,
      snd (login this credentials) = Fulfilled result /\ success result = true)
  <-> (exists bean,
          validated this credentials = Some bean
          /\ returnCode bean = Some "1"
          /\ logonStatus this credentials bean = Some "1").
Proof.
  rewrite login_run.
  destruct (validated this credentials) as [bean|].
  - destruct (string_is (returnCode bean) "1") eqn:Hcode.
    + cbv zeta.
      destruct (string_is (logonStatus this credentials bean) "1") eqn:Hs.
      * apply string_is_true in Hcode, Hs. split; intros _.
        -- exists bean. auto.
        -- exists loggedIn. auto.
      * split.
        -- destruct (string_is (logonStatus this credentials bean) "3");
             intros (r & [= <-] & Hr); discriminate Hr.
        -- intros (b & [= <-] & _ & Hl). apply string_is_true in Hl. congruence.
    + split.
      * destruct (string_is (returnCode bean) "4");
          intros (r & [= <-] & Hr); discriminate Hr.
      * intros (b & [= <-] & Hc & _). apply string_is_true in Hc. congruence.
  - split.
    + intros (r & Hr & _). discriminate Hr.
    + intros (b & Hb & _). discriminate Hb.
Qed.

(** X22: login answers that the password must be changed exactly when the
    validation is accepted and either its return code is "4", or its return
    code is "1" and the logon answers with status "3". *)
Theorem login_change_password_iff this credentials :
  (exists result,
      snd (login this credentials) = Fulfilled result
      /\ errorType result = Some ErrorTypes.ChangePassword)
  <-> (exists bean,
          validated this credentials = Some bean
          /\ (returnCode bean = Some "4"
              \/ (returnCode bean = Some "1"
                  /\ logonStatus this credentials bean = Some "3"))).
Proof.
  rewrite login_run.
  destruct (validated this credentials) as [bean|].
  - destruct (string_is (returnCode bean) "1") eqn:Hcode.
    + cbv zeta.
      destruct (string_is (logonStatus this credentials bean) "1") eqn:Hs1.
      * apply string_is_true in Hcode, Hs1. split.
        -- intros (r & [= <-] & Hr). discriminate Hr.
        -- intros (b & [= <-] & [H4 | [_ H3]]); congruence.
      * destruct (string_is (logonStatus this credentials bean) "3") eqn:Hs3.
        -- apply string_is_true in Hcode, Hs3. split; intros _.
           ++ exists bean. auto.
           ++ exists (refused ErrorTypes.ChangePassword). auto.
        -- apply string_is_true in Hcode. split.
           ++ intros (r & [= <-] & Hr). discriminate Hr.
           ++ intros (b & [= <-] & [H4 | [_ H3]]); [congruence |].
              apply string_is_true in H3. congruence.
    + destruct (string_is (returnCode bean) "4") eqn:Hcode4.
      * apply string_is_true in Hcode4. split; intros _.
        -- exists bean. auto.
        -- exists (refused ErrorTypes.ChangePassword). auto.
      * split.
        -- intros (r & [= <-] & Hr). discriminate Hr.
        -- intros (b & [= <-] & [H4 | [H1 _]]).
           ++ apply string_is_true in H4. congruence.
           ++ apply string_is_true in H1. congruence.
  - split.
    + intros (r & Hr & _). discriminate Hr.
    + intros (b & Hb & _). discriminate Hb.
Qed.

(** X23: login posts the validation request first, in every run, and posts
    the logon request, with the user name the validation returned and the
    credentials' password, only when the validation is accepted with return
    code "1"; it posts nothing else. *)
Theorem login_posts this credentials :
  post_requests (fst (login this credentials))
  = (validateUrlOf this, validateRequest this credentials)
    :: match validated this credentials with
       | Some bean =>
           if string_is (returnCode bean) "1"
           then [(loginUrlOf this, logonRequest credentials (userName bean))]
           else []
       | None => []
       end.
Proof.
  rewrite login_run.
  destruct (validated this credentials) as [bean|]; [| reflexivity].
  destruct (string_is (returnCode bean) "1").
  - cbv zeta. destruct (string_is (logonStatus this credentials bean) "1");
      [reflexivity |].
    destruct (string_is (logonStatus this credentials bean) "3"); reflexivity.
  - destruct (string_is (returnCode bean) "4"); reflexivity.
Qed.

End LoginMore.

(** ** The further properties on concrete inputs *)

Section ConcreteMore.

#[local] Existing Instance Sample.imports.

(** Installment 3 of 12 is Completed and of type Installments. *)
Lemma convertTransactions_type_witness :
  In (convertTransaction None Sample.third_of_twelve)
    (convertTransactions [Sample.third_of_twelve] None)
  /\ status (convertTransaction None Sample.third_of_twelve)
     = TransactionStatuses.Completed
  /\ type (convertTransaction None Sample.third_of_twelve)
     = TransactionTypes.Installments.
Proof.
  assert (Hin : In (convertTransaction None Sample.third_of_twelve)
                  (convertTransactions [Sample.third_of_twelve] None))
    by (left; reflexivity).
  split; [exact Hin |].
  destruct (convertTransactions_type_matches_installments
              (imports := Sample.imports) [Sample.third_of_twelve] None _ Hin)
    as (Hstatus & _ & Htype & _).
  split; [exact Hstatus |]. apply Htype. eexists. reflexivity.
Defined.

(** The descriptor of installment 3 of 12 comes from the runs 3 and 12 of
    its memo. *)
Lemma getInstallmentsInfo_nonnegative_witness :
  getInstallmentsInfo Sample.third_of_twelve
  = Some {| number := Int 3; total := Int 12 |}
  /\ exists memo pre d1 mid d2 post,
       moreInfo Sample.third_of_twelve = Some memo
       /\ includes memo INSTALLMENTS_KEYWORD = true
       /\ memo = pre +:+ d1 +:+ mid +:+ d2 +:+ post
       /\ no_digits pre = true
       /\ all_digits d1 = true /\ d1 <> EmptyString
       /\ no_digits mid = true /\ mid <> EmptyString
       /\ all_digits d2 = true /\ d2 <> EmptyString
       /\ ends_run post
       /\ Int 3 = number_of_Z (decimal d1) /\ 0 <= decimal d1
       /\ Int 12 = number_of_Z (decimal d2) /\ 0 <= decimal d2.
Proof.
  split; [reflexivity |].
  exact (getInstallmentsInfo_nonnegative Sample.third_of_twelve
           {| number := Int 3; total := Int 12 |} eq_refl).
Defined.

(** A month of the page that answers no transactions list. *)
Lemma fetchTransactions_empty_witness :
  transactions_bean
    (get_CardsTransactionsList MoreSamples.page_no_transactions
       (getTransactionsUrl Sample.services 2)) = None
  /\ snd (fetchTransactions MoreSamples.page_no_transactions Sample.extended 0 2)
     = Fulfilled EmptyArray.
Proof.
  split; [reflexivity |].
  rewrite (fetchTransactions_empty_without_bean (imports := Sample.imports)
             MoreSamples.page_no_transactions Sample.extended 0 2 eq_refl).
  reflexivity.
Defined.

(** The entry of the card 1234 in the second month. *)
Lemma fetchTransactions_entries_witness :
  snd (fetchTransactions Sample.page Sample.extended 0 2)
  = Fulfilled (Sample.month_result 2)
  /\ exists account,
       In account (processed_accounts Sample.page Sample.extended 2)
       /\ Account.accountNumber account = "1234".
Proof.
  assert (Hrun : snd (fetchTransactions Sample.page Sample.extended 0 2)
                 = Fulfilled (Sample.month_result 2)) by reflexivity.
  split; [exact Hrun |].
  destruct (fetchTransactions_entries (imports := Sample.imports)
              Sample.page Sample.extended 0 2 _ "1234" _ Hrun eq_refl)
    as (_ & account & Hin & Hk & _).
  exists account. split; assumption.
Defined.

(** Of two cards numbered 1234 the object keeps the one at index 1. *)
Lemma fetchTransactions_last_account_witness :
  processed_accounts MoreSamples.page_two_cards Sample.extended 2
  = [accountOfCardCharge MoreSamples.first_card]
    ++ accountOfCardCharge MoreSamples.second_card :: []
  /\ Account.accountNumber (accountOfCardCharge MoreSamples.second_card)
     <> "__proto__"
  /\ exists accountTxns entry,
       snd (fetchTransactions MoreSamples.page_two_cards Sample.extended 0 2)
       = Fulfilled (AccountTxnsObject accountTxns)
       /\ JsObject.get "1234" accountTxns = Some entry
       /\ AccountTxns.index entry = Int 1.
Proof.
  assert (Hnumber : Account.accountNumber
                      (accountOfCardCharge MoreSamples.second_card)
                    <> "__proto__") by discriminate.
  split; [reflexivity |]. split; [exact Hnumber |].
  destruct (fetchTransactions_last_account_wins (imports := Sample.imports)
              MoreSamples.page_two_cards Sample.extended 0 2
              [accountOfCardCharge MoreSamples.first_card] []
              (accountOfCardCharge MoreSamples.second_card)
              eq_refl (List.Forall_nil _) Hnumber)
    as (accountTxns & Hrun & Hget).
  exists accountTxns. eexists. split; [exact Hrun |]. split; [exact Hget |].
  reflexivity.
Defined.

(** Of a card numbered [__proto__] and the card 1234, both processed, the
    object of the month keeps the card 1234 alone. *)
Lemma fetchTransactions_no_proto_entry_witness :
  List.map Account.accountNumber
    (processed_accounts MoreSamples.page_proto_card Sample.extended 2)
  = ["__proto__"; "1234"]
  /\ exists result,
       snd (fetchTransactions MoreSamples.page_proto_card Sample.extended 0 2)
       = Fulfilled result
       /\ result_keys result = ["1234"]
       /\ ~ In "__proto__" (result_keys result).
Proof.
  split; [reflexivity |]. eexists. split; [reflexivity |].
  split; [reflexivity |].
  exact (proj1 (fetchTransactions_no_proto_entry (imports := Sample.imports)
                  MoreSamples.page_proto_card Sample.extended 0 2 _ eq_refl)).
Defined.

Lemma completion_312 : Permutation [2; 0; 1]%nat (seq 0 3).
Proof.
  simpl. apply perm_trans with [0; 2; 1]%nat;
    [apply perm_swap | apply perm_skip, perm_swap].
Defined.

Lemma sample_plain_accounts (monthMoment : Moment) :
  In monthMoment (getAllMonthMoments 0 true) ->
  plain_accounts Sample.page Sample.extended monthMoment.
Proof.
  intros [<- | [<- | [<- | []]]]; repeat constructor; simpl;
    intuition discriminate.
Defined.

Lemma sample_plain_numbers : Forall plain_numbers Sample.results.
Proof. repeat constructor; simpl; intuition discriminate. Defined.

(** The three months of [Sample.page] all return: none of them fails. *)
Lemma fetchAllTransactions_returns_witness :
  Permutation [2; 0; 1]%nat (seq 0 3)
  /\ (forall monthMoment,
        In monthMoment (getAllMonthMoments 0 true) ->
        plain_accounts Sample.page Sample.extended monthMoment)
  /\ forall monthMoment,
       In monthMoment (getAllMonthMoments 0 true) ->
       ~ month_fails Sample.page Sample.extended monthMoment.
Proof.
  split; [exact completion_312 |]. split; [exact sample_plain_accounts |].
  apply (fetchAllTransactions_returns_iff (imports := Sample.imports)
           Sample.page Sample.extended 0 [2; 0; 1]%nat completion_312
           sample_plain_accounts).
  eexists. reflexivity.
Defined.

(** Three months of one purchase each give a ledger of three. *)
Lemma fetchAllTransactions_keeps_witness :
  Forall plain_numbers Sample.results
  /\ list_sum (List.map result_size Sample.results) = 3%nat
  /\ exists ledger,
       snd Sample.run
       = Fulfilled {| success := true; accounts := Some ledger;
                      errorType := None |}
       /\ ledger_size ledger = 3%nat.
Proof.
  split; [exact sample_plain_numbers |]. split; [reflexivity |].
  apply (fetchAllTransactions_keeps_every_transaction (imports := Sample.imports)
           Sample.page Sample.extended 0 [2; 0; 1]%nat Sample.results
           completion_312).
  - repeat constructor.
  - exact sample_plain_numbers.
Defined.

(** Three months of the card numbered [constructor]: the aggregation is
    rejected at the first of them. *)
Lemma fetchAllTransactions_rejected_on_inherited_name_witness :
  Permutation [2; 0; 1]%nat (seq 0 3)
  /\ In "constructor" JsObject.Object_prototype_names
  /\ snd (fetchAllTransactions MoreSamples.page_constructor_card
            Sample.extended 0 [2; 0; 1]%nat)
     = Rejected push_not_a_function.
Proof.
  assert (Hname : In "constructor" JsObject.Object_prototype_names)
    by (simpl; tauto).
  split; [exact completion_312 |]. split; [exact Hname |].
  apply (fetchAllTransactions_rejected_on_inherited_name
           (imports := Sample.imports)
           MoreSamples.page_constructor_card Sample.extended 0 [2; 0; 1]%nat
           [MoreSamples.constructor_result 1; MoreSamples.constructor_result 2;
            MoreSamples.constructor_result 3]
           (MoreSamples.constructor_result 1) "constructor" completion_312).
  - repeat constructor.
  - by left.
  - by left.
  - exact Hname.
Defined.

(** At the instant 1000 one year back is 640: for a caller who asks from
    the instant 50 on, the months fetched are the thirteen from 630, the
    month of the instant 640, to 990. *)
Lemma fetchData_effective_start_witness :
  monthSequence_contract (imports := MoreSamples.calendar_imports)
    MoreSamples.calendarMonth 640
  /\ getAllMonthMoments (Imports := MoreSamples.calendar_imports) 640 true
     = [630; 660; 690; 720; 750; 780; 810; 840; 870; 900; 930; 960; 990]
  /\ forall monthMoment,
       In monthMoment
         (getAllMonthMoments (Imports := MoreSamples.calendar_imports) 640 true) ->
       exists instant,
         640 <= instant /\ monthMoment = MoreSamples.calendarMonth instant.
Proof.
  assert (Hcontract : monthSequence_contract
                        (imports := MoreSamples.calendar_imports)
                        MoreSamples.calendarMonth 640).
  { intros m Hin. exists (Z.max 640 m). vm_compute in Hin.
    repeat (destruct Hin as [<- | Hin]; [split; [lia | reflexivity] |]).
    destruct Hin. }
  split; [exact Hcontract |]. split; [reflexivity |].
  pose proof (fetchData_effective_start (imports := MoreSamples.calendar_imports)
                MoreSamples.scraper_from_50 1000 [] MoreSamples.calendarMonth)
    as H.
  cbv zeta in H. destruct H as (_ & _ & _ & _ & H).
  exact (H Hcontract).
Defined.

(** With no month, nothing is requested and nothing returned. *)
Lemma fetchAllTransactions_no_months_witness :
  getAllMonthMoments (Imports := MoreSamples.imports_no_months) 0 true = []
  /\ fetchAllTransactions (imports := MoreSamples.imports_no_months)
       Sample.page Sample.extended 0 []
     = ([], Fulfilled {| success := true; accounts := Some [];
                         errorType := None |}).
Proof.
  split; [reflexivity |].
  exact (fetchAllTransactions_no_months (imports := MoreSamples.imports_no_months)
           Sample.page Sample.extended 0 [] eq_refl).
Defined.

(** Another company code and a recorded start date change nothing. *)
Lemma fetchAllTransactions_options_witness :
  ExtendedOptions.companyCode Sample.extended
  <> ExtendedOptions.companyCode MoreSamples.other_company
  /\ fetchAllTransactions Sample.page Sample.extended 0 [2; 0; 1]%nat
     = fetchAllTransactions Sample.page MoreSamples.other_company 0 [2; 0; 1]%nat.
Proof.
  split; [discriminate |].
  exact (proj1 (fetchAllTransactions_options_used (imports := Sample.imports)
                  Sample.page Sample.extended MoreSamples.other_company 0
                  [2; 0; 1]%nat eq_refl eq_refl)).
Defined.

(** At the instant 100, a year back is 88: a start date of 50 is ignored. *)
Lemma fetchData_ignores_older_start_witness :
  50 <= moment_subtract_years 100 1
  /\ fetchData MoreSamples.scraper_from_50 100 [2; 0; 1]%nat
     = fetchData (with_startDate None MoreSamples.scraper_from_50) 100
         [2; 0; 1]%nat.
Proof.
  assert (Hle : 50 <= moment_subtract_years 100 1) by (simpl; lia).
  split; [exact Hle |].
  exact (fetchData_ignores_older_start (imports := Sample.imports)
           MoreSamples.scraper_from_50 100 50 [2; 0; 1]%nat eq_refl Hle).
Defined.

End ConcreteMore.

Section ConcreteScheduling.

#[local] Existing Instance Sample.imports.

(** The run in which the second month fails ends alike in both orders. *)
Lemma fetchAllTransactions_same_completion_witness :
  Permutation [2; 0; 1]%nat (seq 0 3)
  /\ fetchAllTransactions Sample.page_dashboard_fails Sample.extended 0
       [2; 0; 1]%nat
     = Sample.run_dashboard_fails.
Proof.
  split; [exact completion_312 |].
  exact (fetchAllTransactions_same_for_every_completion
           (imports := Sample.imports)
           Sample.page_dashboard_fails Sample.extended 0
           [2; 0; 1]%nat [0; 1; 2]%nat completion_312 (Permutation_refl _)).
Defined.

End ConcreteScheduling.
